(** * Color harmony scoring and outfit candidate generation

    A shallow embedding of [utils/colorExtraction.js] (the neutrality test)
    and [utils/colorMatching.js] (pairwise harmony, outfit scoring,
    explanation text and the random candidate generator), followed by the
    properties of these functions.

    Numbers.  The upload path stores [hsl] as three integers produced by
    [Math.round], so the components of a color are [Z].  A pairwise harmony
    score is a small integer ([Z]); the outfit total receives halves and is a
    rational ([Q]).  Every JavaScript operation used on these values (sums of
    integers and halves, one division by an array length, comparisons
    against literals) is exact at these magnitudes in double precision, so
    the rational reading agrees with the program.

    Strings are [string]; identifiers and categories are ASCII in this
    repository.

    Effects.  The generator calls [Math.random()] and [Date.now()]; their
    successive results are two given sequences, and a cursor counts how
    many of each have been consumed.  An array element that is
    [undefined] is [None], and a [TypeError] is the failure of the
    computation.

    Beyond the scorer and the generator, the file embeds [rgbToHex] of
    [colorExtraction.js], the grouping and the wardrobe persistence of
    [storage.js], the item that [UploadWardrobe.jsx] builds, and the
    filter and the statistics of the wardrobe page.  [rgbToHsl] works in
    floating point and is left out. *)

From Stdlib Require Import ZArith QArith Qround Lqa Lia Bool List String Ascii.
From Stdlib Require Import Sorted Permutation DecimalString.
Import ListNotations.

Local Open Scope string_scope.
Local Open Scope Z_scope.

(** ** Color model ([colorExtraction.js]) *)

Module Color.

(** [hsl] is the array [[h, s, l]]; the code always destructures it. *)
Record HSL : Type := mkHSL { hue : Z; sat : Z; light : Z }.

(** [isNeutralColor]: three guarded early returns, then [false]. *)
Definition isNeutralColor (hsl : HSL) : bool :=
  let '(mkHSL h s l) := hsl in
  if s <? 12 then true
  else if (l >? 85) || (l <? 15) then true
  else if (h >=? 30) && (h <=? 60) && (s <? 40) then true
  else false.

(** [hueDifference]: [Math.abs] then [Math.min]. *)
Definition hueDifference (h1 h2 : Z) : Z :=
  let diff := Z.abs (h1 - h2) in
  Z.min diff (360 - diff).

(** The neutrality rule in the words of the design document. *)
Definition isNeutral_spec (c : HSL) : Prop :=
  sat c < 12 \/ light c > 85 \/ light c < 15 \/
  (30 <= hue c <= 60 /\ sat c < 40).

(** The stated ranges of a color. *)
Definition inRange (c : HSL) : Prop :=
  0 <= hue c < 360 /\ 0 <= sat c <= 100 /\ 0 <= light c <= 100.

End Color.
Import Color.

(** ** Pairwise harmony ([colorMatching.js]) *)

(** [calculateColorHarmony]: [score] is a local that the three rules
    update in turn; each [let] below is one of the source's [if]s. *)
Definition calculateColorHarmony (hsl1 hsl2 : HSL) (isFormalContext : bool) : Z :=
  let '(mkHSL h1 _ l1) := hsl1 in
  let '(mkHSL h2 _ l2) := hsl2 in
  let score := 0 in
  let hueDistance := hueDifference h1 h2 in
  let isNeutral1 := isNeutralColor hsl1 in
  let isNeutral2 := isNeutralColor hsl2 in
  let score :=
    if (hueDistance >=? 150) && (hueDistance <=? 210) then score + 2
    else if hueDistance <=? 30 then score + 1
    else score in
  let score :=
    if ((l1 <? 30) && (l2 >? 70)) || ((l2 <? 30) && (l1 >? 70)) then score + 1
    else score in
  let score :=
    if isNeutral1 || isNeutral2 then
      (if isFormalContext then score + 1 else score)
    else score in
  score.

(** The three contributions as the design document lists them. *)
Definition hueBonus_spec (d : Z) : Z :=
  if (150 <=? d) && (d <=? 210) then 2 else if d <=? 30 then 1 else 0.

Definition contrastBonus_spec (la lb : Z) : Z :=
  if ((la <? 30) && (lb >? 70)) || ((lb <? 30) && (la >? 70)) then 1 else 0.

Definition neutralBonus_spec (a b : HSL) (isFormal : bool) : Z :=
  if (isNeutralColor a || isNeutralColor b) && isFormal then 1 else 0.

Definition harmonyScore_spec (a b : HSL) (isFormal : bool) : Z :=
  hueBonus_spec (hueDifference (hue a) (hue b))
  + contrastBonus_spec (light a) (light b)
  + neutralBonus_spec a b isFormal.

(** ** Strings as the code uses them *)

(** [Array.prototype.join]. *)
Fixpoint join (sep : string) (l : list string) : string :=
  match l with
  | [] => ""
  | x :: rest =>
      match rest with
      | [] => x
      | _ :: _ => x ++ sep ++ join sep rest
      end
  end.

(** [String.prototype.toLowerCase] on ASCII letters. *)
Definition lowerAscii (c : ascii) : ascii :=
  let n := nat_of_ascii c in
  if (65 <=? n)%nat && (n <=? 90)%nat then ascii_of_nat (n + 32) else c.

Fixpoint toLowerCase (s : string) : string :=
  match s with
  | EmptyString => EmptyString
  | String c s' => String (lowerAscii c) (toLowerCase s')
  end.

(** [String.prototype.split] with a non-empty separator: a left-to-right
    scan that closes the current piece at each occurrence of [sep] and
    steps over it ([skip] counts the separator characters still to pass). *)
Fixpoint splitScan (sep : string) (skip : nat) (cur : string) (s : string)
  : list string :=
  match s with
  | EmptyString => [cur]
  | String c s' =>
      match skip with
      | S k => splitScan sep k cur s'
      | O =>
          if prefix sep s
          then cur :: splitScan sep (String.length sep - 1) "" s'
          else splitScan sep 0 (cur ++ String c "") s'
      end
  end.

Definition split (sep s : string) : list string := splitScan sep 0 "" s.

(** A template literal prints a number in decimal. *)
Definition natToString (n : nat) : string :=
  NilZero.string_of_uint (Nat.to_uint n).

(** A template literal prints a missing property as [undefined]. *)
Definition renderProp (p : option string) : string :=
  match p with
  | Some v => v
  | None => "undefined"
  end.

(** The default comparison of [Array.prototype.sort] on strings orders them
    by code unit; insertion into a sorted list gives the sorted array. *)
Fixpoint insertId (x : string) (l : list string) : list string :=
  match l with
  | [] => [x]
  | y :: rest => if String.leb x y then x :: l else y :: insertId x rest
  end.

Definition sortIds (l : list string) : list string :=
  fold_right insertId [] l.

(** Number of ['-'] characters in a string. *)
Fixpoint dashCount (s : string) : nat :=
  match s with
  | EmptyString => 0
  | String c s' => ((if Ascii.eqb c "-" then 1 else 0) + dashCount s')%nat
  end.

(** ** Rationals as the code compares them *)

(** [x > y] on numbers. *)
Definition Qgtb (x y : Q) : bool :=
  (Qnum y * QDen x <? Qnum x * QDen y)%Z.

(** [Math.round]: the nearest integer, halves upwards. *)
Definition mathRound (x : Q) : Z := Qfloor (x + (1 # 2))%Q.

(** ** Wardrobe items and scoring results *)

Module Item.
(** A wardrobe item as the scorer reads it.  The upload path writes [id],
    [category], [dominantColorHex] and [hsl] (besides display fields the
    scorer never touches); [hex] is the property that the explanation text
    reads, [None] when the object has no such property. *)
Record t : Type := mk {
  id : string;
  category : string;
  dominantColorHex : string;
  hsl : HSL;
  hex : option string
}.
End Item.

Abbreviation WardrobeItem := Item.t.

Module Details.
Record t : Type := mk {
  harmonyDetails : list string;
  neutralCount : nat;
  avgSaturation : Z
}.
End Details.

Module Scoring.
(** The object returned by [scoreOutfitCombination]; the early return has
    no [details] property. *)
Record t : Type := mk {
  score : Q;
  explanation : string;
  details : option Details.t
}.
End Scoring.

(** ** Outfit scoring *)

Module Acc.
(** The locals that the pair loop of [scoreOutfitCombination] updates. *)
Record t : Type := mk {
  totalScore : Q;
  harmonyDetails : list string;
  neutralCount : nat;
  avgSaturation : Q
}.
End Acc.

Definition pairLabel (item1 item2 : WardrobeItem) (what : string) : string :=
  Item.category item1 ++ " + " ++ Item.category item2 ++ ": " ++ what.

(** The body of the inner loop, for the pair [(items[i], items[j])]. *)
Definition pairStep (isFormal : bool) (item1 item2 : WardrobeItem) (a : Acc.t)
  : Acc.t :=
  let harmonyScore :=
    calculateColorHarmony (Item.hsl item1) (Item.hsl item2) isFormal in
  let totalScore := (Acc.totalScore a + inject_Z harmonyScore)%Q in
  let harmonyDetails := Acc.harmonyDetails a in
  let harmonyDetails :=
    if harmonyScore >? 0 then
      let hueDistance :=
        hueDifference (hue (Item.hsl item1)) (hue (Item.hsl item2)) in
      let harmonyDetails :=
        if (hueDistance >=? 150) && (hueDistance <=? 210) then
          (harmonyDetails ++ [pairLabel item1 item2 "complementary colors"])%list
        else if hueDistance <=? 30 then
          (harmonyDetails ++ [pairLabel item1 item2 "analogous harmony"])%list
        else harmonyDetails in
      if isNeutralColor (Item.hsl item1) || isNeutralColor (Item.hsl item2)
      then (harmonyDetails ++ [pairLabel item1 item2 "neutral pairing"])%list
      else harmonyDetails
    else harmonyDetails in
  Acc.mk totalScore harmonyDetails (Acc.neutralCount a) (Acc.avgSaturation a).

(** The end of one round of the outer loop: the statistics of [items[i]]. *)
Definition itemStep (item : WardrobeItem) (a : Acc.t) : Acc.t :=
  let neutralCount :=
    if isNeutralColor (Item.hsl item) then S (Acc.neutralCount a)
    else Acc.neutralCount a in
  Acc.mk (Acc.totalScore a) (Acc.harmonyDetails a) neutralCount
         (Acc.avgSaturation a + inject_Z (sat (Item.hsl item)))%Q.

(** The nested [for] loops: [items[i]] is the head, [j] runs over the
    tail from left to right. *)
Fixpoint pairLoop (isFormal : bool) (items : list WardrobeItem) (a : Acc.t)
  : Acc.t :=
  match items with
  | [] => a
  | item_i :: rest =>
      let a := fold_left (fun a item_j => pairStep isFormal item_i item_j a)
                         rest a in
      pairLoop isFormal rest (itemStep item_i a)
  end.

(** [generateOutfitExplanation]. *)
Definition generateOutfitExplanation (items : list WardrobeItem)
    (harmonyDetails : list string) (isFormal : bool) (neutralCount : nat)
    (avgSaturation : Q) : string :=
  let itemNames :=
    map (fun item => renderProp (Item.hex item) ++ " "
                     ++ toLowerCase (Item.category item)) items in
  if (List.length harmonyDetails =? 0)%nat && (neutralCount =? 0)%nat then
    join " + " itemNames ++ " — experimental color combination for "
      ++ (if isFormal then "formal" else "casual") ++ " wear"
  else
    let explanation := "" in
    let explanation :=
      if (0 <? neutralCount)%nat then
        explanation ++
          (if (neutralCount =? List.length items)%nat then "All neutral palette"
           else natToString neutralCount ++ " neutral item"
                ++ (if (1 <? neutralCount)%nat then "s" else "")
                ++ " provide balance")
      else explanation in
    let explanation :=
      match harmonyDetails with
      | primaryHarmony :: _ =>
          let explanation :=
            if (0 <? String.length explanation)%nat then explanation ++ "; "
            else explanation in
          explanation ++ renderProp (nth_error (split ": " primaryHarmony) 1)
      | [] => explanation
      end in
    let explanation :=
      if isFormal && (0 <? neutralCount)%nat then
        explanation ++ " — professional and sophisticated"
      else if negb isFormal && Qgtb avgSaturation 50 then
        explanation ++ " — vibrant and expressive"
      else explanation in
    join " + " itemNames ++ " — " ++ explanation.

(** [scoreOutfitCombination]. *)
Definition scoreOutfitCombination (items : list WardrobeItem) (isFormal : bool)
  : Scoring.t :=
  if (List.length items <? 2)%nat then
    Scoring.mk 0 "Not enough items for scoring" None
  else
    let a := pairLoop isFormal items (Acc.mk 0 [] 0 0) in
    let totalScore := Acc.totalScore a in
    let harmonyDetails := Acc.harmonyDetails a in
    let neutralCount := Acc.neutralCount a in
    let avgSaturation :=
      (Acc.avgSaturation a / inject_Z (Z.of_nat (List.length items)))%Q in
    let totalScore :=
      if isFormal then
        let totalScore :=
          (totalScore + inject_Z (Z.of_nat neutralCount) * (1 # 2))%Q in
        if Qgtb avgSaturation 55 then (totalScore - 1)%Q else totalScore
      else
        if Qgtb avgSaturation 40 then (totalScore + (1 # 2))%Q else totalScore in
    let explanation :=
      generateOutfitExplanation items harmonyDetails isFormal neutralCount
                                avgSaturation in
    Scoring.mk totalScore explanation
      (Some (Details.mk harmonyDetails neutralCount (mathRound avgSaturation))).

(** ** Candidate generation *)

Module Outfit.
(** The suggestion identifier is the template
    [outfit-${Date.now()}-${Math.random().toString(36).substr(2, 9)}]; the
    two values it is printed from are kept instead of the printed text. *)
Record ident : Type := mkIdent { stamp : Z; salt : Q }.

Record t : Type := mk {
  id : ident;
  items : list WardrobeItem;
  score : Q;
  explanation : string;
  details : option Details.t;
  style : string;
  timestamp : Z
}.
End Outfit.

Abbreviation OutfitCandidate := Outfit.t.

Module Wardrobe.
(** The grouped wardrobe object.  [groupItemsByCategory] creates a key only
    for a category that occurs, so a bucket may be missing ([None]); the
    generator's destructuring defaults a missing bucket to the empty
    array. *)
Record t : Type := mk {
  tops : option (list WardrobeItem);
  bottoms : option (list WardrobeItem);
  footwear : option (list WardrobeItem);
  accessories : option (list WardrobeItem)
}.
End Wardrobe.

(** [{ key = [] } = wardrobe]. *)
Definition orEmpty (bucket : option (list WardrobeItem)) : list WardrobeItem :=
  match bucket with
  | Some l => l
  | None => []
  end.

(** [array[i]] for a number [i]: [undefined] ([None]) outside the array. *)
Definition arrayGet {A : Type} (l : list A) (i : Z) : option A :=
  if i <? 0 then None else nth_error l (Z.to_nat i).

(** An array whose elements may be [undefined] holds only objects. *)
Fixpoint allDefined {A : Type} (l : list (option A)) : option (list A) :=
  match l with
  | [] => Some []
  | None :: _ => None
  | Some x :: rest =>
      match allDefined rest with
      | Some xs => Some (x :: xs)
      | None => None
      end
  end.

(** The key under which a combination is compared with the accepted ones:
    [items.map(item => item.id).sort().join('-')]. *)
Definition sortedIds (items : list WardrobeItem) : list string :=
  sortIds (map Item.id items).

Definition dedupKey (items : list WardrobeItem) : string :=
  join "-" (sortedIds items).

(** [suggestions.some(...)]. *)
Definition alreadySuggested (suggestions : list OutfitCandidate)
    (combinationIds : string) : bool :=
  existsb (fun suggestion =>
             String.eqb (dedupKey (Outfit.items suggestion)) combinationIds)
          suggestions.

(** [suggestions.sort((a, b) => b.score - a.score)]: the sort is stable, so
    each element is placed before the first later one that does not score
    strictly higher. *)
Fixpoint insertByScore (c : OutfitCandidate) (l : list OutfitCandidate)
  : list OutfitCandidate :=
  match l with
  | [] => [c]
  | d :: rest =>
      if Qgtb (Outfit.score d) (Outfit.score c)
      then d :: insertByScore c rest
      else c :: l
  end.

Definition sortByScore (l : list OutfitCandidate) : list OutfitCandidate :=
  fold_right insertByScore [] l.

(** What one round of the generation loop did with its draw. *)
Inductive Outcome : Type :=
| TooShort (combination : list (option WardrobeItem))
| Duplicate (combination : list WardrobeItem) (combinationIds : string)
| Pushed (combinationIds : string) (suggestion : OutfitCandidate).

(** What a round leaves in [suggestions]. *)
Definition afterRound (suggestions : list OutfitCandidate) (o : Outcome)
  : list OutfitCandidate :=
  match o with
  | Pushed _ suggestion => (suggestions ++ [suggestion])%list
  | TooShort _ | Duplicate _ _ => suggestions
  end.

(** The record of a run: for each round, [suggestions] as the round found
    it and what the round did.  Nothing in the generator reads it. *)
Definition Log : Type := list (list OutfitCandidate * Outcome).

Definition maxCandidates : nat := 200.

Section Generator.

(** The successive results of [Math.random()] and of [Date.now()]. *)
Variable random_values : nat -> Q.
Variable clock_values : nat -> Z.

(** How many results of each have been consumed. *)
Record Cursor : Type := mkCursor { randoms : nat; ticks : nat }.

(** Computations that read the two sources and may throw ([None]). *)
Definition M (A : Type) : Type := Cursor -> option (A * Cursor).

Definition ret {A : Type} (a : A) : M A := fun c => Some (a, c).

Definition bind {A B : Type} (m : M A) (k : A -> M B) : M B :=
  fun c =>
    match m c with
    | Some (a, c') => k a c'
    | None => None
    end.

Definition throw {A : Type} : M A := fun _ => None.

Definition mathRandom : M Q :=
  fun c => Some (random_values (randoms c), mkCursor (S (randoms c)) (ticks c)).

Definition dateNow : M Z :=
  fun c => Some (clock_values (ticks c), mkCursor (randoms c) (S (ticks c))).

Notation "x <- m ;; k" := (bind m (fun x => k))
  (at level 61, m at next level, right associativity).

(** [bucket[Math.floor(Math.random() * bucket.length)]]. *)
Definition pickFrom (bucket : list WardrobeItem) : M (option WardrobeItem) :=
  r <- mathRandom ;;
  ret (arrayGet bucket
         (Qfloor (r * inject_Z (Z.of_nat (List.length bucket))))).

(** [if (bucket.length > 0) combination.push(pick)]. *)
Definition pushRequired (bucket : list WardrobeItem)
    (combination : list (option WardrobeItem))
  : M (list (option WardrobeItem)) :=
  if (0 <? List.length bucket)%nat then
    x <- pickFrom bucket ;;
    ret (combination ++ [x])%list
  else ret combination.

(** [if (bucket.length > 0 && Math.random() > threshold)
       combination.push(pick)]: the second test is not evaluated on an
    empty bucket.  The thresholds are the literals 0.3 and 0.5. *)
Definition pushOptional (threshold : Q) (bucket : list WardrobeItem)
    (combination : list (option WardrobeItem))
  : M (list (option WardrobeItem)) :=
  if (0 <? List.length bucket)%nat then
    r <- mathRandom ;;
    if Qgtb r threshold then
      x <- pickFrom bucket ;;
      ret (combination ++ [x])%list
    else ret combination
  else ret combination.

Definition drawCombination (tops bottoms footwear accessories : list WardrobeItem)
  : M (list (option WardrobeItem)) :=
  let combination := [] in
  combination <- pushRequired tops combination ;;
  combination <- pushRequired bottoms combination ;;
  combination <- pushOptional (3 # 10) footwear combination ;;
  combination <- pushOptional (1 # 2) accessories combination ;;
  ret combination.

(** The body of the [while] loop.  A combination of two or more elements
    is scored first; reading [.hsl] of an [undefined] element throws. *)
Definition attempt (tops bottoms footwear accessories : list WardrobeItem)
    (isFormal : bool) (suggestions : list OutfitCandidate) : M Outcome :=
  combination <- drawCombination tops bottoms footwear accessories ;;
  if (List.length combination <? 2)%nat then ret (TooShort combination)
  else
    match allDefined combination with
    | None => throw
    | Some items =>
        let scoring := scoreOutfitCombination items isFormal in
        let combinationIds := dedupKey items in
        let exists_ := alreadySuggested suggestions combinationIds in
        if negb exists_ then
          t <- dateNow ;;
          r <- mathRandom ;;
          t' <- dateNow ;;
          ret (Pushed combinationIds
                 (Outfit.mk (Outfit.mkIdent t r) items
                    (Scoring.score scoring) (Scoring.explanation scoring)
                    (Scoring.details scoring)
                    (if isFormal then "formal" else "casual") t'))
        else ret (Duplicate items combinationIds)
    end.

(** The [while] loop; [fuel] is [maxCandidates - attempts]. *)
Fixpoint generateLoop (fuel : nat)
    (tops bottoms footwear accessories : list WardrobeItem)
    (isFormal : bool) (maxSuggestions : nat)
    (suggestions : list OutfitCandidate) (log : Log)
  : M (list OutfitCandidate * Log) :=
  match fuel with
  | O => ret (suggestions, log)
  | S fuel' =>
      if (List.length suggestions <? maxSuggestions)%nat then
        o <- attempt tops bottoms footwear accessories isFormal suggestions ;;
        generateLoop fuel' tops bottoms footwear accessories isFormal
          maxSuggestions (afterRound suggestions o)
          (log ++ [(suggestions, o)])%list
      else ret (suggestions, log)
  end.

(** [generateOutfitSuggestions].  [maxSuggestions] is a count (the one
    caller passes 3), so [slice(0, maxSuggestions)] keeps the first
    [maxSuggestions] elements. *)
Definition generateOutfitSuggestions (wardrobe : Wardrobe.t) (isFormal : bool)
    (maxSuggestions : nat) : M (list OutfitCandidate) :=
  let tops := orEmpty (Wardrobe.tops wardrobe) in
  let bottoms := orEmpty (Wardrobe.bottoms wardrobe) in
  let footwear := orEmpty (Wardrobe.footwear wardrobe) in
  let accessories := orEmpty (Wardrobe.accessories wardrobe) in
  if (List.length tops =? 0)%nat && (List.length bottoms =? 0)%nat then ret []
  else
    r <- generateLoop maxCandidates tops bottoms footwear accessories isFormal
           maxSuggestions [] [] ;;
    ret (firstn maxSuggestions (sortByScore (fst r))).

(** The rounds of the run that [generateOutfitSuggestions] makes: none on
    the early return. *)
Definition generationRounds (wardrobe : Wardrobe.t) (isFormal : bool)
    (maxSuggestions : nat) : M (list OutfitCandidate * Log) :=
  let tops := orEmpty (Wardrobe.tops wardrobe) in
  let bottoms := orEmpty (Wardrobe.bottoms wardrobe) in
  let footwear := orEmpty (Wardrobe.footwear wardrobe) in
  let accessories := orEmpty (Wardrobe.accessories wardrobe) in
  if (List.length tops =? 0)%nat && (List.length bottoms =? 0)%nat
  then ret ([], [])
  else generateLoop maxCandidates tops bottoms footwear accessories isFormal
         maxSuggestions [] [].

End Generator.

Arguments ret {A} a _.
Arguments throw {A} _.

(** ** Vocabulary of the properties *)

(** The pairs [(items[i], items[j])], [i < j], in the order the nested
    loops visit them. *)
Fixpoint unorderedPairs {A : Type} (l : list A) : list (A * A) :=
  match l with
  | [] => []
  | a :: rest => (map (pair a) rest ++ unorderedPairs rest)%list
  end.

Definition pairHarmony (isFormal : bool) (p : WardrobeItem * WardrobeItem) : Z :=
  calculateColorHarmony (Item.hsl (fst p)) (Item.hsl (snd p)) isFormal.

Definition pairHueDistance (p : WardrobeItem * WardrobeItem) : Z :=
  hueDifference (hue (Item.hsl (fst p))) (hue (Item.hsl (snd p))).

Definition eitherNeutral (p : WardrobeItem * WardrobeItem) : bool :=
  isNeutralColor (Item.hsl (fst p)) || isNeutralColor (Item.hsl (snd p)).

(** The details of one pair: nothing for a pair that scores 0; otherwise
    the hue relation if there is one, then the neutral pairing if either
    color is neutral. *)
Definition pairDetails_spec (isFormal : bool) (p : WardrobeItem * WardrobeItem)
  : list string :=
  if pairHarmony isFormal p >? 0 then
    ((if (150 <=? pairHueDistance p) && (pairHueDistance p <=? 210)
      then [pairLabel (fst p) (snd p) "complementary colors"]
      else if pairHueDistance p <=? 30
      then [pairLabel (fst p) (snd p) "analogous harmony"]
      else [])
     ++
     (if eitherNeutral p then [pairLabel (fst p) (snd p) "neutral pairing"]
      else []))%list
  else [].

Definition sumQ (l : list Q) : Q := fold_right Qplus 0%Q l.

(** The pairwise accumulation: the harmony scores of all pairs, added up. *)
Definition pairwiseTotal_spec (isFormal : bool) (items : list WardrobeItem) : Q :=
  sumQ (map (fun p => inject_Z (pairHarmony isFormal p)) (unorderedPairs items)).

Definition neutralItems_spec (items : list WardrobeItem) : nat :=
  List.length (filter (fun item => isNeutralColor (Item.hsl item)) items).

Definition saturationSum (items : list WardrobeItem) : Z :=
  fold_right Z.add 0 (map (fun item => sat (Item.hsl item)) items).

Definition meanSaturation_spec (items : list WardrobeItem) : Q :=
  (inject_Z (saturationSum items) / inject_Z (Z.of_nat (List.length items)))%Q.

(** The item list that opens an explanation, with [shown] as the color
    identifier of an item. *)
Definition itemList (shown : WardrobeItem -> string) (items : list WardrobeItem)
  : string :=
  join " + " (map (fun item => shown item ++ " " ++ toLowerCase (Item.category item))
                  items).

(** An item as the upload path builds it: no [hex] property. *)
Definition uploadShaped (item : WardrobeItem) : Prop := Item.hex item = None.

(** [Math.random()] returns a number in [0, 1). *)
Definition randomContract (random_values : nat -> Q) : Prop :=
  forall n, (0 <= random_values n /\ random_values n < 1)%Q.

Definition topsOf (w : Wardrobe.t) := orEmpty (Wardrobe.tops w).
Definition bottomsOf (w : Wardrobe.t) := orEmpty (Wardrobe.bottoms w).
Definition footwearOf (w : Wardrobe.t) := orEmpty (Wardrobe.footwear w).
Definition accessoriesOf (w : Wardrobe.t) := orEmpty (Wardrobe.accessories w).

Definition itemsOf (w : Wardrobe.t) : list WardrobeItem :=
  (topsOf w ++ bottomsOf w ++ footwearOf w ++ accessoriesOf w)%list.

(** Every identifier of the wardrobe has [k] dashes; the identifiers that
    the upload path and the store generate, [item-<ms>-<base 36>], have 2. *)
Definition uniformDashes (k : nat) (w : Wardrobe.t) : Prop :=
  forall item, In item (itemsOf w) -> dashCount (Item.id item) = k.

Definition optItem (o : option WardrobeItem) : list WardrobeItem :=
  match o with
  | Some x => [x]
  | None => []
  end.

Definition drawnFrom (bucket : list WardrobeItem) (o : option WardrobeItem)
  : Prop :=
  match o with
  | Some x => In x bucket
  | None => True
  end.

(** At most one item of each bucket, in bucket order. *)
Definition onePerBucket (w : Wardrobe.t) (items : list WardrobeItem) : Prop :=
  exists t b f a,
    items = (optItem t ++ optItem b ++ optItem f ++ optItem a)%list /\
    drawnFrom (topsOf w) t /\ drawnFrom (bottomsOf w) b /\
    drawnFrom (footwearOf w) f /\ drawnFrom (accessoriesOf w) a.

Definition scoreDescending (l : list OutfitCandidate) : Prop :=
  StronglySorted (fun c d => (Outfit.score d <= Outfit.score c)%Q) l.

Definition styleTag (isFormal : bool) : string :=
  if isFormal then "formal" else "casual".

(** What the record of a round says about deduplication: a duplicate
    shares its sorted identifiers with an accepted candidate, a pushed
    candidate with none, and the key recomputed from a pushed candidate's
    items is the key it was admitted under. *)
Definition roundDedup (entry : list OutfitCandidate * Outcome) : Prop :=
  let (accepted, o) := entry in
  match o with
  | TooShort _ => True
  | Duplicate combination _ =>
      exists s, In s accepted /\
                sortedIds (Outfit.items s) = sortedIds combination
  | Pushed combinationIds suggestion =>
      (forall s, In s accepted ->
                 sortedIds (Outfit.items s) <> sortedIds (Outfit.items suggestion)) /\
      dedupKey (Outfit.items suggestion) = combinationIds
  end.

(** A combination as the loop body assembles it: a top when there are
    tops, a bottom when there are bottoms, and at most one item of each of
    the other two buckets. *)
Definition drawShape (w : Wardrobe.t) (items : list WardrobeItem) : Prop :=
  exists t b f a,
    items = (optItem t ++ optItem b ++ optItem f ++ optItem a)%list /\
    (drawnFrom (topsOf w) t /\ drawnFrom (bottomsOf w) b /\
     drawnFrom (footwearOf w) f /\ drawnFrom (accessoriesOf w) a) /\
    (topsOf w <> [] -> t <> None) /\ (bottomsOf w <> [] -> b <> None).

(** A suggestion as the loop body builds it. *)
Definition candidateOk (w : Wardrobe.t) (isFormal : bool) (s : OutfitCandidate)
  : Prop :=
  drawShape w (Outfit.items s) /\
  (2 <= List.length (Outfit.items s))%nat /\
  Outfit.style s = styleTag isFormal /\
  Outfit.score s
  = Scoring.score (scoreOutfitCombination (Outfit.items s) isFormal).

(** What the loop body guarantees about the round it records. *)
Definition roundOk (w : Wardrobe.t) (isFormal : bool)
    (entry : list OutfitCandidate * Outcome) : Prop :=
  let (accepted, o) := entry in
  Forall (candidateOk w isFormal) accepted /\
  match o with
  | TooShort combination => (List.length combination < 2)%nat
  | Duplicate combination combinationIds =>
      drawShape w combination /\ (2 <= List.length combination)%nat /\
      combinationIds = dedupKey combination /\
      alreadySuggested accepted combinationIds = true
  | Pushed combinationIds suggestion =>
      candidateOk w isFormal suggestion /\
      combinationIds = dedupKey (Outfit.items suggestion) /\
      alreadySuggested accepted combinationIds = false
  end.

(** The invariant of the generation loop. *)
Definition loopInv (w : Wardrobe.t) (isFormal : bool) (maxSuggestions : nat)
    (suggestions : list OutfitCandidate) (log : Log) : Prop :=
  Forall (candidateOk w isFormal) suggestions /\
  NoDup (map (fun s => dedupKey (Outfit.items s)) suggestions) /\
  (List.length suggestions <= maxSuggestions)%nat /\
  Forall (roundOk w isFormal) log /\
  (forall s, In s suggestions ->
     exists accepted,
       In (accepted, Pushed (dedupKey (Outfit.items s)) s) log).

(** A finite list of [Math.random()] results within the contract. *)
Definition withinContract (l : list Q) : bool :=
  forallb (fun q => Qle_bool 0 q && Qgtb 1 q) l.

(** A source of [Math.random()] results that repeats a finite list. *)
Definition cycle (l : list Q) (n : nat) : Q :=
  nth (n mod List.length l) l 0%Q.

(** ** Sample data *)

Module Samples.

(** Items with the fields the upload path writes. *)
Definition navyShirt : WardrobeItem :=
  Item.mk "item-1-a" "Tops" "#102030" (mkHSL 0 80 20) None.
Definition skyJeans : WardrobeItem :=
  Item.mk "item-2-b" "Bottoms" "#a0b0c0" (mkHSL 180 80 80) None.
Definition tanShoes : WardrobeItem :=
  Item.mk "item-3-c" "Footwear" "#d9c9a3" (mkHSL 45 20 80) None.
Definition sandBelt : WardrobeItem :=
  Item.mk "item-4-d" "Accessories" "#c2b280" (mkHSL 45 20 80) None.

(** One item in every bucket. *)
Definition capsule : Wardrobe.t :=
  Wardrobe.mk (Some [navyShirt]) (Some [skyJeans]) (Some [tanShoes])
              (Some [sandBelt]).

(** A pair that scores through lightness contrast only. *)
Definition darkRed : WardrobeItem :=
  Item.mk "item-5-e" "Tops" "#4d1a1a" (mkHSL 0 50 20) None.
Definition paleLime : WardrobeItem :=
  Item.mk "item-6-f" "Bottoms" "#cce6b3" (mkHSL 90 50 80) None.

(** Identifiers that contain the separator of the key in different places. *)
Definition topA : WardrobeItem :=
  Item.mk "a" "Tops" "#102030" (mkHSL 0 80 20) None.
Definition topAB : WardrobeItem :=
  Item.mk "a-b" "Tops" "#203040" (mkHSL 10 80 20) None.
Definition bottomBC : WardrobeItem :=
  Item.mk "b-c" "Bottoms" "#a0b0c0" (mkHSL 180 80 80) None.
Definition bottomC : WardrobeItem :=
  Item.mk "c" "Bottoms" "#b0c0d0" (mkHSL 190 80 80) None.

Definition dashed : Wardrobe.t :=
  Wardrobe.mk (Some [topA; topAB]) (Some [bottomBC; bottomC]) None None.

(** [Math.random()] results, repeated, and a clock that advances by one. *)
Definition draws : nat -> Q :=
  cycle [0; 0; 1 # 10; 2 # 10; 4 # 10; 0; 0; 5 # 10; 0; 1 # 10; 7 # 10;
         0; 0; 0; 6 # 10; 0; 3 # 10; 0; 0; 8 # 10; 0; 8 # 10; 0; 4 # 10]%Q.

Definition dashedDraws : nat -> Q :=
  cycle [1 # 10; 2 # 10; 9 # 10; 6 # 10; 7 # 10]%Q.

Definition clock (n : nat) : Z := 1700000000000 + Z.of_nat n.

Definition start : Cursor := mkCursor 0 0.

End Samples.

(** ** The hex color identifier ([colorExtraction.js]) *)

(** [ToInt32]: the operands of [<<] are taken modulo 2^32 into the signed
    32-bit range, and so is the result. *)
Definition toInt32 (n : Z) : Z := (n + 2 ^ 31) mod 2 ^ 32 - 2 ^ 31.

Definition shiftLeft (n k : Z) : Z := toInt32 (toInt32 n * 2 ^ k).

Definition hexDigit (d : Z) : ascii :=
  nth (Z.to_nat d)
      ["0"; "1"; "2"; "3"; "4"; "5"; "6"; "7"; "8"; "9";
       "a"; "b"; "c"; "d"; "e"; "f"]%char "0"%char.

(** The digits of a non-negative integer in base 16, most significant
    first, written in front of [acc]; [fuel] bounds the number of
    digits. *)
Fixpoint toHexDigits (fuel : nat) (n : Z) (acc : string) : string :=
  match fuel with
  | O => acc
  | S fuel' =>
      let acc := String (hexDigit (n mod 16)) acc in
      if n <? 16 then acc else toHexDigits fuel' (n / 16) acc
  end.

(** [Number.prototype.toString(16)] on an integer: a number below
    2^(k+1) has at most k+1 digits. *)
Definition toString16 (n : Z) : string :=
  if n <? 0 then "-" ++ toHexDigits (S (Z.to_nat (Z.log2 (- n)))) (- n) ""
  else toHexDigits (S (Z.to_nat (Z.log2 n))) n "".

(** [String.prototype.slice(1)]. *)
Definition slice1 (s : string) : string :=
  match s with
  | EmptyString => EmptyString
  | String _ rest => rest
  end.

(** [rgbToHex], on integer channels. *)
Definition rgbToHex (r g b : Z) : string :=
  "#" ++ slice1 (toString16 (shiftLeft 1 24 + shiftLeft r 16 + shiftLeft g 8 + b)).

(** The value of a hex digit, and of a string of hex digits read after
    the value [v]. *)
Definition hexValue (c : ascii) : option Z :=
  let n := Z.of_nat (nat_of_ascii c) in
  if (48 <=? n) && (n <=? 57) then Some (n - 48)
  else if (97 <=? n) && (n <=? 102) then Some (n - 87)
  else None.

Fixpoint parseHexFrom (v : Z) (s : string) : option Z :=
  match s with
  | EmptyString => Some v
  | String c rest =>
      match hexValue c with
      | Some d => parseHexFrom (16 * v + d) rest
      | None => None
      end
  end.

(** Two hex digits for a channel, the high one first. *)
Definition hexPair (x : Z) : string :=
  String (hexDigit (x / 16)) (String (hexDigit (x mod 16)) "").

(** ** Upload and grouping ([UploadWardrobe.jsx], [storage.js]) *)

(** [String.prototype.toUpperCase] on ASCII letters. *)
Definition upperAscii (c : ascii) : ascii :=
  let n := nat_of_ascii c in
  if (97 <=? n)%nat && (n <=? 122)%nat then ascii_of_nat (n - 32) else c.

(** [category.charAt(0).toUpperCase() + category.slice(1)]. *)
Definition capitalize (category : string) : string :=
  match category with
  | EmptyString => EmptyString
  | String c rest => String (upperAscii c) rest
  end.

(** The item that [handleFileUpload] builds for a file dropped on the
    tile [category], from the dominant color of the image: the hex
    identifier is [rgbToHex] of the color; [hsl] is what [rgbToHsl]
    returned for it. *)
Definition newItem (id category : string) (r g b : Z) (hsl : HSL)
  : WardrobeItem :=
  Item.mk id (capitalize category) (rgbToHex r g b) hsl None.

(** The object that the grouping [reduce] fills: its own properties, in
    the order in which they were created. *)
Definition Groups : Type := list (string * list WardrobeItem).

Fixpoint getOwn (key : string) (groups : Groups) : option (list WardrobeItem) :=
  match groups with
  | [] => None
  | (k, v) :: rest => if String.eqb k key then Some v else getOwn key rest
  end.

Fixpoint setOwn (key : string) (v : list WardrobeItem) (groups : Groups)
  : Groups :=
  match groups with
  | [] => [(key, v)]
  | (k, v0) :: rest =>
      if String.eqb k key then (k, v) :: rest
      else (k, v0) :: setOwn key v rest
  end.

(** The lower-case property names that an object literal inherits from
    [Object.prototype]: reading them gives a value that is truthy and has
    no [push]. *)
Definition inheritedKey (key : string) : bool :=
  String.eqb key "constructor" || String.eqb key "__proto__".

(** The callback of the [reduce]: [None] is the [TypeError] of calling
    [push] on an inherited value. *)
Definition groupStep (groups : Groups) (item : WardrobeItem) : option Groups :=
  let category := toLowerCase (Item.category item) in
  match getOwn category groups with
  | Some l => Some (setOwn category (l ++ [item])%list groups)
  | None =>
      if inheritedKey category then None
      else Some (setOwn category [item] groups)
  end.

Fixpoint groupItemsFrom (groups : Groups) (items : list WardrobeItem)
  : option Groups :=
  match items with
  | [] => Some groups
  | item :: rest =>
      match groupStep groups item with
      | Some groups' => groupItemsFrom groups' rest
      | None => None
      end
  end.

(** [groupItemsByCategory]. *)
Definition groupItemsByCategory (items : list WardrobeItem) : option Groups :=
  groupItemsFrom [] items.

(** The grouped object as [generateOutfitSuggestions] destructures it. *)
Definition asWardrobe (groups : Groups) : Wardrobe.t :=
  Wardrobe.mk (getOwn "tops" groups) (getOwn "bottoms" groups)
              (getOwn "footwear" groups) (getOwn "accessories" groups).

Module Stats.
Record t : Type := mk {
  total : nat;
  tops : nat;
  bottoms : nat;
  footwear : nat;
  accessories : nat
}.
End Stats.

(** [grouped.key?.length || 0]. *)
Definition lengthOrZero (bucket : option (list WardrobeItem)) : nat :=
  match bucket with
  | Some l => List.length l
  | None => 0
  end.

(** [getCategoryStats] of the wardrobe page. *)
Definition getCategoryStats (wardrobeItems : list WardrobeItem)
  : option Stats.t :=
  match groupItemsByCategory wardrobeItems with
  | None => None
  | Some grouped =>
      Some (Stats.mk (List.length wardrobeItems)
                     (lengthOrZero (getOwn "tops" grouped))
                     (lengthOrZero (getOwn "bottoms" grouped))
                     (lengthOrZero (getOwn "footwear" grouped))
                     (lengthOrZero (getOwn "accessories" grouped)))
  end.

(** [filterItems] of the wardrobe page. *)
Definition filterItems (selectedCategory : string)
    (wardrobeItems : list WardrobeItem) : list WardrobeItem :=
  if String.eqb selectedCategory "all" then wardrobeItems
  else filter (fun item =>
                 String.eqb (toLowerCase (Item.category item)) selectedCategory)
              wardrobeItems.

(** The items whose lower-cased category is [key], in list order. *)
Definition bucketOf (key : string) (items : list WardrobeItem)
  : list WardrobeItem :=
  filter (fun item => String.eqb (toLowerCase (Item.category item)) key) items.

(** An empty bucket is a missing property. *)
Definition presentBucket (l : list WardrobeItem) : option (list WardrobeItem) :=
  match l with
  | [] => None
  | _ :: _ => Some l
  end.

(** The grouped object after the items [seen]. *)
Definition groupsAfter (seen : list WardrobeItem) (g : Groups) : Prop :=
  forall key, getOwn key g = presentBucket (bucketOf key seen).

Definition categoryKeys : list string :=
  ["tops"; "bottoms"; "footwear"; "accessories"].

(** ** Persistence ([storage.js]) *)

Module Stored.
(** A wardrobe item as it is persisted: the fields of the item and the
    time at which [addWardrobeItem] stored it. *)
Record t : Type := mk { item : WardrobeItem; addedAt : Z }.
End Stored.

Module Saved.
(** A saved outfit: the fields of the suggestion and [savedAt]. *)
Record t : Type := mk { outfit : OutfitCandidate; savedAt : Z }.
End Saved.

(** What [JSON.parse] can return.  A number is the rational that the
    double is; an object is the list of its own properties. *)
#[warnings="-register-all"]
Inductive Json : Type :=
| JNull
| JBool (b : bool)
| JNumber (n : Q)
| JString (s : string)
| JArray (elements : list Json)
| JObject (fields : list (string * Json)).

(** What [localStorage] holds under one of the keys of the application:
    no text (or the empty one, which is falsy), a text that [JSON.parse]
    rejects, or a text that it parses to a value.  The application writes
    arrays only, but the text is whatever the browser has under the key:
    [null], a number or an object parse as well. *)
Inductive Cell : Type :=
| Absent
| Unreadable
| Parsed (value : Json).

Module Storage.
Record t : Type := mk {
  wardrobe_items : Cell;
  saved_outfits : Cell
}.
End Storage.

(** [const items = getItem(key); return items ? JSON.parse(items) : []]
    inside [try], whose [catch] returns [[]]: whatever the text parses
    to is returned, array or not. *)
Definition readCell (cell : Cell) : Json :=
  match cell with
  | Parsed value => value
  | Absent | Unreadable => JArray []
  end.

(** A value of JavaScript that is [undefined] ([None]) or came out of
    [JSON.parse]. *)
Definition JsValue : Type := option Json.

(** Reading an own property of an object. *)
Fixpoint getProperty (key : string) (fields : list (string * Json)) : JsValue :=
  match fields with
  | [] => None
  | (k, v) :: rest => if String.eqb k key then Some v else getProperty key rest
  end.

(** [item.id] for an element of a parsed array: a [TypeError] ([None]) on
    [null], the own property of an object, [undefined] on everything else
    (no prototype has an [id]). *)
Definition readId (element : Json) : option JsValue :=
  match element with
  | JNull => None
  | JObject fields => Some (getProperty "id" fields)
  | JBool _ | JNumber _ | JString _ | JArray _ => Some None
  end.

(** [a === b].  An array or an object that was just parsed is a new
    reference, which is identical to nothing else. *)
Definition strictEquals (a b : JsValue) : bool :=
  match a, b with
  | None, None => true
  | Some JNull, Some JNull => true
  | Some (JBool x), Some (JBool y) => Bool.eqb x y
  | Some (JNumber x), Some (JNumber y) => Qeq_bool x y
  | Some (JString x), Some (JString y) => String.eqb x y
  | _, _ => false
  end.

(** [items.filter(item => item.id !== itemId)] on an array; [None] when
    the callback throws. *)
Fixpoint filterById (itemId : JsValue) (items : list Json)
  : option (list Json) :=
  match items with
  | [] => Some []
  | item :: rest =>
      match readId item with
      | None => None
      | Some id =>
          match filterById itemId rest with
          | None => None
          | Some kept =>
              Some (if strictEquals id itemId then kept else item :: kept)
          end
      end
  end.

Definition withId (item : WardrobeItem) (id : string) : WardrobeItem :=
  Item.mk id (Item.category item) (Item.dominantColorHex item) (Item.hsl item)
          (Item.hex item).

Definition JInteger (n : Z) : Json := JNumber (inject_Z n).

(** An object with the properties that the model of a stored item has,
    as [JSON.stringify] and [JSON.parse] give it back; an [undefined]
    property is not written. *)
Definition itemObject (stored : Stored.t) : Json :=
  let item := Stored.item stored in
  JObject ([("id", JString (Item.id item));
            ("category", JString (Item.category item));
            ("dominantColorHex", JString (Item.dominantColorHex item));
            ("hsl", JArray [JInteger (hue (Item.hsl item));
                            JInteger (sat (Item.hsl item));
                            JInteger (light (Item.hsl item))])]
           ++ match Item.hex item with
              | Some hex => [("hex", JString hex)]
              | None => []
              end
           ++ [("addedAt", JInteger (Stored.addedAt stored))])%list.

(** What is asked of the JSON image of a stored item: it is an object
    whose [id] is the identifier of the item.  The image may have any
    further property (the file name, the picture and the [rgb] triple of
    an uploaded item are outside the model). *)
Definition writesId (itemJson : Stored.t -> Json) : Prop :=
  forall stored,
    readId (itemJson stored)
    = Some (Some (JString (Item.id (Stored.item stored)))).

(** The stored items whose identifier is not [itemId]. *)
Definition withoutId (itemId : string) (items : list Stored.t)
  : list Stored.t :=
  filter (fun i => negb (String.eqb (Item.id (Stored.item i)) itemId)) items.

Section Persistence.

(** Whether [localStorage] accepts a content: [setItem] throws on one
    that exceeds the quota and leaves the stored content as it was. *)
Variable fits : Storage.t -> bool.

Variable random_values : nat -> Q.
Variable clock_values : nat -> Z.

(** The text [item-${Date.now()}-${Math.random().toString(36).substr(2, 9)}]
    printed from its two numbers. *)
Variable itemIdText : Z -> Q -> string.

(** The new item [{...item, id, addedAt}] and the saved outfit as
    [JSON.stringify] and [JSON.parse] give them back. *)
Variable itemJson : Stored.t -> Json.
Variable outfitJson : Saved.t -> Json.

Definition loadWardrobeItems (st : Storage.t) : Json :=
  readCell (Storage.wardrobe_items st).

Definition loadSavedOutfits (st : Storage.t) : Json :=
  readCell (Storage.saved_outfits st).

(** [localStorage.setItem(key, JSON.stringify(value))]: [None] when it
    throws. *)
Definition setWardrobeItems (items : Json) (st : Storage.t)
  : option Storage.t :=
  let st' := Storage.mk (Parsed items) (Storage.saved_outfits st) in
  if fits st' then Some st' else None.

Definition setSavedOutfits (outfits : Json) (st : Storage.t)
  : option Storage.t :=
  let st' := Storage.mk (Storage.wardrobe_items st) (Parsed outfits) in
  if fits st' then Some st' else None.

(** [saveWardrobeItems]: the error of a refused write is logged and
    swallowed. *)
Definition saveWardrobeItems (items : Json) (st : Storage.t) : Storage.t :=
  match setWardrobeItems items st with
  | Some st' => st'
  | None => st
  end.

(** [deleteWardrobeItem]: the returned value and the storage afterwards.
    [items.filter] throws when [items] is not an array (the property is
    missing, or [items] is [null]) and when the callback reads [id] from
    a [null] element; the [catch] then returns what [loadWardrobeItems]
    gives, with nothing written. *)
Definition deleteWardrobeItem (itemId : JsValue) (st : Storage.t)
  : Json * Storage.t :=
  match loadWardrobeItems st with
  | JArray items =>
      match filterById itemId items with
      | Some filteredItems =>
          (JArray filteredItems, saveWardrobeItems (JArray filteredItems) st)
      | None => (loadWardrobeItems st, st)
      end
  | JNull | JBool _ | JNumber _ | JString _ | JObject _ =>
      (loadWardrobeItems st, st)
  end.

(** [addWardrobeItem]: the returned object ([None] is [null]), the
    storage and the cursor afterwards.  The identifier is generated only
    when the item has none (an empty string is falsy).  The new object is
    built before [items.push], which throws when [items] is not an array:
    the [catch] returns [null] and nothing is written. *)
Definition addWardrobeItem (item : WardrobeItem) (st : Storage.t) (c : Cursor)
  : option Stored.t * Storage.t * Cursor :=
  let items := loadWardrobeItems st in
  let '(id, c) :=
    if (0 <? String.length (Item.id item))%nat then (Item.id item, c)
    else (itemIdText (clock_values (ticks c)) (random_values (randoms c)),
          mkCursor (S (randoms c)) (S (ticks c))) in
  let newItem := Stored.mk (withId item id) (clock_values (ticks c)) in
  let c := mkCursor (randoms c) (S (ticks c)) in
  match items with
  | JArray items =>
      let items := (items ++ [itemJson newItem])%list in
      (Some newItem, saveWardrobeItems (JArray items) st, c)
  | JNull | JBool _ | JNumber _ | JString _ | JObject _ => (None, st, c)
  end.

(** [saveOutfit]: a suggestion always has an identifier, so it is kept.
    [savedOutfits.push] throws when the stored text is not an array, and
    here a refused write is not swallowed either: both reach the [catch]
    of the function, which returns [null]. *)
Definition saveOutfit (outfit : OutfitCandidate) (st : Storage.t) (c : Cursor)
  : option Saved.t * Storage.t * Cursor :=
  let savedOutfits := loadSavedOutfits st in
  let outfitToSave := Saved.mk outfit (clock_values (ticks c)) in
  let c := mkCursor (randoms c) (S (ticks c)) in
  match savedOutfits with
  | JArray savedOutfits =>
      let savedOutfits := (savedOutfits ++ [outfitJson outfitToSave])%list in
      match setSavedOutfits (JArray savedOutfits) st with
      | Some st' => (Some outfitToSave, st', c)
      | None => (None, st, c)
      end
  | JNull | JBool _ | JNumber _ | JString _ | JObject _ => (None, st, c)
  end.

End Persistence.

(** The value is not an array. *)
Definition notArray (value : Json) : Prop :=
  forall elements, value <> JArray elements.

(** ** Further vocabulary *)

(** The number of pairs that the nested loops visit. *)
Definition pairCount (items : list WardrobeItem) : Z :=
  Z.of_nat (List.length (unorderedPairs items)).

(** How many buckets of a wardrobe hold an item. *)
Definition occupied (bucket : list WardrobeItem) : nat :=
  if (0 <? List.length bucket)%nat then 1 else 0.

Definition occupiedBuckets (w : Wardrobe.t) : nat :=
  (occupied (topsOf w) + occupied (bottomsOf w) + occupied (footwearOf w)
   + occupied (accessoriesOf w))%nat.

(** A suggestion carries what [scoreOutfitCombination] returns for its
    items. *)
Definition scoredAs (isFormal : bool) (s : OutfitCandidate) : Prop :=
  let scoring := scoreOutfitCombination (Outfit.items s) isFormal in
  Outfit.score s = Scoring.score scoring /\
  Outfit.explanation s = Scoring.explanation scoring /\
  Outfit.details s = Scoring.details scoring.

(** The suggestions of a list that score exactly [q], in list order. *)
Definition scoring (q : Q) (l : list OutfitCandidate) : list OutfitCandidate :=
  filter (fun s => Qeq_bool (Outfit.score s) q) l.

(** No [':'] character in a string. *)
Fixpoint colonFree (s : string) : bool :=
  match s with
  | EmptyString => true
  | String c s' => negb (Ascii.eqb c ":") && colonFree s'
  end.

(** The three labels that [scoreOutfitCombination] writes after the
    category prefix of a detail. *)
Definition harmonyLabels : list string :=
  ["complementary colors"; "analogous harmony"; "neutral pairing"].

(** ** Properties of the color model *)

Lemma isNeutralColor_true_iff (c : HSL) :
  isNeutralColor c = true <-> isNeutral_spec c.
Proof.
  destruct c as [h s l]; unfold isNeutralColor, isNeutral_spec; cbn.
  destruct (s <? 12) eqn:Es; [apply Z.ltb_lt in Es; intuition lia|].
  apply Z.ltb_ge in Es.
  destruct (l >? 85) eqn:El1; cbn.
  { rewrite Z.gtb_ltb in El1; apply Z.ltb_lt in El1; intuition lia. }
  rewrite Z.gtb_ltb in El1; apply Z.ltb_ge in El1.
  destruct (l <? 15) eqn:El2; [apply Z.ltb_lt in El2; intuition lia|].
  apply Z.ltb_ge in El2.
  destruct (h >=? 30) eqn:Eh1; cbn.
  2:{ rewrite Z.geb_leb in Eh1; apply Z.leb_gt in Eh1.
      split; [discriminate | intros; lia]. }
  rewrite Z.geb_leb in Eh1; apply Z.leb_le in Eh1.
  destruct (h <=? 60) eqn:Eh2; cbn.
  2:{ apply Z.leb_gt in Eh2. split; [discriminate | intros; lia]. }
  apply Z.leb_le in Eh2.
  destruct (s <? 40) eqn:Es2.
  - apply Z.ltb_lt in Es2. intuition lia.
  - apply Z.ltb_ge in Es2. split; [discriminate | intros; lia].
Qed.

(** C9.  On every color in range, [isNeutralColor] answers [true] exactly
    when saturation < 12, or lightness > 85, or lightness < 15, or the hue
    lies in [30,60] with saturation < 40.  So it is [true] at saturation 5
    whatever the hue and lightness, [true] at lightness 90 whatever the
    saturation, [true] at hue 45 with saturation 20, and [false] at hue 0,
    saturation 80, lightness 50. *)
Theorem isNeutral_characterisation :
  (forall c : HSL, inRange c ->
     (isNeutralColor c = true <-> isNeutral_spec c)) /\
  (forall h l, isNeutralColor (mkHSL h 5 l) = true) /\
  (forall h s, isNeutralColor (mkHSL h s 90) = true) /\
  (forall l, isNeutralColor (mkHSL 45 20 l) = true) /\
  isNeutralColor (mkHSL 0 80 50) = false.
Proof.
  split; [intros c _; apply isNeutralColor_true_iff|].
  split; [|split; [|split]].
  - intros h l. apply isNeutralColor_true_iff. left. cbn. lia.
  - intros h s. apply isNeutralColor_true_iff. right; left. cbn. lia.
  - intros l. apply isNeutralColor_true_iff. do 3 right. cbn. lia.
  - reflexivity.
Qed.

Lemma isNeutral_characterisation_witness :
  inRange (mkHSL 45 20 50) /\
  (isNeutralColor (mkHSL 45 20 50) = true <-> isNeutral_spec (mkHSL 45 20 50)).
Proof.
  split.
  - unfold inRange; cbn; lia.
  - apply (proj1 isNeutral_characterisation). unfold inRange; cbn; lia.
Defined.

(** ** Properties of the harmony scorer *)

Lemma calculateColorHarmony_spec (a b : HSL) (isFormal : bool) :
  calculateColorHarmony a b isFormal = harmonyScore_spec a b isFormal.
Proof.
  destruct a as [h1 s1 l1], b as [h2 s2 l2].
  unfold calculateColorHarmony, harmonyScore_spec, hueBonus_spec,
    contrastBonus_spec, neutralBonus_spec.
  cbn [hue light]. rewrite Z.geb_leb.
  generalize (isNeutralColor (mkHSL h1 s1 l1)) (isNeutralColor (mkHSL h2 s2 l2)).
  intros n1 n2.
  destruct ((150 <=? hueDifference h1 h2) && (hueDifference h1 h2 <=? 210));
    destruct (hueDifference h1 h2 <=? 30);
    destruct (((l1 <? 30) && (l2 >? 70)) || ((l2 <? 30) && (l1 >? 70)));
    destruct n1, n2, isFormal; reflexivity.
Qed.

Lemma harmonyScore_spec_bounds (a b : HSL) (isFormal : bool) :
  0 <= harmonyScore_spec a b isFormal <= 4.
Proof.
  unfold harmonyScore_spec, hueBonus_spec, contrastBonus_spec, neutralBonus_spec.
  repeat match goal with
         | |- context [if ?c then _ else _] => destruct c
         end; lia.
Qed.

(** C1.  For colors in range and either style, [calculateColorHarmony] is
    the sum of the hue bonus (2 for a hue distance in [150,210], else 1 for
    a distance <= 30, else 0), the contrast bonus (1 when one lightness is
    < 30 and the other > 70) and the neutral bonus (1 when either color is
    neutral and the context is formal); it lies in [0,4]; hues 0 and 180
    with lightness 20 and 80 score 3 in casual context, and equal hues with
    both lightnesses 50 score 1 in casual context. *)
Theorem harmony_score_formula :
  (forall (a b : HSL) (isFormal : bool), inRange a -> inRange b ->
     calculateColorHarmony a b isFormal = harmonyScore_spec a b isFormal /\
     0 <= calculateColorHarmony a b isFormal <= 4) /\
  (forall s1 s2, calculateColorHarmony (mkHSL 0 s1 20) (mkHSL 180 s2 80) false = 3) /\
  (forall h s1 s2, calculateColorHarmony (mkHSL h s1 50) (mkHSL h s2 50) false = 1).
Proof.
  split; [|split].
  - intros a b isFormal _ _. split.
    + apply calculateColorHarmony_spec.
    + rewrite calculateColorHarmony_spec. apply harmonyScore_spec_bounds.
  - intros s1 s2. rewrite calculateColorHarmony_spec.
    unfold harmonyScore_spec, neutralBonus_spec. cbn [hue light].
    rewrite andb_false_r. reflexivity.
  - intros h s1 s2. rewrite calculateColorHarmony_spec.
    unfold harmonyScore_spec, neutralBonus_spec, hueDifference. cbn [hue light].
    rewrite andb_false_r, Z.sub_diag. reflexivity.
Qed.

Lemma harmony_score_formula_witness :
  inRange (mkHSL 10 60 20) /\ inRange (mkHSL 200 5 80) /\
  calculateColorHarmony (mkHSL 10 60 20) (mkHSL 200 5 80) true = 4.
Proof.
  assert (Ha : inRange (mkHSL 10 60 20)) by (unfold inRange; cbn; lia).
  assert (Hb : inRange (mkHSL 200 5 80)) by (unfold inRange; cbn; lia).
  split; [exact Ha | split; [exact Hb|]].
  rewrite (proj1 (proj1 harmony_score_formula _ _ true Ha Hb)).
  reflexivity.
Defined.

(** ** Properties of the outfit scorer *)

Lemma Qgtb_lt (x y : Q) : Qgtb x y = true <-> (y < x)%Q.
Proof. unfold Qgtb, Qlt. apply Z.ltb_lt. Qed.

Lemma Qgtb_le (x y : Q) : Qgtb x y = false <-> (x <= y)%Q.
Proof. unfold Qgtb, Qle. apply Z.ltb_ge. Qed.

Lemma Qgtb_compat (x x' y : Q) : (x == x')%Q -> Qgtb x y = Qgtb x' y.
Proof.
  intros E. destruct (Qgtb x' y) eqn:H.
  - apply Qgtb_lt. apply Qgtb_lt in H. now rewrite E.
  - apply Qgtb_le. apply Qgtb_le in H. now rewrite E.
Qed.

Lemma sumQ_app (l1 l2 : list Q) : (sumQ (l1 ++ l2) == sumQ l1 + sumQ l2)%Q.
Proof.
  induction l1 as [|x l1 IH]; unfold sumQ in *; cbn [app fold_right].
  - ring.
  - rewrite IH. ring.
Qed.

Lemma pairStep_details (isFormal : bool) (x y : WardrobeItem) (a : Acc.t) :
  Acc.harmonyDetails (pairStep isFormal x y a)
  = (Acc.harmonyDetails a ++ pairDetails_spec isFormal (x, y))%list.
Proof.
  unfold pairStep, pairDetails_spec, pairHarmony, pairHueDistance, eitherNeutral.
  cbn [Acc.harmonyDetails fst snd]. rewrite Z.geb_leb.
  destruct (calculateColorHarmony _ _ _ >? 0); [|now rewrite app_nil_r].
  destruct ((150 <=? _) && (_ <=? 210));
    [|destruct (hueDifference _ _ <=? 30)];
    destruct (isNeutralColor (Item.hsl x) || isNeutralColor (Item.hsl y));
    cbn [app]; now rewrite <- ?app_assoc, ?app_nil_r.
Qed.

(** The inner loop, started on [a] for the item [x] against [rest]. *)
Lemma innerLoop_spec (isFormal : bool) (x : WardrobeItem) :
  forall (rest : list WardrobeItem) (a : Acc.t),
    let r := fold_left (fun a y => pairStep isFormal x y a) rest a in
    (Acc.totalScore r ==
       Acc.totalScore a
       + sumQ (map (fun y => inject_Z (pairHarmony isFormal (x, y))) rest))%Q /\
    Acc.harmonyDetails r
    = (Acc.harmonyDetails a
       ++ flat_map (fun y => pairDetails_spec isFormal (x, y)) rest)%list /\
    Acc.neutralCount r = Acc.neutralCount a /\
    Acc.avgSaturation r = Acc.avgSaturation a.
Proof.
  induction rest as [|y rest IH]; intros a; cbn [fold_left map flat_map sumQ fold_right].
  - repeat split; [ring | now rewrite app_nil_r].
  - destruct (IH (pairStep isFormal x y a)) as (Ht & Hd & Hn & Hs).
    cbn zeta in *. repeat split.
    + rewrite Ht. unfold sumQ, pairStep, pairHarmony. cbn [Acc.totalScore fst snd]. ring.
    + rewrite Hd, pairStep_details. now rewrite app_assoc.
    + rewrite Hn. reflexivity.
    + rewrite Hs. reflexivity.
Qed.

Lemma flat_map_pair {A B : Type} (f : A * A -> list B) (x : A) (l : list A) :
  flat_map f (map (pair x) l) = flat_map (fun y => f (x, y)) l.
Proof. induction l as [|y l IH]; cbn; [reflexivity | now rewrite IH]. Qed.

(** The nested loops, started on [a]. *)
Lemma pairLoop_spec (isFormal : bool) :
  forall (items : list WardrobeItem) (a : Acc.t),
    let r := pairLoop isFormal items a in
    (Acc.totalScore r == Acc.totalScore a + pairwiseTotal_spec isFormal items)%Q /\
    Acc.harmonyDetails r
    = (Acc.harmonyDetails a
       ++ flat_map (pairDetails_spec isFormal) (unorderedPairs items))%list /\
    Acc.neutralCount r = (Acc.neutralCount a + neutralItems_spec items)%nat /\
    (Acc.avgSaturation r == Acc.avgSaturation a + inject_Z (saturationSum items))%Q.
Proof.
  induction items as [|x rest IH]; intros a.
  - cbn. repeat split; [ring | now rewrite app_nil_r | lia | ring].
  - cbn [pairLoop].
    destruct (innerLoop_spec isFormal x rest a) as (Ht & Hd & Hn & Hs).
    cbn zeta in Ht, Hd, Hn, Hs.
    set (a1 := fold_left _ rest a) in *.
    destruct (IH (itemStep x a1)) as (Ht' & Hd' & Hn' & Hs').
    cbn zeta in *. repeat split.
    + rewrite Ht'. unfold itemStep. cbn [Acc.totalScore]. rewrite Ht.
      unfold pairwiseTotal_spec. cbn [unorderedPairs].
      rewrite map_app, sumQ_app, map_map. ring.
    + rewrite Hd'. unfold itemStep. cbn [Acc.harmonyDetails]. rewrite Hd.
      cbn [unorderedPairs]. rewrite flat_map_app, flat_map_pair.
      now rewrite app_assoc.
    + rewrite Hn'. unfold itemStep, neutralItems_spec.
      cbn [Acc.neutralCount filter]. rewrite Hn.
      destruct (isNeutralColor (Item.hsl x)); cbn [List.length]; lia.
    + rewrite Hs'. unfold itemStep, saturationSum.
      cbn [Acc.avgSaturation map fold_right]. rewrite Hs.
      rewrite inject_Z_plus. ring.
Qed.

(** The scorer on two or more items, in terms of the quantities above. *)
Lemma scoreOutfitCombination_long (items : list WardrobeItem) (isFormal : bool) :
  (2 <= List.length items)%nat ->
  exists (total avg : Q),
    (total == pairwiseTotal_spec isFormal items)%Q /\
    (avg == meanSaturation_spec items)%Q /\
    scoreOutfitCombination items isFormal
    = Scoring.mk
        (if isFormal then
           if Qgtb avg 55
           then (total + inject_Z (Z.of_nat (neutralItems_spec items)) * (1 # 2) - 1)%Q
           else (total + inject_Z (Z.of_nat (neutralItems_spec items)) * (1 # 2))%Q
         else if Qgtb avg 40 then (total + (1 # 2))%Q else total)
        (generateOutfitExplanation items
           (flat_map (pairDetails_spec isFormal) (unorderedPairs items))
           isFormal (neutralItems_spec items) avg)
        (Some (Details.mk
                 (flat_map (pairDetails_spec isFormal) (unorderedPairs items))
                 (neutralItems_spec items) (mathRound avg))).
Proof.
  intros Hlen. unfold scoreOutfitCombination.
  destruct (List.length items <? 2)%nat eqn:E; [apply Nat.ltb_lt in E; lia|].
  destruct (pairLoop_spec isFormal items (Acc.mk 0 [] 0 0)) as (Ht & Hd & Hn & Hs).
  cbn zeta in Ht, Hd, Hn, Hs.
  set (r := pairLoop isFormal items _) in *.
  cbn [Acc.totalScore Acc.harmonyDetails Acc.neutralCount Acc.avgSaturation app]
    in Ht, Hd, Hn, Hs.
  exists (Acc.totalScore r),
    (Acc.avgSaturation r / inject_Z (Z.of_nat (List.length items)))%Q.
  split; [rewrite Ht; ring|]. split.
  - unfold meanSaturation_spec. rewrite Hs. field.
    intros H0. unfold Qeq in H0. cbn in H0. lia.
  - cbn zeta. rewrite Hd, Hn. cbn [Nat.add].
    destruct isFormal; [destruct (Qgtb _ 55)|destruct (Qgtb _ 40)]; reflexivity.
Qed.

(** C8.  With fewer than two items, [scoreOutfitCombination] returns (and
    so does not throw) the record whose score is 0, whose explanation is
    the literal text, and which has no other field: no [details]. *)
Theorem score_sentinel (items : list WardrobeItem) (isFormal : bool) :
  (List.length items < 2)%nat ->
  scoreOutfitCombination items isFormal
  = Scoring.mk 0 "Not enough items for scoring" None.
Proof.
  intros H. unfold scoreOutfitCombination.
  apply Nat.ltb_lt in H. now rewrite H.
Qed.

Lemma score_sentinel_witness :
  scoreOutfitCombination [Item.mk "item-1-a" "Tops" "#102030" (mkHSL 0 80 20) None]
                         true
  = Scoring.mk 0 "Not enough items for scoring" None.
Proof. apply score_sentinel. cbn. lia. Defined.

(** C5.  On two or more items the total is the pairwise accumulation plus
    one style adjustment: in formal context half the number of neutral
    items, less 1 when the mean saturation exceeds 55; in casual context
    one half when the mean saturation exceeds 40; nothing else. *)
Theorem style_adjustment (items : list WardrobeItem) (isFormal : bool) :
  (2 <= List.length items)%nat ->
  let total := Scoring.score (scoreOutfitCombination items isFormal) in
  let pairs := pairwiseTotal_spec isFormal items in
  let neutrals := inject_Z (Z.of_nat (neutralItems_spec items)) in
  let mean := meanSaturation_spec items in
  (isFormal = true -> (55 < mean)%Q ->
     (total == pairs + (1 # 2) * neutrals - 1)%Q) /\
  (isFormal = true -> (mean <= 55)%Q ->
     (total == pairs + (1 # 2) * neutrals)%Q) /\
  (isFormal = false -> (40 < mean)%Q -> (total == pairs + (1 # 2))%Q) /\
  (isFormal = false -> (mean <= 40)%Q -> (total == pairs)%Q).
Proof.
  intros Hlen.
  destruct (scoreOutfitCombination_long items isFormal Hlen)
    as (total & avg & Ht & Ha & E).
  rewrite E. cbn [Scoring.score]. cbn zeta.
  rewrite (Qgtb_compat _ _ 55 Ha), (Qgtb_compat _ _ 40 Ha).
  repeat split; intros -> Hm.
  - apply Qgtb_lt in Hm. rewrite Hm, Ht. ring.
  - apply Qgtb_le in Hm. rewrite Hm, Ht. ring.
  - apply Qgtb_lt in Hm. rewrite Hm, Ht. ring.
  - apply Qgtb_le in Hm. rewrite Hm, Ht. ring.
Qed.

Lemma style_adjustment_witness :
  (Scoring.score
     (scoreOutfitCombination
        [Item.mk "item-1-a" "Tops" "#102030" (mkHSL 0 80 20) None;
         Item.mk "item-2-b" "Bottoms" "#a0b0c0" (mkHSL 180 80 80) None;
         Item.mk "item-3-c" "Footwear" "#d9c9a3" (mkHSL 45 20 80) None] true)
   == 6 + (1 # 2) * 1 - 1)%Q.
Proof.
  set (items := [_; _; _]).
  assert (Hlen : (2 <= List.length items)%nat) by (cbn; lia).
  assert (Hm : (55 < meanSaturation_spec items)%Q) by reflexivity.
  exact (proj1 (style_adjustment items true Hlen) eq_refl Hm).
Defined.

Lemma pairDetails_in (isFormal : bool) (items : list WardrobeItem)
    (p : WardrobeItem * WardrobeItem) (d : string) :
  In p (unorderedPairs items) -> In d (pairDetails_spec isFormal p) ->
  In d (flat_map (pairDetails_spec isFormal) (unorderedPairs items)).
Proof. intros Hp Hd. apply in_flat_map. now exists p. Qed.

(** C3, amended.  On two or more items the recorded details are, pair by
    pair in loop order, those of [pairDetails_spec].  For a pair that
    scores above 0: "complementary colors" is recorded when the hue
    distance is in [150,210], else "analogous harmony" when it is <= 30;
    "neutral pairing" is recorded as well when either item is neutral,
    in either style; and a pair with a hue distance strictly between 30
    and 150 and no neutral item records nothing. *)
Theorem harmony_details_per_pair (items : list WardrobeItem) (isFormal : bool) :
  (2 <= List.length items)%nat ->
  exists d,
    Scoring.details (scoreOutfitCombination items isFormal) = Some d /\
    Details.harmonyDetails d
    = flat_map (pairDetails_spec isFormal) (unorderedPairs items) /\
    forall p, In p (unorderedPairs items) -> pairHarmony isFormal p > 0 ->
      (150 <= pairHueDistance p <= 210 ->
         In (pairLabel (fst p) (snd p) "complementary colors")
            (Details.harmonyDetails d)) /\
      (pairHueDistance p <= 30 ->
         In (pairLabel (fst p) (snd p) "analogous harmony")
            (Details.harmonyDetails d)) /\
      (eitherNeutral p = true ->
         In (pairLabel (fst p) (snd p) "neutral pairing")
            (Details.harmonyDetails d)) /\
      (30 < pairHueDistance p < 150 -> eitherNeutral p = false ->
         pairDetails_spec isFormal p = []).
Proof.
  intros Hlen.
  destruct (scoreOutfitCombination_long items isFormal Hlen)
    as (total & avg & _ & _ & E).
  rewrite E. cbn [Scoring.details]. eexists. split; [reflexivity|].
  cbn [Details.harmonyDetails]. split; [reflexivity|].
  intros p Hp Hpos.
  assert (Hgt : (pairHarmony isFormal p >? 0) = true)
    by (rewrite Z.gtb_ltb; apply Z.ltb_lt; lia).
  repeat split.
  - intros [H1 H2]. apply (pairDetails_in _ _ p); [exact Hp|].
    unfold pairDetails_spec. rewrite Hgt.
    apply Z.leb_le in H1, H2. rewrite H1, H2. cbn. now left.
  - intros H. apply (pairDetails_in _ _ p); [exact Hp|].
    unfold pairDetails_spec. rewrite Hgt.
    assert (H1 : (150 <=? pairHueDistance p) = false) by (apply Z.leb_gt; lia).
    apply Z.leb_le in H. rewrite H1, H. cbn. now left.
  - intros H. apply (pairDetails_in _ _ p); [exact Hp|].
    unfold pairDetails_spec. rewrite Hgt, H.
    apply in_or_app. right. now left.
  - intros [H1 H2] H. unfold pairDetails_spec. rewrite Hgt, H.
    assert (E1 : (150 <=? pairHueDistance p) = false) by (apply Z.leb_gt; lia).
    assert (E2 : (pairHueDistance p <=? 30) = false) by (apply Z.leb_gt; lia).
    now rewrite E1, E2.
Qed.

(** C3 as stated fails: a casual pair that scores 1 through lightness
    contrast alone (hue distance 90, neither color neutral) leaves the
    detail list empty. *)
Lemma contrast_only_pair_records_nothing :
  let items := [Samples.darkRed; Samples.paleLime] in
  (2 <= List.length items)%nat /\
  In (Samples.darkRed, Samples.paleLime) (unorderedPairs items) /\
  pairHarmony false (Samples.darkRed, Samples.paleLime) > 0 /\
  option_map Details.harmonyDetails
    (Scoring.details (scoreOutfitCombination items false)) = Some [].
Proof.
  cbn zeta. split; [cbn; lia|]. split; [now left|]. split; reflexivity.
Qed.

Lemma harmony_details_per_pair_witness :
  exists d,
    Scoring.details
      (scoreOutfitCombination
         [Samples.navyShirt; Samples.skyJeans; Samples.tanShoes] true) = Some d /\
    In "Tops + Bottoms: complementary colors" (Details.harmonyDetails d) /\
    In "Tops + Footwear: neutral pairing" (Details.harmonyDetails d).
Proof.
  set (items := [Samples.navyShirt; Samples.skyJeans; Samples.tanShoes]).
  assert (Hlen : (2 <= List.length items)%nat) by (cbn; lia).
  destruct (harmony_details_per_pair items true Hlen) as (d & E & _ & H).
  exists d. split; [exact E|]. split.
  - assert (Hp : In (Samples.navyShirt, Samples.skyJeans) (unorderedPairs items))
      by (cbn; auto).
    apply (H _ Hp); [reflexivity | cbn; lia].
  - assert (Hp : In (Samples.navyShirt, Samples.tanShoes) (unorderedPairs items))
      by (cbn; auto).
    apply (H _ Hp); reflexivity.
Defined.

(** ** Properties of the explanation text *)

Lemma prefix_append (s t : string) : prefix s (s ++ t) = true.
Proof.
  induction s as [|c s IH]; cbn.
  - now destruct t.
  - destruct (ascii_dec c c) as [_|N]; [exact IH | now elim N].
Qed.

Lemma append_assoc (a b c : string) : (a ++ b) ++ c = a ++ (b ++ c).
Proof. induction a as [|x a IH]; cbn; [reflexivity | now rewrite IH]. Qed.

(** Both returns of [generateOutfitExplanation] open with the joined item
    names, each printed from the item's [hex] property. *)
Lemma explanation_opens_with_item_names (items : list WardrobeItem)
    (harmonyDetails : list string) (isFormal : bool) (neutralCount : nat)
    (avgSaturation : Q) :
  prefix (itemList (fun item => renderProp (Item.hex item)) items ++ " — ")
         (generateOutfitExplanation items harmonyDetails isFormal neutralCount
                                    avgSaturation) = true.
Proof.
  unfold generateOutfitExplanation, itemList.
  destruct ((List.length harmonyDetails =? 0)%nat && (neutralCount =? 0)%nat).
  - change (" — experimental color combination for "
            ++ (if isFormal then "formal" else "casual") ++ " wear")
      with (" — " ++ ("experimental color combination for "
                      ++ (if isFormal then "formal" else "casual") ++ " wear")).
    rewrite <- append_assoc. apply prefix_append.
  - cbn zeta. rewrite <- append_assoc. apply prefix_append.
Qed.

(** On items of the upload shape every name is printed as [undefined]. *)
Lemma upload_items_print_undefined (items : list WardrobeItem) (isFormal : bool) :
  (2 <= List.length items)%nat -> Forall uploadShaped items ->
  prefix (itemList (fun _ => "undefined") items ++ " — ")
         (Scoring.explanation (scoreOutfitCombination items isFormal)) = true.
Proof.
  intros Hlen Hup.
  destruct (scoreOutfitCombination_long items isFormal Hlen)
    as (total & avg & _ & _ & E).
  rewrite E. cbn [Scoring.explanation].
  replace (itemList (fun _ => "undefined") items)
    with (itemList (fun item => renderProp (Item.hex item)) items).
  - apply explanation_opens_with_item_names.
  - unfold itemList. f_equal. apply map_ext_in. intros item Hin.
    rewrite Forall_forall in Hup. now rewrite (Hup item Hin).
Qed.

(** C10 fails on the code.  For two items of the upload shape the
    explanation prints [undefined] where the claim has the hex color
    identifier: the text reads the [hex] property, which the upload path
    never writes (it writes [dominantColorHex]). *)
Theorem explanation_reads_missing_hex :
  let items := [Samples.navyShirt; Samples.skyJeans] in
  Forall uploadShaped items /\
  Scoring.explanation (scoreOutfitCombination items false)
  = "undefined tops + undefined bottoms — complementary colors — vibrant and expressive" /\
  itemList Item.dominantColorHex items = "#102030 tops + #a0b0c0 bottoms" /\
  prefix (itemList Item.dominantColorHex items)
         (Scoring.explanation (scoreOutfitCombination items false)) = false.
Proof.
  cbn zeta. split; [repeat constructor|]. repeat split; reflexivity.
Qed.

(** ** The deduplication key *)

Lemma insertId_in (x y : string) (l : list string) :
  In y (insertId x l) <-> y = x \/ In y l.
Proof.
  induction l as [|z l IH]; cbn.
  - intuition congruence.
  - destruct (String.leb x z); cbn; [intuition congruence|].
    rewrite IH. intuition.
Qed.

Lemma sortIds_in (y : string) (l : list string) : In y (sortIds l) <-> In y l.
Proof.
  induction l as [|x l IH]; [reflexivity|].
  change (sortIds (x :: l)) with (insertId x (sortIds l)).
  rewrite insertId_in, IH. cbn. intuition congruence.
Qed.

Lemma insertId_perm (x : string) (l : list string) :
  Permutation (insertId x l) (x :: l).
Proof.
  induction l as [|y l IH]; cbn; [reflexivity|].
  destruct (String.leb x y); [reflexivity|].
  rewrite IH. apply perm_swap.
Qed.

(** [sortIds] rearranges the identifiers into ascending order. *)
Lemma sortIds_perm (l : list string) : Permutation (sortIds l) l.
Proof.
  induction l as [|x l IH]; [reflexivity|].
  change (sortIds (x :: l)) with (insertId x (sortIds l)).
  rewrite insertId_perm. now constructor.
Qed.

Lemma insertId_sorted (x : string) (l : list string) :
  Sorted (fun a b => String.leb a b = true) l ->
  Sorted (fun a b => String.leb a b = true) (insertId x l).
Proof.
  induction l as [|y l IH]; intros Hs; cbn.
  - repeat constructor.
  - destruct (String.leb x y) eqn:E.
    + constructor; [exact Hs | now constructor].
    + apply Sorted_inv in Hs. destruct Hs as [Hl Hy].
      constructor; [now apply IH|].
      assert (Hyx : String.leb y x = true)
        by (destruct (String.leb_total x y); congruence).
      destruct l as [|z l]; cbn; [now constructor|].
      destruct (String.leb x z); constructor; [exact Hyx|].
      now apply HdRel_inv in Hy.
Qed.

Lemma sortIds_sorted (l : list string) :
  Sorted (fun a b => String.leb a b = true) (sortIds l).
Proof.
  induction l as [|x l IH]; [constructor|].
  change (sortIds (x :: l)) with (insertId x (sortIds l)).
  now apply insertId_sorted.
Qed.

Lemma insertId_length (x : string) (l : list string) :
  List.length (insertId x l) = S (List.length l).
Proof.
  induction l as [|z l IH]; cbn; [reflexivity|].
  destruct (String.leb x z); cbn; [reflexivity | now rewrite IH].
Qed.

Lemma sortIds_length (l : list string) : List.length (sortIds l) = List.length l.
Proof.
  induction l as [|x l IH]; [reflexivity|].
  change (sortIds (x :: l)) with (insertId x (sortIds l)).
  now rewrite insertId_length, IH.
Qed.

Lemma sortedIds_length (items : list WardrobeItem) :
  List.length (sortedIds items) = List.length items.
Proof. unfold sortedIds. now rewrite sortIds_length, length_map. Qed.

Lemma sortedIds_in (items : list WardrobeItem) (x : string) :
  In x (sortedIds items) -> exists item, In item items /\ Item.id item = x.
Proof.
  unfold sortedIds. rewrite sortIds_in, in_map_iff.
  intros (item & E & H). now exists item.
Qed.

Lemma dashCount_append (s t : string) :
  dashCount (s ++ t) = (dashCount s + dashCount t)%nat.
Proof. induction s as [|c s IH]; cbn; [reflexivity | rewrite IH; lia]. Qed.

(** Two strings with as many dashes, each followed by a dash: the first
    dash after them is at the same place. *)
Lemma append_dash_inj (x : string) :
  forall (y r1 r2 : string),
    dashCount x = dashCount y ->
    x ++ "-" ++ r1 = y ++ "-" ++ r2 -> x = y /\ r1 = r2.
Proof.
  induction x as [|a x IH]; intros [|b y] r1 r2 Hd E; cbn in *.
  - injection E as E. now split.
  - injection E as Eb E. subst b. cbn in Hd. discriminate.
  - injection E as Ea E. subst a. cbn in Hd. discriminate.
  - injection E as Eab E. subst b.
    destruct (IH y r1 r2) as [-> ->]; [lia | exact E | now split].
Qed.

Lemma join_cons2 (sep x y : string) (l : list string) :
  join sep (x :: y :: l) = x ++ sep ++ join sep (y :: l).
Proof. reflexivity. Qed.

Lemma dashCount_join (k : nat) (l : list string) :
  (forall x, In x l -> dashCount x = k) -> l <> [] ->
  (dashCount (join "-" l) + 1 = List.length l * (k + 1))%nat.
Proof.
  induction l as [|x [|y l] IH]; intros Hk Hne.
  - now elim Hne.
  - cbn. rewrite (Hk x) by now left. lia.
  - rewrite join_cons2, !dashCount_append.
    assert (IH' : (dashCount (join "-" (y :: l)) + 1
                   = List.length (y :: l) * (k + 1))%nat).
    { apply IH; [intros z Hz; apply Hk; now right | discriminate]. }
    rewrite (Hk x) by now left.
    change (dashCount "-") with 1%nat.
    change (List.length (x :: y :: l)) with (S (List.length (y :: l))). lia.
Qed.

Lemma join_dash_inj_same_length (k : nat) :
  forall l1 l2 : list string,
    List.length l1 = List.length l2 ->
    (forall x, In x l1 -> dashCount x = k) ->
    (forall x, In x l2 -> dashCount x = k) ->
    join "-" l1 = join "-" l2 -> l1 = l2.
Proof.
  induction l1 as [|x [|x' l1] IH]; intros [|y [|y' l2]] Hlen H1 H2 E;
    try discriminate Hlen; [reflexivity | cbn in E; now subst |].
  rewrite !join_cons2 in E.
  apply append_dash_inj in E.
  - destruct E as [-> E]. f_equal.
    apply IH; [cbn in *; lia | | | exact E];
      intros z Hz; [apply H1 | apply H2]; now right.
  - rewrite (H1 x), (H2 y) by now left. reflexivity.
Qed.

(** On non-empty lists of identifiers with [k] dashes each, the joined
    text determines the list. *)
Lemma join_dash_inj (k : nat) (l1 l2 : list string) :
  l1 <> [] -> l2 <> [] ->
  (forall x, In x l1 -> dashCount x = k) ->
  (forall x, In x l2 -> dashCount x = k) ->
  join "-" l1 = join "-" l2 -> l1 = l2.
Proof.
  intros N1 N2 H1 H2 E.
  apply (join_dash_inj_same_length k); try assumption.
  pose proof (dashCount_join k l1 H1 N1) as D1.
  pose proof (dashCount_join k l2 H2 N2) as D2.
  rewrite E in D1. nia.
Qed.

Lemma alreadySuggested_true (suggestions : list OutfitCandidate) (key : string) :
  alreadySuggested suggestions key = true <->
  exists s, In s suggestions /\ dedupKey (Outfit.items s) = key.
Proof.
  unfold alreadySuggested. rewrite existsb_exists.
  split; intros (s & Hin & E); exists s; split; auto; now apply String.eqb_eq.
Qed.

Lemma alreadySuggested_false (suggestions : list OutfitCandidate) (key : string) :
  alreadySuggested suggestions key = false <->
  forall s, In s suggestions -> dedupKey (Outfit.items s) <> key.
Proof.
  split.
  - intros H s Hin E.
    assert (T : alreadySuggested suggestions key = true)
      by (apply alreadySuggested_true; now exists s).
    congruence.
  - intros H. destruct (alreadySuggested suggestions key) eqn:E; [|reflexivity].
    apply alreadySuggested_true in E. destruct E as (s & Hin & E).
    now elim (H s Hin).
Qed.

(** ** Sorting by score *)

Lemma insertByScore_in (c x : OutfitCandidate) (l : list OutfitCandidate) :
  In x (insertByScore c l) <-> x = c \/ In x l.
Proof.
  induction l as [|d l IH]; cbn.
  - intuition congruence.
  - destruct (Qgtb (Outfit.score d) (Outfit.score c)); cbn;
      [rewrite IH|]; intuition congruence.
Qed.

Lemma sortByScore_in (x : OutfitCandidate) (l : list OutfitCandidate) :
  In x (sortByScore l) <-> In x l.
Proof.
  induction l as [|c l IH]; [reflexivity|].
  change (sortByScore (c :: l)) with (insertByScore c (sortByScore l)).
  rewrite insertByScore_in, IH. cbn. intuition congruence.
Qed.

Lemma insertByScore_perm (c : OutfitCandidate) (l : list OutfitCandidate) :
  Permutation (insertByScore c l) (c :: l).
Proof.
  induction l as [|d l IH]; cbn; [reflexivity|].
  destruct (Qgtb _ _); [|reflexivity].
  rewrite IH. apply perm_swap.
Qed.

(** Sorting keeps the suggestions, each as often as before. *)
Lemma sortByScore_perm (l : list OutfitCandidate) :
  Permutation (sortByScore l) l.
Proof.
  induction l as [|c l IH]; [reflexivity|].
  change (sortByScore (c :: l)) with (insertByScore c (sortByScore l)).
  rewrite insertByScore_perm. now constructor.
Qed.

Lemma insertByScore_length (c : OutfitCandidate) (l : list OutfitCandidate) :
  List.length (insertByScore c l) = S (List.length l).
Proof.
  induction l as [|d l IH]; cbn; [reflexivity|].
  destruct (Qgtb _ _); cbn; [now rewrite IH | reflexivity].
Qed.

Lemma sortByScore_length (l : list OutfitCandidate) :
  List.length (sortByScore l) = List.length l.
Proof.
  induction l as [|c l IH]; [reflexivity|].
  change (sortByScore (c :: l)) with (insertByScore c (sortByScore l)).
  now rewrite insertByScore_length, IH.
Qed.

Lemma insertByScore_sorted (c : OutfitCandidate) (l : list OutfitCandidate) :
  scoreDescending l -> scoreDescending (insertByScore c l).
Proof.
  unfold scoreDescending.
  induction l as [|d l IH]; intros Hs; cbn.
  - constructor; constructor.
  - apply StronglySorted_inv in Hs. destruct Hs as [Hl Hd].
    destruct (Qgtb (Outfit.score d) (Outfit.score c)) eqn:E.
    + constructor; [now apply IH|].
      apply Forall_forall. intros x Hx. apply insertByScore_in in Hx.
      destruct Hx as [-> | Hx].
      * apply Qgtb_lt in E. now apply Qlt_le_weak.
      * rewrite Forall_forall in Hd. now apply Hd.
    + apply Qgtb_le in E. constructor.
      * now constructor.
      * constructor; [exact E|].
        rewrite Forall_forall in Hd |- *. intros x Hx.
        apply Qle_trans with (Outfit.score d); [now apply Hd | exact E].
Qed.

Lemma sortByScore_sorted (l : list OutfitCandidate) :
  scoreDescending (sortByScore l).
Proof.
  induction l as [|c l IH].
  - constructor.
  - change (sortByScore (c :: l)) with (insertByScore c (sortByScore l)).
    now apply insertByScore_sorted.
Qed.

Lemma firstn_in {A : Type} (n : nat) :
  forall (l : list A) (x : A), In x (firstn n l) -> In x l.
Proof.
  induction n as [|n IH]; intros [|a l] x H; cbn in *; try contradiction.
  destruct H as [-> | H]; [now left | right; now apply IH].
Qed.

Lemma firstn_sorted (n : nat) (l : list OutfitCandidate) :
  scoreDescending l -> scoreDescending (firstn n l).
Proof.
  unfold scoreDescending. revert l.
  induction n as [|n IH]; intros [|c l] Hs; cbn; try constructor.
  - apply IH. now apply StronglySorted_inv in Hs.
  - apply StronglySorted_inv in Hs. destruct Hs as [_ Hc].
    rewrite Forall_forall in Hc |- *. intros x Hx.
    apply Hc. now apply firstn_in in Hx.
Qed.

(** ** Properties of the candidate generator *)

Lemma bind_Some {A B : Type} (m : M A) (k : A -> M B) (c c' : Cursor) (a : A) :
  m c = Some (a, c') -> bind m k c = k a c'.
Proof. unfold bind. now intros ->. Qed.

Lemma allDefined_map_Some {A : Type} (l : list A) :
  allDefined (map Some l) = Some l.
Proof. induction l as [|x l IH]; cbn; [reflexivity | now rewrite IH]. Qed.

Lemma cycle_contract (l : list Q) :
  l <> [] -> withinContract l = true -> randomContract (cycle l).
Proof.
  intros Hne H n. unfold cycle.
  assert (Hlt : (n mod List.length l < List.length l)%nat).
  { apply Nat.mod_upper_bound. destruct l; [now elim Hne | discriminate]. }
  unfold withinContract in H. rewrite forallb_forall in H.
  specialize (H (nth (n mod List.length l) l 0%Q) (nth_In l 0%Q Hlt)).
  apply andb_true_iff in H. destruct H as [H0 H1].
  split; [now apply Qle_bool_iff | now apply Qgtb_lt].
Qed.

Lemma optItem_length (o : option WardrobeItem) : (List.length (optItem o) <= 1)%nat.
Proof. destruct o; cbn; lia. Qed.

Lemma drawShape_length (w : Wardrobe.t) (items : list WardrobeItem) :
  drawShape w items -> (List.length items <= 4)%nat.
Proof.
  intros (t & b & f & a & -> & _). rewrite !length_app.
  pose proof (optItem_length t). pose proof (optItem_length b).
  pose proof (optItem_length f). pose proof (optItem_length a). lia.
Qed.

Lemma drawShape_onePerBucket (w : Wardrobe.t) (items : list WardrobeItem) :
  drawShape w items -> onePerBucket w items.
Proof.
  intros (t & b & f & a & E & (Ht & Hb & Hf & Ha) & _).
  exists t, b, f, a. now repeat split.
Qed.

Lemma drawShape_in (w : Wardrobe.t) (items : list WardrobeItem) (x : WardrobeItem) :
  drawShape w items -> In x items -> In x (itemsOf w).
Proof.
  intros (t & b & f & a & -> & (Ht & Hb & Hf & Ha) & _) Hx.
  unfold itemsOf. rewrite !in_app_iff in Hx |- *.
  destruct Hx as [Hx | [Hx | [Hx | Hx]]];
    [destruct t | destruct b | destruct f | destruct a]; cbn in *;
    try contradiction; destruct Hx as [<- | []]; auto.
Qed.

Lemma NoDup_snoc {A : Type} (l : list A) (x : A) :
  NoDup l -> ~ In x l -> NoDup (l ++ [x]).
Proof.
  intros Hl Hx. apply (Permutation_NoDup (Permutation_cons_append l x)).
  now constructor.
Qed.

Section RandomDraws.

Variable random_values : nat -> Q.
Variable clock_values : nat -> Z.
Hypothesis in_unit_interval : randomContract random_values.

(** Within the contract of [Math.random()] the index is inside the
    bucket. *)
Lemma pickFrom_spec (bucket : list WardrobeItem) (c : Cursor) :
  bucket <> [] ->
  exists x,
    pickFrom random_values bucket c
    = Some (Some x, mkCursor (S (randoms c)) (ticks c)) /\
    In x bucket.
Proof.
  intros Hne. unfold pickFrom, bind, mathRandom, ret.
  destruct (in_unit_interval (randoms c)) as [H0 H1].
  set (r := random_values (randoms c)) in *.
  set (n := inject_Z (Z.of_nat (List.length bucket))).
  assert (Hn : (0 < n)%Q).
  { unfold n. change 0%Q with (inject_Z 0). rewrite <- Zlt_Qlt.
    destruct bucket; [now elim Hne | cbn; lia]. }
  assert (Hlo : 0 <= Qfloor (r * n)).
  { change 0 with (Qfloor 0). apply Qfloor_resp_le.
    apply Qmult_le_0_compat; [exact H0 | now apply Qlt_le_weak]. }
  assert (Hhi : Qfloor (r * n) < Z.of_nat (List.length bucket)).
  { rewrite Zlt_Qlt. fold n.
    apply Qle_lt_trans with (r * n)%Q; [apply Qfloor_le|].
    setoid_replace n with (1 * n)%Q at 2 by ring.
    now apply Qmult_lt_compat_r. }
  unfold arrayGet.
  destruct (Qfloor (r * n) <? 0) eqn:E; [apply Z.ltb_lt in E; lia|].
  destruct (nth_error bucket (Z.to_nat (Qfloor (r * n)))) as [x|] eqn:Ex.
  - exists x. split; [reflexivity | now apply nth_error_In in Ex].
  - apply nth_error_None in Ex. lia.
Qed.

Lemma pushRequired_spec (bucket : list WardrobeItem)
    (combination : list (option WardrobeItem)) (c : Cursor) :
  exists o c',
    pushRequired random_values bucket combination c
    = Some ((combination ++ map Some (optItem o))%list, c') /\
    drawnFrom bucket o /\ (bucket <> [] -> o <> None).
Proof.
  unfold pushRequired. destruct bucket as [|x0 bucket].
  - exists None, c. cbn. rewrite app_nil_r. repeat split. now intros H.
  - cbn [List.length Nat.ltb Nat.leb].
    destruct (pickFrom_spec (x0 :: bucket) c) as (x & E & Hin); [discriminate|].
    exists (Some x). eexists. rewrite (bind_Some _ _ _ _ _ E).
    split; [reflexivity|]. split; [exact Hin | discriminate].
Qed.

Lemma pushOptional_spec (threshold : Q) (bucket : list WardrobeItem)
    (combination : list (option WardrobeItem)) (c : Cursor) :
  exists o c',
    pushOptional random_values threshold bucket combination c
    = Some ((combination ++ map Some (optItem o))%list, c') /\
    drawnFrom bucket o.
Proof.
  unfold pushOptional. destruct bucket as [|x0 bucket].
  - exists None, c. cbn. rewrite app_nil_r. now split.
  - cbn [List.length Nat.ltb Nat.leb]. unfold bind at 1, mathRandom.
    destruct (Qgtb (random_values (randoms c)) threshold).
    + destruct (pickFrom_spec (x0 :: bucket)
                  (mkCursor (S (randoms c)) (ticks c))) as (x & E & Hin);
        [discriminate|].
      exists (Some x). eexists. rewrite (bind_Some _ _ _ _ _ E).
      split; [reflexivity | exact Hin].
    + exists None. eexists. cbn. rewrite app_nil_r. split; [reflexivity | exact I].
Qed.

Lemma drawCombination_spec (w : Wardrobe.t) (c : Cursor) :
  exists items c',
    drawCombination random_values (topsOf w) (bottomsOf w) (footwearOf w)
                    (accessoriesOf w) c
    = Some (map Some items, c') /\
    drawShape w items.
Proof.
  unfold drawCombination.
  destruct (pushRequired_spec (topsOf w) [] c) as (t & c1 & E1 & Ht & Rt).
  rewrite (bind_Some _ _ _ _ _ E1).
  destruct (pushRequired_spec (bottomsOf w) ([] ++ map Some (optItem t)) c1)
    as (b & c2 & E2 & Hb & Rb).
  rewrite (bind_Some _ _ _ _ _ E2).
  destruct (pushOptional_spec (3 # 10) (footwearOf w)
              (([] ++ map Some (optItem t)) ++ map Some (optItem b)) c2)
    as (f & c3 & E3 & Hf).
  rewrite (bind_Some _ _ _ _ _ E3).
  destruct (pushOptional_spec (1 # 2) (accessoriesOf w)
              ((([] ++ map Some (optItem t)) ++ map Some (optItem b))
               ++ map Some (optItem f)) c3)
    as (a & c4 & E4 & Ha).
  rewrite (bind_Some _ _ _ _ _ E4).
  exists (optItem t ++ optItem b ++ optItem f ++ optItem a)%list, c4.
  split.
  - unfold ret. rewrite !map_app, <- !app_assoc. reflexivity.
  - exists t, b, f, a. repeat split; assumption.
Qed.

(** One round, from accepted suggestions that the loop built. *)
Lemma attempt_spec (w : Wardrobe.t) (isFormal : bool)
    (suggestions : list OutfitCandidate) (c : Cursor) :
  Forall (candidateOk w isFormal) suggestions ->
  exists o c',
    attempt random_values clock_values (topsOf w) (bottomsOf w) (footwearOf w)
            (accessoriesOf w) isFormal suggestions c
    = Some (o, c') /\
    roundOk w isFormal (suggestions, o).
Proof.
  intros Hs. unfold attempt.
  destruct (drawCombination_spec w c) as (items & c1 & E & Hshape).
  rewrite (bind_Some _ _ _ _ _ E). rewrite length_map.
  destruct (List.length items <? 2)%nat eqn:El.
  - exists (TooShort (map Some items)), c1. split; [reflexivity|].
    split; [exact Hs|]. rewrite length_map. now apply Nat.ltb_lt.
  - apply Nat.ltb_ge in El. rewrite allDefined_map_Some.
    destruct (alreadySuggested suggestions (dedupKey items)) eqn:Ex; cbn [negb].
    + exists (Duplicate items (dedupKey items)), c1. split; [reflexivity|].
      split; [exact Hs|]. now repeat split.
    + eexists. eexists. split; [reflexivity|].
      split; [exact Hs|]. cbn [Outfit.items]. repeat split; assumption.
Qed.

Lemma afterRound_inv (w : Wardrobe.t) (isFormal : bool) (maxSuggestions : nat)
    (suggestions : list OutfitCandidate) (log : Log) (o : Outcome) :
  loopInv w isFormal maxSuggestions suggestions log ->
  (List.length suggestions < maxSuggestions)%nat ->
  roundOk w isFormal (suggestions, o) ->
  loopInv w isFormal maxSuggestions (afterRound suggestions o)
          (log ++ [(suggestions, o)])%list.
Proof.
  intros (Hok & Hnd & Hlen & Hlog & Hin) Hlt Hround.
  assert (Hlog' : Forall (roundOk w isFormal) (log ++ [(suggestions, o)])%list)
    by (apply Forall_app; split; [exact Hlog | now constructor]).
  assert (Hin' : forall s, In s suggestions ->
            exists accepted,
              In (accepted, Pushed (dedupKey (Outfit.items s)) s)
                 (log ++ [(suggestions, o)])%list).
  { intros s Hs. destruct (Hin s Hs) as (acc & Hacc).
    exists acc. apply in_or_app. now left. }
  destruct o as [combination | combination key | key s]; cbn [afterRound].
  - now repeat split.
  - now repeat split.
  - destruct Hround as (_ & Hs & Hkey & Hnew). repeat split.
    + apply Forall_app. split; [exact Hok | now constructor].
    + rewrite map_app. cbn [map]. apply NoDup_snoc; [exact Hnd|].
      intros Hdup. apply in_map_iff in Hdup. destruct Hdup as (s' & E & Hs').
      rewrite alreadySuggested_false in Hnew.
      apply (Hnew s' Hs'). congruence.
    + rewrite length_app. cbn. lia.
    + exact Hlog'.
    + intros s' Hs'. apply in_app_or in Hs'. destruct Hs' as [Hs' | [<- | []]].
      * now apply Hin'.
      * exists suggestions. apply in_or_app. right. left. now rewrite Hkey.
Qed.

(** The loop returns, and keeps its invariant, on any fuel. *)
Lemma generateLoop_spec (w : Wardrobe.t) (isFormal : bool) (maxSuggestions : nat) :
  forall (fuel : nat) (suggestions : list OutfitCandidate) (log : Log)
         (c : Cursor),
    loopInv w isFormal maxSuggestions suggestions log ->
    exists suggestions' log' c',
      generateLoop random_values clock_values fuel (topsOf w) (bottomsOf w)
                   (footwearOf w) (accessoriesOf w) isFormal maxSuggestions
                   suggestions log c
      = Some ((suggestions', log'), c') /\
      loopInv w isFormal maxSuggestions suggestions' log'.
Proof.
  induction fuel as [|fuel IH]; intros suggestions log c Hinv.
  - exists suggestions, log, c. now split.
  - cbn [generateLoop].
    destruct (List.length suggestions <? maxSuggestions)%nat eqn:E.
    + apply Nat.ltb_lt in E.
      destruct (attempt_spec w isFormal suggestions c (proj1 Hinv))
        as (o & c1 & Eo & Hround).
      rewrite (bind_Some _ _ _ _ _ Eo).
      apply IH. now apply afterRound_inv.
    + exists suggestions, log, c. now split.
Qed.

Lemma loopInv_start (w : Wardrobe.t) (isFormal : bool) (maxSuggestions : nat) :
  loopInv w isFormal maxSuggestions [] [].
Proof.
  unfold loopInv. split; [constructor|]. split; [constructor|].
  split; [cbn; lia|]. split; [constructor|]. intros s [].
Qed.

(** A call returns: its rounds end in the invariant, and what it returns
    is the accepted list sorted and cut. *)
Lemma generationRounds_spec (w : Wardrobe.t) (isFormal : bool)
    (maxSuggestions : nat) (c : Cursor) :
  exists suggestions log c',
    generationRounds random_values clock_values w isFormal maxSuggestions c
    = Some ((suggestions, log), c') /\
    loopInv w isFormal maxSuggestions suggestions log /\
    generateOutfitSuggestions random_values clock_values w isFormal
                              maxSuggestions c
    = Some (firstn maxSuggestions (sortByScore suggestions), c').
Proof.
  unfold generationRounds, generateOutfitSuggestions.
  destruct ((List.length (orEmpty (Wardrobe.tops w)) =? 0)%nat
            && (List.length (orEmpty (Wardrobe.bottoms w)) =? 0)%nat).
  - exists [], [], c. split; [reflexivity|]. split; [apply loopInv_start|].
    unfold ret. now rewrite firstn_nil.
  - destruct (generateLoop_spec w isFormal maxSuggestions maxCandidates [] [] c
                (loopInv_start w isFormal maxSuggestions))
      as (suggestions & log & c' & E & Hinv).
    unfold topsOf, bottomsOf, footwearOf, accessoriesOf in E.
    exists suggestions, log, c'. split; [exact E|]. split; [exact Hinv|].
    now rewrite (bind_Some _ _ _ _ _ E).
Qed.

End RandomDraws.

(** C6.  When the Tops and Bottoms buckets are both empty the generator
    returns the empty sequence; and whatever the wardrobe, style and
    [maxSuggestions], it returns a sequence of at most [maxSuggestions]
    candidates (possibly none) in descending order of score. *)
Theorem generator_returns_ranked_prefix :
  (forall random_values clock_values (w : Wardrobe.t) (isFormal : bool)
          (maxSuggestions : nat) (c : Cursor),
     topsOf w = [] -> bottomsOf w = [] ->
     generateOutfitSuggestions random_values clock_values w isFormal
                               maxSuggestions c = Some ([], c)) /\
  (forall random_values clock_values (w : Wardrobe.t) (isFormal : bool)
          (maxSuggestions : nat) (c : Cursor),
     randomContract random_values ->
     exists result c',
       generateOutfitSuggestions random_values clock_values w isFormal
                                 maxSuggestions c = Some (result, c') /\
       (List.length result <= maxSuggestions)%nat /\
       scoreDescending result).
Proof.
  split.
  - intros rv clk w isFormal maxSuggestions c.
    unfold topsOf, bottomsOf, generateOutfitSuggestions. now intros -> ->.
  - intros rv clk w isFormal maxSuggestions c Hrv.
    destruct (generationRounds_spec rv clk Hrv w isFormal maxSuggestions c)
      as (suggestions & log & c' & _ & _ & E).
    exists (firstn maxSuggestions (sortByScore suggestions)), c'.
    split; [exact E|]. split.
    + apply firstn_le_length.
    + apply firstn_sorted, sortByScore_sorted.
Qed.

(** C7.  Every returned candidate has between 2 and 4 items, at most one
    from each bucket, and the style tag of the call. *)
Theorem returned_candidates_are_outfits random_values clock_values
    (w : Wardrobe.t) (isFormal : bool) (maxSuggestions : nat) (c : Cursor) :
  randomContract random_values ->
  exists result c',
    generateOutfitSuggestions random_values clock_values w isFormal
                              maxSuggestions c = Some (result, c') /\
    forall s, In s result ->
      (2 <= List.length (Outfit.items s) <= 4)%nat /\
      onePerBucket w (Outfit.items s) /\
      Outfit.style s = (if isFormal then "formal" else "casual").
Proof.
  intros Hrv.
  destruct (generationRounds_spec random_values clock_values Hrv w isFormal
              maxSuggestions c)
    as (suggestions & log & c' & _ & (Hok & _) & E).
  exists (firstn maxSuggestions (sortByScore suggestions)), c'.
  split; [exact E|]. intros s Hs.
  apply firstn_in in Hs. apply (proj1 (sortByScore_in _ _)) in Hs.
  rewrite Forall_forall in Hok.
  destruct (Hok s Hs) as (Hshape & Hlen & Hstyle & _).
  repeat split.
  - exact Hlen.
  - now apply drawShape_length with w.
  - now apply drawShape_onePerBucket.
  - exact Hstyle.
Qed.

(** *** Deduplication *)

Lemma sortedIds_dashes (k : nat) (w : Wardrobe.t) (items : list WardrobeItem) :
  uniformDashes k w -> drawShape w items ->
  forall x, In x (sortedIds items) -> dashCount x = k.
Proof.
  intros Hk Hshape x Hx. apply sortedIds_in in Hx.
  destruct Hx as (item & Hin & <-).
  apply Hk. now apply drawShape_in with items.
Qed.

Lemma sortedIds_nonempty (items : list WardrobeItem) :
  (2 <= List.length items)%nat -> sortedIds items <> [].
Proof.
  intros Hlen E. apply (f_equal (@List.length string)) in E.
  rewrite sortedIds_length in E. cbn in E. lia.
Qed.

(** With identifiers of [k] dashes each, equal keys mean equal sorted
    identifier lists, so a recorded round says what [roundDedup] states. *)
Lemma roundOk_dedup (k : nat) (w : Wardrobe.t) (isFormal : bool)
    (entry : list OutfitCandidate * Outcome) :
  uniformDashes k w -> roundOk w isFormal entry -> roundDedup entry.
Proof.
  intros Hk. destruct entry as [accepted o]. intros [Hacc Ho].
  destruct o as [combination | combination key | key s]; cbn.
  - exact I.
  - destruct Ho as (Hshape & Hlen & -> & Hex).
    apply alreadySuggested_true in Hex. destruct Hex as (s & Hs & E).
    exists s. split; [exact Hs|].
    rewrite Forall_forall in Hacc.
    destruct (Hacc s Hs) as (Hshape' & Hlen' & _).
    apply (join_dash_inj k);
      eauto using sortedIds_nonempty, sortedIds_dashes.
  - destruct Ho as (_ & -> & Hnew). split; [|reflexivity].
    intros s' Hs' E. rewrite alreadySuggested_false in Hnew.
    apply (Hnew s' Hs'). unfold dedupKey. now rewrite E.
Qed.

(** X28.  In every run the accepted candidates have pairwise distinct
    sorted identifier lists, and every returned candidate was pushed under
    the key that its items give back.  When the identifiers of the
    wardrobe all have the same number of dashes (the identifiers that
    [UploadWardrobe.jsx] and [addWardrobeItem] generate have two), a draw
    of two or more items is discarded by the duplicate check exactly when
    its sorted identifier list is that of an accepted candidate. *)
Theorem dedup_by_sorted_identifiers random_values clock_values
    (w : Wardrobe.t) (isFormal : bool) (maxSuggestions : nat) (c : Cursor) :
  randomContract random_values ->
  exists suggestions log c',
    generationRounds random_values clock_values w isFormal maxSuggestions c
    = Some ((suggestions, log), c') /\
    generateOutfitSuggestions random_values clock_values w isFormal
                              maxSuggestions c
    = Some (firstn maxSuggestions (sortByScore suggestions), c') /\
    NoDup (map (fun s => sortedIds (Outfit.items s)) suggestions) /\
    (forall s, In s (firstn maxSuggestions (sortByScore suggestions)) ->
       exists accepted,
         In (accepted, Pushed (dedupKey (Outfit.items s)) s) log) /\
    (forall k, uniformDashes k w -> Forall roundDedup log).
Proof.
  intros Hrv.
  destruct (generationRounds_spec random_values clock_values Hrv w isFormal
              maxSuggestions c)
    as (suggestions & log & c' & E & (Hok & Hnd & _ & Hlog & Hin) & Eres).
  exists suggestions, log, c'. split; [exact E|]. split; [exact Eres|].
  split; [|split].
  - apply (NoDup_map_inv (join "-")). now rewrite map_map.
  - intros s Hs. apply Hin.
    apply firstn_in in Hs. now apply (proj1 (sortByScore_in _ _)) in Hs.
  - intros k Hk. eapply Forall_impl; [|exact Hlog].
    intros entry. now apply roundOk_dedup with k.
Qed.

(** *** One item in every bucket *)

Lemma drawnFrom_single (x : WardrobeItem) (o : option WardrobeItem) :
  drawnFrom [x] o -> o = Some x \/ o = None.
Proof.
  destruct o as [y|]; cbn; [|now right].
  intros [-> | []]. now left.
Qed.

Lemma drawShape_singletons (w : Wardrobe.t) (t b f a : WardrobeItem)
    (items : list WardrobeItem) :
  topsOf w = [t] -> bottomsOf w = [b] -> footwearOf w = [f] ->
  accessoriesOf w = [a] -> drawShape w items ->
  In items [[t; b]; [t; b; f]; [t; b; a]; [t; b; f; a]].
Proof.
  intros Et Eb Ef Ea (t' & b' & f' & a' & -> & (Ht & Hb & Hf & Ha) & Rt & Rb).
  rewrite Et in Ht, Rt. rewrite Eb in Hb, Rb. rewrite Ef in Hf. rewrite Ea in Ha.
  apply drawnFrom_single in Ht, Hb, Hf, Ha.
  destruct Ht as [-> | ->]; [|now elim Rt].
  destruct Hb as [-> | ->]; [|now elim Rb].
  destruct Hf as [-> | ->], Ha as [-> | ->]; cbn; auto.
Qed.

(** C4, amended.  When every bucket holds exactly one item the generator
    returns at most four candidates, and at most [maxSuggestions]: each is
    the top and the bottom, with or without the footwear item and the
    accessory. *)
Theorem single_item_buckets_bound random_values clock_values
    (w : Wardrobe.t) (t b f a : WardrobeItem) (isFormal : bool)
    (maxSuggestions : nat) (c : Cursor) :
  randomContract random_values ->
  topsOf w = [t] -> bottomsOf w = [b] -> footwearOf w = [f] ->
  accessoriesOf w = [a] ->
  exists result c',
    generateOutfitSuggestions random_values clock_values w isFormal
                              maxSuggestions c = Some (result, c') /\
    (List.length result <= 4)%nat /\
    (List.length result <= maxSuggestions)%nat /\
    forall s, In s result ->
      In (Outfit.items s) [[t; b]; [t; b; f]; [t; b; a]; [t; b; f; a]].
Proof.
  intros Hrv Et Eb Ef Ea.
  destruct (generationRounds_spec random_values clock_values Hrv w isFormal
              maxSuggestions c)
    as (suggestions & log & c' & _ & (Hok & Hnd & _) & E).
  exists (firstn maxSuggestions (sortByScore suggestions)), c'.
  split; [exact E|].
  rewrite Forall_forall in Hok.
  assert (Hall : forall s, In s suggestions ->
            In (Outfit.items s) [[t; b]; [t; b; f]; [t; b; a]; [t; b; f; a]]).
  { intros s Hs. apply (drawShape_singletons w); try assumption.
    exact (proj1 (Hok s Hs)). }
  split; [|split].
  - rewrite length_firstn, sortByScore_length.
    apply Nat.le_trans with (List.length suggestions); [apply Nat.le_min_r|].
    rewrite <- (length_map (fun s => dedupKey (Outfit.items s))).
    change 4%nat with
      (List.length (map dedupKey [[t; b]; [t; b; f]; [t; b; a]; [t; b; f; a]])).
    apply NoDup_incl_length; [exact Hnd|].
    intros key Hkey. apply in_map_iff in Hkey. destruct Hkey as (s & <- & Hs).
    apply in_map. now apply Hall.
  - apply firstn_le_length.
  - intros s Hs. apply Hall.
    apply firstn_in in Hs. now apply (proj1 (sortByScore_in _ _)) in Hs.
Qed.

(** *** Runs on the sample wardrobes *)

Lemma draws_contract : randomContract Samples.draws.
Proof. apply cycle_contract; [discriminate | reflexivity]. Qed.

Lemma dashedDraws_contract : randomContract Samples.dashedDraws.
Proof. apply cycle_contract; [discriminate | reflexivity]. Qed.

Lemma capsule_dashes : uniformDashes 2 Samples.capsule.
Proof.
  intros item Hin. cbn in Hin.
  repeat (destruct Hin as [<- | Hin]; [reflexivity|]). contradiction.
Qed.

(** C4 as stated fails.  One item in every bucket, [maxSuggestions = 3].
    Round 1 reads 0, 0 (the top, the bottom), 0.1 (not above 0.3: no
    footwear) and 0.2 (not above 0.5: no accessory), and pushes the pair;
    the identifier reads 0.4.  Round 2 reads 0, 0, 0.5 (footwear, picked
    with 0) and 0.1 (no accessory); the identifier reads 0.7.  Round 3
    reads 0, 0, 0 (no footwear), 0.6 (accessory, picked with 0).  The three
    item sets differ, all three are pushed, and the casual scores 3.5, 4.5
    and 4.5 give the returned order. *)
Lemma capsule_yields_three_candidates :
  randomContract Samples.draws /\
  exists result c',
    generateOutfitSuggestions Samples.draws Samples.clock Samples.capsule
                              false 3%nat Samples.start = Some (result, c') /\
    map Outfit.items result
    = [[Samples.navyShirt; Samples.skyJeans; Samples.tanShoes];
       [Samples.navyShirt; Samples.skyJeans; Samples.sandBelt];
       [Samples.navyShirt; Samples.skyJeans]] /\
    (1 < List.length result)%nat.
Proof.
  split; [exact draws_contract|].
  destruct (generateOutfitSuggestions Samples.draws Samples.clock
              Samples.capsule false 3%nat Samples.start)
    as [[result c']|] eqn:E; vm_compute in E; [|discriminate E].
  injection E as <- <-. eexists. eexists. split; [reflexivity|].
  split; [reflexivity | cbn; lia].
Qed.

(** C2 fails on the code.  The check "if this combination already
    exists" compares the sorted identifiers joined with a dash, not the
    identifiers, so identifiers that contain dashes in different places
    give one key.  Round 1 reads 0.1 and 0.2, picks the first top (["a"])
    and the first bottom (["b-c"]) and pushes them under the key
    ["a-b-c"]; the identifier reads 0.9.  Round 2 reads 0.6 and 0.7, picks
    the second top (["a-b"]) and the second bottom (["c"]); their key is
    ["a-b-c"] again and the draw is discarded as a duplicate, although
    its identifiers are not those of the accepted candidate, where the
    claim has no such draw discarded. *)
Lemma dedup_discards_a_new_identifier_set :
  randomContract Samples.dashedDraws /\
  exists suggestions log c' s,
    generationRounds Samples.dashedDraws Samples.clock Samples.dashed false 3%nat
                     Samples.start = Some ((suggestions, log), c') /\
    nth_error log 1%nat
    = Some ([s], Duplicate [Samples.topAB; Samples.bottomC] "a-b-c") /\
    Outfit.items s = [Samples.topA; Samples.bottomBC] /\
    sortedIds (Outfit.items s) = ["a"; "b-c"] /\
    sortedIds [Samples.topAB; Samples.bottomC] = ["a-b"; "c"] /\
    sortedIds (Outfit.items s) <> sortedIds [Samples.topAB; Samples.bottomC].
Proof.
  split; [exact dashedDraws_contract|].
  destruct (generationRounds Samples.dashedDraws Samples.clock Samples.dashed
              false 3%nat Samples.start)
    as [[[suggestions log] c']|] eqn:E; vm_compute in E; [|discriminate E].
  injection E as <- <- <-.
  eexists. eexists. eexists. eexists. split; [reflexivity|].
  split; [reflexivity|]. repeat split. discriminate.
Qed.

Lemma dedup_by_sorted_identifiers_witness :
  exists suggestions log c' accepted combination key,
    generationRounds Samples.draws Samples.clock Samples.capsule false 7%nat
                     Samples.start = Some ((suggestions, log), c') /\
    NoDup (map (fun s => sortedIds (Outfit.items s)) suggestions) /\
    nth_error log 4%nat = Some (accepted, Duplicate combination key) /\
    exists s, In s accepted /\
              sortedIds (Outfit.items s) = sortedIds combination.
Proof.
  destruct (dedup_by_sorted_identifiers Samples.draws Samples.clock
              Samples.capsule false 7%nat Samples.start draws_contract)
    as (suggestions & log & c' & E & _ & Hnd & _ & Hlog).
  specialize (Hlog 2%nat capsule_dashes).
  assert (En : exists accepted combination key,
             nth_error log 4%nat = Some (accepted, Duplicate combination key)).
  { vm_compute in E. injection E as _ <- _.
    eexists. eexists. eexists. reflexivity. }
  destruct En as (accepted & combination & key & En).
  exists suggestions, log, c', accepted, combination, key.
  split; [exact E|]. split; [exact Hnd|]. split; [exact En|].
  rewrite Forall_forall in Hlog.
  exact (Hlog _ (nth_error_In _ _ En)).
Defined.

Lemma single_item_buckets_bound_witness :
  exists result c',
    generateOutfitSuggestions Samples.draws Samples.clock Samples.capsule
                              true 7%nat Samples.start = Some (result, c') /\
    (List.length result <= 4)%nat.
Proof.
  destruct (single_item_buckets_bound Samples.draws Samples.clock
              Samples.capsule Samples.navyShirt Samples.skyJeans
              Samples.tanShoes Samples.sandBelt true 7%nat Samples.start
              draws_contract eq_refl eq_refl eq_refl eq_refl)
    as (result & c' & E & H4 & _).
  exists result, c'. auto.
Defined.

Lemma generator_returns_ranked_prefix_witness :
  exists result c',
    generateOutfitSuggestions Samples.draws Samples.clock Samples.capsule
                              false 3%nat Samples.start = Some (result, c') /\
    (List.length result <= 3)%nat /\
    scoreDescending result.
Proof.
  exact (proj2 generator_returns_ranked_prefix Samples.draws Samples.clock
           Samples.capsule false 3%nat Samples.start draws_contract).
Defined.

Lemma returned_candidates_are_outfits_witness :
  exists result c',
    generateOutfitSuggestions Samples.draws Samples.clock Samples.capsule
                              true 3%nat Samples.start = Some (result, c') /\
    forall s, In s result ->
      (2 <= List.length (Outfit.items s) <= 4)%nat /\
      onePerBucket Samples.capsule (Outfit.items s) /\
      Outfit.style s = "formal".
Proof.
  exact (returned_candidates_are_outfits Samples.draws Samples.clock
           Samples.capsule true 3%nat Samples.start draws_contract).
Defined.

(** * Further properties *)

(** ** Hue distance and pairwise harmony *)

Lemma hueDifference_sym (h1 h2 : Z) : hueDifference h1 h2 = hueDifference h2 h1.
Proof. unfold hueDifference. cbn zeta. lia. Qed.

Lemma hueDifference_le_180 (h1 h2 : Z) : hueDifference h1 h2 <= 180.
Proof. unfold hueDifference. cbn zeta. lia. Qed.

Lemma harmony_sym (a b : HSL) (isFormal : bool) :
  calculateColorHarmony a b isFormal = calculateColorHarmony b a isFormal.
Proof.
  rewrite !calculateColorHarmony_spec.
  unfold harmonyScore_spec, contrastBonus_spec, neutralBonus_spec.
  rewrite (hueDifference_sym (hue a) (hue b)).
  rewrite (orb_comm (isNeutralColor a)).
  rewrite (orb_comm ((light a <? 30) && (light b >? 70))).
  reflexivity.
Qed.

(** X1.  [hueDifference] does not depend on the order of the two hues and
    never exceeds 180; it is non-negative exactly when the hues are at
    most 360 apart, and it is 0 exactly when they are equal or 360
    apart. *)
Theorem hueDifference_circular (h1 h2 : Z) :
  hueDifference h1 h2 = hueDifference h2 h1 /\
  hueDifference h1 h2 <= 180 /\
  (0 <= hueDifference h1 h2 <-> Z.abs (h1 - h2) <= 360) /\
  (hueDifference h1 h2 = 0 <-> h1 = h2 \/ Z.abs (h1 - h2) = 360).
Proof. unfold hueDifference. cbn zeta. lia. Qed.

(** X2.  The harmony score of two colors is the same in either order. *)
Theorem calculateColorHarmony_sym (a b : HSL) (isFormal : bool) :
  calculateColorHarmony a b isFormal = calculateColorHarmony b a isFormal.
Proof.
  rewrite !calculateColorHarmony_spec.
  unfold harmonyScore_spec, contrastBonus_spec, neutralBonus_spec.
  rewrite (hueDifference_sym (hue a) (hue b)).
  rewrite (orb_comm (isNeutralColor a)).
  rewrite (orb_comm ((light a <? 30) && (light b >? 70))).
  reflexivity.
Qed.

(** X3.  The formal score of a pair is its casual score plus 1 when
    either color is neutral, and equal to it otherwise. *)
Theorem formal_adds_neutral_bonus (a b : HSL) :
  calculateColorHarmony a b true
  = calculateColorHarmony a b false
    + (if isNeutralColor a || isNeutralColor b then 1 else 0).
Proof.
  rewrite !calculateColorHarmony_spec.
  unfold harmonyScore_spec, neutralBonus_spec.
  rewrite andb_false_r, andb_true_r. lia.
Qed.

Lemma complementary_from_150_casual (a b : HSL) :
  calculateColorHarmony a b false <= 3.
Proof.
  rewrite calculateColorHarmony_spec.
  unfold harmonyScore_spec, hueBonus_spec, neutralBonus_spec, contrastBonus_spec.
  rewrite andb_false_r.
  repeat match goal with
         | |- context [if ?c then _ else _] => destruct c
         end; lia.
Qed.

(** X4.  The upper bound 210 of the complementary test never decides:
    whatever the hues, a pair gets the complementary bonus exactly when its
    hue distance is at least 150, and a casual pair scores at most 3. *)
Theorem complementary_from_150 (a b : HSL) (isFormal : bool) :
  let d := hueDifference (hue a) (hue b) in
  calculateColorHarmony a b isFormal
  = (if 150 <=? d then 2 else if d <=? 30 then 1 else 0)
    + contrastBonus_spec (light a) (light b)
    + neutralBonus_spec a b isFormal /\
  calculateColorHarmony a b false <= 3.
Proof.
  cbn zeta. rewrite !calculateColorHarmony_spec.
  unfold harmonyScore_spec, hueBonus_spec.
  pose proof (hueDifference_le_180 (hue a) (hue b)) as H180.
  assert (E : (hueDifference (hue a) (hue b) <=? 210) = true)
    by (apply Z.leb_le; lia).
  rewrite E, andb_true_r. split; [reflexivity|].
  unfold neutralBonus_spec, contrastBonus_spec. rewrite andb_false_r.
  repeat match goal with
         | |- context [if ?c then _ else _] => destruct c
         end; lia.
Qed.

(** ** The outfit score *)

Lemma score_sentinel_short (items : list WardrobeItem) (isFormal : bool) :
  (List.length items < 2)%nat ->
  scoreOutfitCombination items isFormal
  = Scoring.mk 0 "Not enough items for scoring" None.
Proof.
  intros H. unfold scoreOutfitCombination.
  apply Nat.ltb_lt in H. now rewrite H.
Qed.

Lemma sumQ_perm (l l' : list Q) : Permutation l l' -> (sumQ l == sumQ l')%Q.
Proof.
  induction 1 as [|x l l' _ IH|x y l|l l' l'' _ IH1 _ IH2];
    unfold sumQ in *; cbn [fold_right].
  - reflexivity.
  - now rewrite IH.
  - ring.
  - now rewrite IH1.
Qed.

Lemma sumQ_cons (x : Q) (l : list Q) : sumQ (x :: l) = (x + sumQ l)%Q.
Proof. reflexivity. Qed.

Lemma pairwiseTotal_cons (isFormal : bool) (x : WardrobeItem)
    (l : list WardrobeItem) :
  (pairwiseTotal_spec isFormal (x :: l)
   == sumQ (map (fun y => inject_Z (pairHarmony isFormal (x, y))) l)
      + pairwiseTotal_spec isFormal l)%Q.
Proof.
  unfold pairwiseTotal_spec. cbn [unorderedPairs].
  now rewrite map_app, sumQ_app, map_map.
Qed.

Lemma pairwiseTotal_perm (isFormal : bool) (l l' : list WardrobeItem) :
  Permutation l l' ->
  (pairwiseTotal_spec isFormal l == pairwiseTotal_spec isFormal l')%Q.
Proof.
  induction 1 as [|x l l' Hp IH|x y l|l l' l'' _ IH1 _ IH2].
  - reflexivity.
  - rewrite !pairwiseTotal_cons, IH.
    apply Qplus_comp; [|reflexivity].
    apply sumQ_perm. now apply Permutation_map.
  - rewrite !pairwiseTotal_cons. cbn [map]. rewrite !sumQ_cons.
    assert (Hxy : pairHarmony isFormal (y, x) = pairHarmony isFormal (x, y))
      by apply harmony_sym.
    rewrite Hxy. ring.
  - now rewrite IH1.
Qed.

Lemma neutralItems_perm (l l' : list WardrobeItem) :
  Permutation l l' -> neutralItems_spec l = neutralItems_spec l'.
Proof.
  unfold neutralItems_spec.
  induction 1 as [|x l l' _ IH|x y l|l l' l'' _ IH1 _ IH2]; cbn [filter].
  - reflexivity.
  - destruct (isNeutralColor (Item.hsl x)); cbn [List.length]; now rewrite IH.
  - destruct (isNeutralColor (Item.hsl x)), (isNeutralColor (Item.hsl y));
      reflexivity.
  - now rewrite IH1.
Qed.

Lemma saturationSum_perm (l l' : list WardrobeItem) :
  Permutation l l' -> saturationSum l = saturationSum l'.
Proof.
  unfold saturationSum.
  induction 1 as [|x l l' _ IH|x y l|l l' l'' _ IH1 _ IH2];
    cbn [map fold_right]; lia.
Qed.

Lemma meanSaturation_perm (l l' : list WardrobeItem) :
  Permutation l l' -> meanSaturation_spec l = meanSaturation_spec l'.
Proof.
  intros Hp. unfold meanSaturation_spec.
  now rewrite (saturationSum_perm l l' Hp), (Permutation_length Hp).
Qed.

(** X5.  Reordering the items of an outfit changes neither its score nor
    the neutral count and the rounded mean saturation of its details. *)
Theorem score_ignores_item_order (items items' : list WardrobeItem)
    (isFormal : bool) :
  Permutation items items' ->
  (Scoring.score (scoreOutfitCombination items isFormal)
   == Scoring.score (scoreOutfitCombination items' isFormal))%Q /\
  option_map Details.neutralCount
    (Scoring.details (scoreOutfitCombination items isFormal))
  = option_map Details.neutralCount
      (Scoring.details (scoreOutfitCombination items' isFormal)) /\
  option_map Details.avgSaturation
    (Scoring.details (scoreOutfitCombination items isFormal))
  = option_map Details.avgSaturation
      (Scoring.details (scoreOutfitCombination items' isFormal)).
Proof.
  intros Hp. pose proof (Permutation_length Hp) as Hlen.
  destruct (Nat.lt_ge_cases (List.length items) 2) as [Hshort | Hlong].
  - rewrite (score_sentinel_short items), (score_sentinel_short items');
      try lia. repeat split; reflexivity.
  - destruct (scoreOutfitCombination_long items isFormal Hlong)
      as (t & a & Ht & Ha & E).
    destruct (scoreOutfitCombination_long items' isFormal) as (t' & a' & Ht' & Ha' & E');
      [lia|].
    rewrite E, E'. cbn [Scoring.score Scoring.details option_map
                        Details.neutralCount Details.avgSaturation].
    assert (Eaa : (a == a')%Q)
      by (rewrite Ha, Ha'; now rewrite (meanSaturation_perm _ _ Hp)).
    assert (Ett : (t == t')%Q)
      by (rewrite Ht, Ht'; now apply pairwiseTotal_perm).
    rewrite (neutralItems_perm _ _ Hp).
    rewrite (Qgtb_compat _ _ 55 Eaa), (Qgtb_compat _ _ 40 Eaa).
    split; [|split; [reflexivity|]].
    + destruct isFormal; [destruct (Qgtb a' 55)|destruct (Qgtb a' 40)];
        rewrite Ett; reflexivity.
    + unfold mathRound. f_equal. apply Qfloor_comp. now rewrite Eaa.
Qed.

Lemma score_ignores_item_order_witness :
  (Scoring.score
     (scoreOutfitCombination
        [Samples.navyShirt; Samples.skyJeans; Samples.tanShoes] true)
   == Scoring.score
        (scoreOutfitCombination
           [Samples.tanShoes; Samples.navyShirt; Samples.skyJeans] true))%Q.
Proof.
  apply (score_ignores_item_order
           [Samples.navyShirt; Samples.skyJeans; Samples.tanShoes]
           [Samples.tanShoes; Samples.navyShirt; Samples.skyJeans] true).
  apply Permutation_sym. apply (Permutation_cons_append [_; _] Samples.tanShoes).
Defined.

Lemma pairHarmony_bounds (isFormal : bool) (p : WardrobeItem * WardrobeItem) :
  0 <= pairHarmony isFormal p <= (if isFormal then 4 else 3).
Proof.
  unfold pairHarmony. destruct isFormal.
  - rewrite calculateColorHarmony_spec. apply harmonyScore_spec_bounds.
  - split.
    + rewrite calculateColorHarmony_spec. apply harmonyScore_spec_bounds.
    + apply (complementary_from_150_casual (Item.hsl (fst p)) (Item.hsl (snd p))).
Qed.

Lemma sumQ_inject_bounds {A : Type} (g : A -> Z) (lo hi : Z) (l : list A) :
  (forall x, lo <= g x <= hi) ->
  (inject_Z (Z.of_nat (List.length l) * lo)
   <= sumQ (map (fun x => inject_Z (g x)) l)
   <= inject_Z (Z.of_nat (List.length l) * hi))%Q.
Proof.
  intros Hg. induction l as [|x l IH].
  - cbn. split; apply Qle_refl.
  - cbn [map List.length]. rewrite sumQ_cons.
    destruct IH as [IHlo IHhi]. destruct (Hg x) as [Hlo Hhi].
    rewrite Zle_Qle in Hlo, Hhi.
    replace (Z.of_nat (S (List.length l)) * lo)
      with (lo + Z.of_nat (List.length l) * lo) by lia.
    replace (Z.of_nat (S (List.length l)) * hi)
      with (hi + Z.of_nat (List.length l) * hi) by lia.
    rewrite !inject_Z_plus. split; apply Qplus_le_compat; assumption.
Qed.

Lemma pairwiseTotal_bounds (isFormal : bool) (items : list WardrobeItem) :
  (0 <= pairwiseTotal_spec isFormal items
   <= inject_Z (pairCount items * (if isFormal then 4 else 3)))%Q.
Proof.
  unfold pairwiseTotal_spec, pairCount.
  pose proof (sumQ_inject_bounds (pairHarmony isFormal) 0
                (if isFormal then 4 else 3) (unorderedPairs items)
                (pairHarmony_bounds isFormal)) as [Hlo Hhi].
  rewrite Z.mul_0_r in Hlo. split; assumption.
Qed.

Lemma neutralItems_le (items : list WardrobeItem) :
  (neutralItems_spec items <= List.length items)%nat.
Proof. unfold neutralItems_spec. apply filter_length_le. Qed.

Lemma unorderedPairs_length {A : Type} (l : list A) :
  (2 * List.length (unorderedPairs l)
   = List.length l * (List.length l - 1))%nat.
Proof.
  induction l as [|x l IH]; [reflexivity|].
  cbn [unorderedPairs List.length]. rewrite length_app, length_map. nia.
Qed.

(** X6.  An outfit of [n] items has [n (n - 1) / 2] pairs.  Its score is
    never below -1, and never negative in casual context; in casual
    context it is at most 3 per pair plus one half, in formal context at
    most 4 per pair plus half the number of items. *)
Theorem score_bounds (items : list WardrobeItem) (isFormal : bool) :
  let s := Scoring.score (scoreOutfitCombination items isFormal) in
  let n := Z.of_nat (List.length items) in
  2 * pairCount items = n * (n - 1) /\
  (-1 <= s)%Q /\
  (isFormal = false ->
   (0 <= s /\ s <= inject_Z (3 * pairCount items) + (1 # 2))%Q) /\
  (isFormal = true ->
   (s <= inject_Z (4 * pairCount items) + inject_Z n * (1 # 2))%Q).
Proof.
  cbn zeta. split.
  { unfold pairCount. pose proof (unorderedPairs_length items). nia. }
  destruct (Nat.lt_ge_cases (List.length items) 2) as [Hshort | Hlong].
  - rewrite (score_sentinel_short items isFormal Hshort). cbn [Scoring.score].
    assert (Hp : pairCount items = 0).
    { unfold pairCount. destruct items as [|x [|y l]]; cbn in *; lia. }
    rewrite Hp, !Z.mul_0_r. change (inject_Z 0) with 0%Q.
    assert (Hn : (0 <= inject_Z (Z.of_nat (List.length items)))%Q)
      by (change 0%Q with (inject_Z 0); rewrite <- Zle_Qle; lia).
    repeat split; intros; try lra.
  - destruct (scoreOutfitCombination_long items isFormal Hlong)
      as (t & a & Ht & _ & E).
    rewrite E. cbn [Scoring.score].
    pose proof (pairwiseTotal_bounds isFormal items) as [Hlo Hhi].
    rewrite <- Ht in Hlo, Hhi.
    pose proof (neutralItems_le items) as Hnc.
    assert (Hnc0 : (0 <= inject_Z (Z.of_nat (neutralItems_spec items)))%Q)
      by (change 0%Q with (inject_Z 0); rewrite <- Zle_Qle; lia).
    assert (Hncn : (inject_Z (Z.of_nat (neutralItems_spec items))
                    <= inject_Z (Z.of_nat (List.length items)))%Q)
      by (rewrite <- Zle_Qle; lia).
    destruct isFormal.
    + rewrite Z.mul_comm in Hhi.
      split; [destruct (Qgtb a 55); lra|].
      split; [discriminate|]. intros _. destruct (Qgtb a 55); lra.
    + rewrite Z.mul_comm in Hhi.
      split; [destruct (Qgtb a 40); lra|].
      split; [|discriminate]. intros _. destruct (Qgtb a 40); split; lra.
Qed.

Lemma pairDetails_length (isFormal : bool) (p : WardrobeItem * WardrobeItem) :
  (List.length (pairDetails_spec isFormal p) <= 2)%nat.
Proof.
  unfold pairDetails_spec.
  repeat match goal with
         | |- context [if ?c then _ else _] => destruct c
         end; cbn; lia.
Qed.

Lemma flat_map_length_le {A B : Type} (f : A -> list B) (k : nat) (l : list A) :
  (forall x, (List.length (f x) <= k)%nat) ->
  (List.length (flat_map f l) <= k * List.length l)%nat.
Proof.
  intros Hf. induction l as [|x l IH]; cbn [flat_map List.length]; [lia|].
  rewrite length_app. specialize (Hf x). lia.
Qed.

Lemma saturationSum_bounds (lo hi : Z) (items : list WardrobeItem) :
  (forall item, In item items -> lo <= sat (Item.hsl item) <= hi) ->
  Z.of_nat (List.length items) * lo <= saturationSum items
  <= Z.of_nat (List.length items) * hi.
Proof.
  unfold saturationSum. induction items as [|x l IH]; intros H.
  - cbn. lia.
  - cbn [map fold_right List.length].
    pose proof (H x (or_introl eq_refl)).
    assert (IH' := IH (fun item Hin => H item (or_intror Hin))). lia.
Qed.

Lemma mathRound_bounds (lo hi : Z) (x : Q) :
  (inject_Z lo <= x <= inject_Z hi)%Q -> lo <= mathRound x <= hi.
Proof.
  intros [Hlo Hhi]. unfold mathRound. split.
  - rewrite <- (Qfloor_Z lo). apply Qfloor_resp_le. lra.
  - pose proof (Qfloor_le (x + (1 # 2))) as Hf.
    assert (H : (inject_Z (Qfloor (x + (1 # 2))) < inject_Z (hi + 1))%Q)
      by (rewrite inject_Z_plus; change (inject_Z 1) with 1%Q; lra).
    rewrite <- Zlt_Qlt in H. lia.
Qed.

Lemma meanSaturation_bounds (lo hi : Z) (items : list WardrobeItem) :
  items <> [] ->
  (forall item, In item items -> lo <= sat (Item.hsl item) <= hi) ->
  (inject_Z lo <= meanSaturation_spec items <= inject_Z hi)%Q.
Proof.
  intros Hne H. unfold meanSaturation_spec.
  pose proof (saturationSum_bounds lo hi items H) as [Hlo Hhi].
  assert (Hn : (0 < inject_Z (Z.of_nat (List.length items)))%Q).
  { change 0%Q with (inject_Z 0). rewrite <- Zlt_Qlt.
    destruct items; [now elim Hne | cbn; lia]. }
  split.
  - apply Qle_shift_div_l; [exact Hn|].
    rewrite <- inject_Z_mult, <- Zle_Qle. lia.
  - apply Qle_shift_div_r; [exact Hn|].
    rewrite <- inject_Z_mult, <- Zle_Qle. lia.
Qed.

(** X7.  On two or more items the details are present: the neutral count
    is the number of neutral items, the detail list has at most two
    entries per pair, and the reported mean saturation lies between the
    least and the greatest saturation of the items. *)
Theorem details_statistics (items : list WardrobeItem) (isFormal : bool) :
  (2 <= List.length items)%nat ->
  exists d,
    Scoring.details (scoreOutfitCombination items isFormal) = Some d /\
    Details.neutralCount d
    = List.length (filter (fun item => isNeutralColor (Item.hsl item)) items) /\
    (Details.neutralCount d <= List.length items)%nat /\
    Z.of_nat (List.length (Details.harmonyDetails d)) <= 2 * pairCount items /\
    forall lo hi,
      (forall item, In item items -> lo <= sat (Item.hsl item) <= hi) ->
      lo <= Details.avgSaturation d <= hi.
Proof.
  intros Hlen.
  destruct (scoreOutfitCombination_long items isFormal Hlen)
    as (t & a & _ & Ha & E).
  rewrite E. cbn [Scoring.details]. eexists. split; [reflexivity|].
  cbn [Details.neutralCount Details.harmonyDetails Details.avgSaturation].
  split; [reflexivity|]. split; [apply neutralItems_le|]. split.
  - unfold pairCount.
    pose proof (flat_map_length_le (pairDetails_spec isFormal) 2
                  (unorderedPairs items) (pairDetails_length isFormal)). lia.
  - intros lo hi H. apply mathRound_bounds. rewrite Ha.
    apply meanSaturation_bounds; [|exact H].
    intros ->. cbn in Hlen. lia.
Qed.

Lemma details_statistics_witness :
  exists d,
    Scoring.details
      (scoreOutfitCombination
         [Samples.navyShirt; Samples.skyJeans; Samples.tanShoes] true) = Some d /\
    20 <= Details.avgSaturation d <= 80.
Proof.
  set (items := [Samples.navyShirt; Samples.skyJeans; Samples.tanShoes]).
  assert (Hlen : (2 <= List.length items)%nat) by (cbn; lia).
  destruct (details_statistics items true Hlen) as (d & E & _ & _ & _ & H).
  exists d. split; [exact E|]. apply H.
  intros item Hin. cbn in Hin.
  repeat (destruct Hin as [<- | Hin]; [cbn; lia|]). contradiction.
Defined.

(** ** The explanation text *)

Lemma append_length (a b : string) :
  String.length (a ++ b) = (String.length a + String.length b)%nat.
Proof. induction a as [|c a IH]; cbn; [reflexivity | now rewrite IH]. Qed.

Lemma append_empty_l (a : string) : "" ++ a = a.
Proof. reflexivity. Qed.

Lemma append_empty_r (a : string) : a ++ "" = a.
Proof. induction a as [|c a IH]; cbn; [reflexivity | now rewrite IH]. Qed.

Lemma unorderedPairs_in {A : Type} (l : list A) (a b : A) :
  In (a, b) (unorderedPairs l) -> In a l /\ In b l.
Proof.
  induction l as [|x l IH]; cbn [unorderedPairs]; [contradiction|].
  intros H. apply in_app_or in H. destruct H as [H | H].
  - apply in_map_iff in H. destruct H as (y & E & Hy).
    injection E as <- <-. split; [now left | now right].
  - destruct (IH H). split; now right.
Qed.

Lemma flat_map_nil {A B : Type} (f : A -> list B) (l : list A) :
  (forall x, In x l -> f x = []) -> flat_map f l = [].
Proof.
  induction l as [|x l IH]; intros H; cbn; [reflexivity|].
  rewrite (H x (or_introl eq_refl)). cbn. apply IH.
  intros y Hy. apply H. now right.
Qed.

Lemma neutralItems_none (items : list WardrobeItem) :
  (forall item, In item items -> isNeutralColor (Item.hsl item) = false) ->
  neutralItems_spec items = 0%nat.
Proof.
  unfold neutralItems_spec. induction items as [|x l IH]; intros H; cbn;
    [reflexivity|].
  rewrite (H x (or_introl eq_refl)). apply IH. intros y Hy. apply H. now right.
Qed.

Lemma neutralItems_some (items : list WardrobeItem) (item : WardrobeItem) :
  In item items -> isNeutralColor (Item.hsl item) = true ->
  (0 < neutralItems_spec items)%nat.
Proof.
  unfold neutralItems_spec. intros Hin Hn.
  assert (H : In item (filter (fun i => isNeutralColor (Item.hsl i)) items))
    by (apply filter_In; now split).
  destruct (filter _ items); [contradiction | cbn; lia].
Qed.

(** X8.  When no item is neutral and every pair of items has a hue
    distance strictly between 30 and 150, the explanation is the item
    list followed by the "experimental color combination" sentence for
    the style. *)
Theorem explanation_experimental (items : list WardrobeItem) (isFormal : bool) :
  (2 <= List.length items)%nat ->
  (forall item, In item items -> isNeutralColor (Item.hsl item) = false) ->
  (forall p, In p (unorderedPairs items) -> 30 < pairHueDistance p < 150) ->
  Scoring.explanation (scoreOutfitCombination items isFormal)
  = itemList (fun item => renderProp (Item.hex item)) items
    ++ " — experimental color combination for "
    ++ (if isFormal then "formal" else "casual") ++ " wear".
Proof.
  intros Hlen Hneutral Hhue.
  destruct (scoreOutfitCombination_long items isFormal Hlen)
    as (t & a & _ & _ & E).
  rewrite E. cbn [Scoring.explanation].
  rewrite (neutralItems_none items Hneutral).
  rewrite flat_map_nil; [reflexivity|].
  intros [x y] Hp. unfold pairDetails_spec.
  destruct (pairHarmony isFormal (x, y) >? 0); [|reflexivity].
  destruct (Hhue _ Hp) as [H1 H2].
  assert (E1 : (150 <=? pairHueDistance (x, y)) = false) by (apply Z.leb_gt; lia).
  assert (E2 : (pairHueDistance (x, y) <=? 30) = false) by (apply Z.leb_gt; lia).
  rewrite E1, E2. cbn [andb app].
  apply unorderedPairs_in in Hp. destruct Hp as [Hx Hy].
  unfold eitherNeutral. cbn [fst snd].
  now rewrite (Hneutral x Hx), (Hneutral y Hy).
Qed.

Lemma explanation_experimental_witness :
  Scoring.explanation
    (scoreOutfitCombination [Samples.darkRed; Samples.paleLime] true)
  = "undefined tops + undefined bottoms — experimental color combination for formal wear".
Proof.
  apply (explanation_experimental [Samples.darkRed; Samples.paleLime] true).
  - cbn. lia.
  - intros item [<- | [<- | []]]; reflexivity.
  - intros p [<- | []]. cbn. lia.
Defined.

Lemma splitScan_colonFree (s : string) :
  colonFree s = true ->
  forall cur rest : string,
    splitScan ": " 0 cur (s ++ rest) = splitScan ": " 0 (cur ++ s) rest.
Proof.
  induction s as [|c s IH]; intros Hs cur rest.
  - cbn. now rewrite append_empty_r.
  - cbn in Hs. apply andb_true_iff in Hs. destruct Hs as [Hc Hs].
    cbn [append splitScan prefix].
    destruct (ascii_dec ":" c) as [<- | _]; [discriminate Hc|].
    rewrite (IH Hs). f_equal. rewrite append_assoc. reflexivity.
Qed.

Lemma splitScan_colonFree_whole (s cur : string) :
  colonFree s = true -> splitScan ": " 0 cur s = [cur ++ s].
Proof.
  intros Hs. rewrite <- (append_empty_r s) at 1.
  now rewrite (splitScan_colonFree s Hs).
Qed.

Lemma splitScan_at_separator (cur rest : string) :
  splitScan ": " 0 cur (": " ++ rest) = cur :: splitScan ": " 0 "" rest.
Proof. destruct rest; reflexivity. Qed.

Lemma colonFree_append (a b : string) :
  colonFree (a ++ b) = colonFree a && colonFree b.
Proof.
  induction a as [|c a IH]; cbn; [reflexivity|].
  rewrite IH. now rewrite andb_assoc.
Qed.

Lemma pairLabel_split (item1 item2 : WardrobeItem) (label : string) :
  colonFree (Item.category item1) = true ->
  colonFree (Item.category item2) = true ->
  In label harmonyLabels ->
  nth_error (split ": " (pairLabel item1 item2 label)) 1 = Some label.
Proof.
  intros H1 H2 Hlabel. unfold split, pairLabel.
  assert (Hpre : colonFree (Item.category item1 ++ " + " ++ Item.category item2)
                 = true).
  { rewrite !colonFree_append, H1, H2. reflexivity. }
  replace (Item.category item1 ++ " + " ++ Item.category item2 ++ ": " ++ label)
    with ((Item.category item1 ++ " + " ++ Item.category item2) ++ ": " ++ label)
    by (now rewrite !append_assoc).
  rewrite (splitScan_colonFree _ Hpre), splitScan_at_separator.
  rewrite splitScan_colonFree_whole; [reflexivity|].
  cbn in Hlabel.
  repeat (destruct Hlabel as [<- | Hlabel]; [reflexivity|]). contradiction.
Qed.

(** X10.  For items whose categories contain no colon, the text that the
    explanation takes from a recorded detail ([split(': ')[1]]) is exactly
    the label that was written after the category prefix. *)
Theorem detail_label_recovered (item1 item2 : WardrobeItem) (label : string) :
  colonFree (Item.category item1) = true ->
  colonFree (Item.category item2) = true ->
  In label harmonyLabels ->
  nth_error (split ": " (pairLabel item1 item2 label)) 1 = Some label.
Proof.
  intros H1 H2 Hlabel. unfold split, pairLabel.
  assert (Hpre : colonFree (Item.category item1 ++ " + " ++ Item.category item2)
                 = true).
  { rewrite !colonFree_append, H1, H2. reflexivity. }
  replace (Item.category item1 ++ " + " ++ Item.category item2 ++ ": " ++ label)
    with ((Item.category item1 ++ " + " ++ Item.category item2) ++ ": " ++ label)
    by (now rewrite !append_assoc).
  rewrite (splitScan_colonFree _ Hpre), splitScan_at_separator.
  rewrite splitScan_colonFree_whole; [reflexivity|].
  cbn in Hlabel.
  repeat (destruct Hlabel as [<- | Hlabel]; [reflexivity|]). contradiction.
Qed.

Lemma detail_label_recovered_witness :
  nth_error
    (split ": " (pairLabel Samples.navyShirt Samples.skyJeans
                           "analogous harmony")) 1
  = Some "analogous harmony".
Proof.
  apply (detail_label_recovered Samples.navyShirt Samples.skyJeans
           "analogous harmony" eq_refl eq_refl).
  cbn. auto.
Defined.

Lemma flat_map_first {A B : Type} (f : A -> list B) (l : list A)
    (x : B) (rest : list B) :
  flat_map f l = x :: rest ->
  exists before p after,
    l = (before ++ p :: after)%list /\
    (forall q, In q before -> f q = []) /\
    hd_error (f p) = Some x.
Proof.
  induction l as [|a l IH]; cbn [flat_map]; [discriminate|].
  destruct (f a) as [|y ys] eqn:Ea.
  - cbn [app]. intros E. destruct (IH E) as (before & p & after & -> & Hb & Hp).
    exists (a :: before), p, after. split; [reflexivity|]. split; [|exact Hp].
    intros q [<- | Hq]; [exact Ea | now apply Hb].
  - cbn [app]. intros E. injection E as -> _.
    exists [], a, l. split; [reflexivity|]. split; [intros q []|].
    now rewrite Ea.
Qed.

Lemma pairDetails_first (isFormal : bool) (p : WardrobeItem * WardrobeItem)
    (detail : string) :
  hd_error (pairDetails_spec isFormal p) = Some detail ->
  exists label,
    In label harmonyLabels /\ detail = pairLabel (fst p) (snd p) label.
Proof.
  unfold pairDetails_spec, harmonyLabels.
  destruct (pairHarmony isFormal p >? 0); [|discriminate].
  destruct ((150 <=? pairHueDistance p) && (pairHueDistance p <=? 210)).
  { cbn. intros [= <-]. eexists. split; [|reflexivity]. auto. }
  destruct (pairHueDistance p <=? 30).
  { cbn. intros [= <-]. eexists. split; [|reflexivity]. auto. }
  destruct (eitherNeutral p); [|discriminate].
  cbn. intros [= <-]. eexists. split; [|reflexivity]. auto.
Qed.

(** X9.  In formal context, an outfit with a neutral item is described by
    its neutral items first ("All neutral palette" when every item is
    neutral, else their number); then, when the returned details record
    any harmony, by the text after the first [": "] of the first recorded
    detail and of no other, behind "; "; and it always ends in
    "professional and sophisticated".  For categories without a colon the
    first recorded detail belongs to the first pair, in loop order, that
    recorded any, and the text taken from it is its harmony label. *)
Theorem explanation_formal_neutral (items : list WardrobeItem)
    (item : WardrobeItem) :
  (2 <= List.length items)%nat ->
  In item items -> isNeutralColor (Item.hsl item) = true ->
  let k := List.length
             (filter (fun i => isNeutralColor (Item.hsl i)) items) in
  exists d,
    Scoring.details (scoreOutfitCombination items true) = Some d /\
    Details.harmonyDetails d
    = flat_map (pairDetails_spec true) (unorderedPairs items) /\
    Scoring.explanation (scoreOutfitCombination items true)
    = itemList (fun i => renderProp (Item.hex i)) items ++ " — "
      ++ (if (k =? List.length items)%nat then "All neutral palette"
          else natToString k ++ " neutral item"
               ++ (if (1 <? k)%nat then "s" else "") ++ " provide balance")
      ++ match Details.harmonyDetails d with
         | [] => ""
         | primaryHarmony :: _ =>
             "; " ++ renderProp (nth_error (split ": " primaryHarmony) 1)
         end
      ++ " — professional and sophisticated" /\
    ((forall i, In i items -> colonFree (Item.category i) = true) ->
     forall primaryHarmony rest,
       Details.harmonyDetails d = primaryHarmony :: rest ->
       exists before p after label,
         unorderedPairs items = (before ++ p :: after)%list /\
         (forall q, In q before -> pairDetails_spec true q = []) /\
         hd_error (pairDetails_spec true p) = Some primaryHarmony /\
         In label harmonyLabels /\
         primaryHarmony = pairLabel (fst p) (snd p) label /\
         renderProp (nth_error (split ": " primaryHarmony) 1) = label).
Proof.
  intros Hlen Hin Hn. cbn zeta.
  destruct (scoreOutfitCombination_long items true Hlen)
    as (t & a & _ & _ & E).
  rewrite E. cbn [Scoring.explanation Scoring.details].
  eexists. split; [reflexivity|]. cbn [Details.harmonyDetails].
  split; [reflexivity|]. split.
  - pose proof (neutralItems_some items item Hin Hn) as Hk.
    unfold neutralItems_spec in *.
    set (k := List.length (filter _ items)) in *.
    unfold generateOutfitExplanation, itemList.
    assert (E0 : (k =? 0)%nat = false) by (apply Nat.eqb_neq; lia).
    assert (E1 : (0 <? k)%nat = true) by (apply Nat.ltb_lt; lia).
    rewrite E0, andb_false_r, E1. cbv zeta. cbn [andb]. rewrite !append_empty_l.
    set (neutralText := if (k =? List.length items)%nat then "All neutral palette"
                        else natToString k ++ " neutral item"
                             ++ (if (1 <? k)%nat then "s" else "")
                             ++ " provide balance").
    assert (E2 : (0 <? String.length neutralText)%nat = true).
    { apply Nat.ltb_lt. unfold neutralText.
      destruct (k =? List.length items)%nat; [cbn; lia|].
      rewrite !append_length. cbn. lia. }
    rewrite E2.
    destruct (flat_map (pairDetails_spec true) (unorderedPairs items))
      as [|primaryHarmony rest].
    + now rewrite append_empty_l.
    + now rewrite !append_assoc.
  - intros Hcat primaryHarmony rest Ed.
    destruct (flat_map_first _ _ _ _ Ed) as (before & p & after & Ep & Hb & Hp).
    destruct (pairDetails_first true p primaryHarmony Hp) as (label & Hl & ->).
    exists before, p, after, label.
    split; [exact Ep|]. split; [exact Hb|]. split; [exact Hp|].
    split; [exact Hl|]. split; [reflexivity|].
    assert (Hp' : In p (unorderedPairs items))
      by (rewrite Ep; apply in_or_app; right; now left).
    destruct p as [x y]. apply unorderedPairs_in in Hp'. destruct Hp' as [Hx Hy].
    cbn [fst snd].
    now rewrite (pairLabel_split x y label (Hcat x Hx) (Hcat y Hy) Hl).
Qed.

Lemma explanation_formal_neutral_witness :
  Scoring.explanation
    (scoreOutfitCombination
       [Samples.navyShirt; Samples.skyJeans; Samples.tanShoes] true)
  = "undefined tops + undefined bottoms + undefined footwear — "
    ++ "1 neutral item provide balance"
    ++ "; complementary colors"
    ++ " — professional and sophisticated"
  /\ exists d,
       Scoring.details
         (scoreOutfitCombination
            [Samples.navyShirt; Samples.skyJeans; Samples.tanShoes] true)
       = Some d /\
       (2 <= List.length (Details.harmonyDetails d))%nat.
Proof.
  set (items := [Samples.navyShirt; Samples.skyJeans; Samples.tanShoes]).
  assert (Hlen : (2 <= List.length items)%nat) by (cbn; lia).
  assert (Hin : In Samples.tanShoes items) by (cbn; auto).
  destruct (explanation_formal_neutral items Samples.tanShoes Hlen Hin eq_refl)
    as (d & Ed & Eh & E & _).
  split.
  - rewrite E, Eh. reflexivity.
  - exists d. split; [exact Ed|]. rewrite Eh. vm_compute. lia.
Defined.

(** ** The generator on any source of random numbers *)

Section AnyDraws.

Variable random_values : nat -> Q.
Variable clock_values : nat -> Z.

Lemma pushRequired_length (bucket : list WardrobeItem)
    (combination : list (option WardrobeItem)) (c : Cursor) :
  exists combination' c',
    pushRequired random_values bucket combination c
    = Some (combination', c') /\
    (List.length combination'
     <= List.length combination + occupied bucket)%nat.
Proof.
  unfold pushRequired, occupied.
  destruct (0 <? List.length bucket)%nat.
  - eexists. eexists. split; [reflexivity|]. rewrite length_app. cbn. lia.
  - exists combination, c. split; [reflexivity | lia].
Qed.

Lemma pushOptional_length (threshold : Q) (bucket : list WardrobeItem)
    (combination : list (option WardrobeItem)) (c : Cursor) :
  exists combination' c',
    pushOptional random_values threshold bucket combination c
    = Some (combination', c') /\
    (List.length combination'
     <= List.length combination + occupied bucket)%nat.
Proof.
  unfold pushOptional, occupied.
  destruct (0 <? List.length bucket)%nat.
  - unfold bind at 1, mathRandom.
    destruct (Qgtb (random_values (randoms c)) threshold).
    + eexists. eexists. split; [reflexivity|]. rewrite length_app. cbn. lia.
    + eexists. eexists. split; [reflexivity | lia].
  - exists combination, c. split; [reflexivity | lia].
Qed.

Lemma drawCombination_length (w : Wardrobe.t) (c : Cursor) :
  exists combination c',
    drawCombination random_values (topsOf w) (bottomsOf w) (footwearOf w)
                    (accessoriesOf w) c
    = Some (combination, c') /\
    (List.length combination <= occupiedBuckets w)%nat.
Proof.
  unfold drawCombination, occupiedBuckets.
  destruct (pushRequired_length (topsOf w) [] c) as (c1 & k1 & E1 & L1).
  rewrite (bind_Some _ _ _ _ _ E1).
  destruct (pushRequired_length (bottomsOf w) c1 k1) as (c2 & k2 & E2 & L2).
  rewrite (bind_Some _ _ _ _ _ E2).
  destruct (pushOptional_length (3 # 10) (footwearOf w) c2 k2)
    as (c3 & k3 & E3 & L3).
  rewrite (bind_Some _ _ _ _ _ E3).
  destruct (pushOptional_length (1 # 2) (accessoriesOf w) c3 k3)
    as (c4 & k4 & E4 & L4).
  rewrite (bind_Some _ _ _ _ _ E4).
  exists c4, k4. split; [reflexivity|]. cbn in L1. lia.
Qed.

Lemma generateLoop_sparse (w : Wardrobe.t) (isFormal : bool)
    (maxSuggestions : nat) :
  (occupiedBuckets w < 2)%nat ->
  forall (fuel : nat) (suggestions : list OutfitCandidate) (log : Log)
         (c : Cursor),
  exists log' c',
    generateLoop random_values clock_values fuel (topsOf w) (bottomsOf w)
                 (footwearOf w) (accessoriesOf w) isFormal maxSuggestions
                 suggestions log c
    = Some ((suggestions, log'), c').
Proof.
  intros Hw. induction fuel as [|fuel IH]; intros suggestions log c.
  - exists log, c. reflexivity.
  - cbn [generateLoop].
    destruct (List.length suggestions <? maxSuggestions)%nat.
    + unfold bind at 1, attempt.
      destruct (drawCombination_length w c) as (comb & c1 & E & Hlen).
      rewrite (bind_Some _ _ _ _ _ E).
      assert (Hshort : (List.length comb <? 2)%nat = true)
        by (apply Nat.ltb_lt; lia).
      rewrite Hshort. unfold ret at 1. cbn [afterRound]. apply IH.
    + exists log, c. reflexivity.
Qed.

(** X11.  A wardrobe with fewer than two non-empty buckets yields no
    suggestion, whatever numbers [Math.random()] returns. *)
Theorem sparse_wardrobe_yields_nothing (w : Wardrobe.t) (isFormal : bool)
    (maxSuggestions : nat) (c : Cursor) :
  (occupiedBuckets w < 2)%nat ->
  exists c',
    generateOutfitSuggestions random_values clock_values w isFormal
                              maxSuggestions c = Some ([], c').
Proof.
  intros Hw. unfold generateOutfitSuggestions.
  destruct ((List.length (orEmpty (Wardrobe.tops w)) =? 0)%nat
            && (List.length (orEmpty (Wardrobe.bottoms w)) =? 0)%nat).
  - exists c. reflexivity.
  - destruct (generateLoop_sparse w isFormal maxSuggestions Hw maxCandidates
                [] [] c) as (log & c' & E).
    unfold topsOf, bottomsOf, footwearOf, accessoriesOf in E.
    rewrite (bind_Some _ _ _ _ _ E). exists c'. unfold ret. cbn [fst].
    now rewrite firstn_nil.
Qed.

Lemma afterRound_length (suggestions : list OutfitCandidate) (o : Outcome) :
  (List.length suggestions <= List.length (afterRound suggestions o))%nat.
Proof. destruct o; cbn [afterRound]; rewrite ?length_app; cbn; lia. Qed.

(** The accepted list only grows. *)
Lemma generateLoop_grows (tops bottoms footwear accessories : list WardrobeItem)
    (isFormal : bool) (maxSuggestions : nat) :
  forall (fuel : nat) (suggestions : list OutfitCandidate) (log : Log)
         (c : Cursor) suggestions' log' c',
    generateLoop random_values clock_values fuel tops bottoms footwear
                 accessories isFormal maxSuggestions suggestions log c
    = Some ((suggestions', log'), c') ->
    (List.length suggestions <= List.length suggestions')%nat.
Proof.
  induction fuel as [|fuel IH]; intros suggestions log c s' l' c' E.
  - injection E as <- _ _. lia.
  - cbn [generateLoop] in E.
    destruct (List.length suggestions <? maxSuggestions)%nat.
    + unfold bind at 1 in E.
      destruct (attempt _ _ _ _ _ _ _ _ c) as [[o c1]|]; [|discriminate].
      apply IH in E. pose proof (afterRound_length suggestions o). lia.
    + injection E as <- _ _. lia.
Qed.

(** The number of rounds: at most the fuel, and all of it unless the
    accepted list reached [maxSuggestions]. *)
Lemma generateLoop_rounds (tops bottoms footwear accessories : list WardrobeItem)
    (isFormal : bool) (maxSuggestions : nat) :
  forall (fuel : nat) (suggestions : list OutfitCandidate) (log : Log)
         (c : Cursor) suggestions' log' c',
    generateLoop random_values clock_values fuel tops bottoms footwear
                 accessories isFormal maxSuggestions suggestions log c
    = Some ((suggestions', log'), c') ->
    exists n,
      (n <= fuel)%nat /\
      List.length log' = (List.length log + n)%nat /\
      ((List.length suggestions' < maxSuggestions)%nat -> n = fuel).
Proof.
  induction fuel as [|fuel IH]; intros suggestions log c s' l' c' E.
  - injection E as <- <- _. exists 0%nat. repeat split; lia.
  - cbn [generateLoop] in E.
    destruct (List.length suggestions <? maxSuggestions)%nat eqn:T.
    + unfold bind at 1 in E.
      destruct (attempt _ _ _ _ _ _ _ _ c) as [[o c1]|]; [|discriminate].
      apply IH in E. destruct E as (n & Hn & Hl & Hfull).
      rewrite length_app in Hl. cbn in Hl.
      exists (S n). split; [lia|]. split; [lia|].
      intros H. now rewrite Hfull.
    + injection E as <- <- _. apply Nat.ltb_ge in T.
      exists 0%nat. repeat split; lia.
Qed.

(** Whatever a round pushes is scored from its own items. *)
Lemma attempt_pushed_scoring (tops bottoms footwear accessories : list WardrobeItem)
    (isFormal : bool) (suggestions : list OutfitCandidate) (c c' : Cursor)
    (key : string) (s : OutfitCandidate) :
  attempt random_values clock_values tops bottoms footwear accessories
          isFormal suggestions c = Some (Pushed key s, c') ->
  scoredAs isFormal s.
Proof.
  unfold attempt, bind at 1.
  destruct (drawCombination _ _ _ _ _ c) as [[comb c1]|]; [|discriminate].
  destruct (List.length comb <? 2)%nat; [discriminate|].
  destruct (allDefined comb) as [items|]; [|discriminate].
  destruct (negb (alreadySuggested suggestions (dedupKey items)));
    [|discriminate].
  unfold bind, dateNow, mathRandom, ret. intros E. injection E as _ <- _.
  unfold scoredAs. cbn [Outfit.items Outfit.score Outfit.explanation
                        Outfit.details]. repeat split.
Qed.

Lemma generateLoop_scoredAs (tops bottoms footwear accessories : list WardrobeItem)
    (isFormal : bool) (maxSuggestions : nat) :
  forall (fuel : nat) (suggestions : list OutfitCandidate) (log : Log)
         (c : Cursor) suggestions' log' c',
    Forall (scoredAs isFormal) suggestions ->
    generateLoop random_values clock_values fuel tops bottoms footwear
                 accessories isFormal maxSuggestions suggestions log c
    = Some ((suggestions', log'), c') ->
    Forall (scoredAs isFormal) suggestions'.
Proof.
  induction fuel as [|fuel IH]; intros suggestions log c s' l' c' Hs E.
  - now injection E as <- _ _.
  - cbn [generateLoop] in E.
    destruct (List.length suggestions <? maxSuggestions)%nat.
    + unfold bind at 1 in E.
      destruct (attempt _ _ _ _ _ _ _ _ c) as [[o c1]|] eqn:Eo; [|discriminate].
      apply IH in E; [exact E|].
      destruct o as [comb | comb key | key s]; cbn [afterRound]; try exact Hs.
      apply Forall_app. split; [exact Hs|]. constructor; [|constructor].
      now apply attempt_pushed_scoring in Eo.
    + now injection E as <- _ _.
Qed.

End AnyDraws.

Lemma sparse_wardrobe_yields_nothing_witness :
  exists c',
    generateOutfitSuggestions Samples.draws Samples.clock
      (Wardrobe.mk (Some [Samples.navyShirt; Samples.darkRed]) None None None)
      true 3%nat Samples.start = Some ([], c').
Proof.
  apply sparse_wardrobe_yields_nothing. cbn. lia.
Defined.

(** ** Runs within the contract of [Math.random()] *)

Lemma generateLoop_S random_values clock_values (fuel : nat)
    (tops bottoms footwear accessories : list WardrobeItem)
    (isFormal : bool) (maxSuggestions : nat)
    (suggestions : list OutfitCandidate) (log : Log) :
  generateLoop random_values clock_values (S fuel) tops bottoms footwear
               accessories isFormal maxSuggestions suggestions log
  = if (List.length suggestions <? maxSuggestions)%nat then
      bind (attempt random_values clock_values tops bottoms footwear
                    accessories isFormal suggestions)
           (fun o =>
              generateLoop random_values clock_values fuel tops bottoms
                footwear accessories isFormal maxSuggestions
                (afterRound suggestions o) (log ++ [(suggestions, o)])%list)
    else ret (suggestions, log).
Proof. reflexivity. Qed.

(** The first round on a wardrobe with a top and a bottom pushes. *)
Lemma attempt_first_round random_values clock_values (w : Wardrobe.t)
    (isFormal : bool) (c : Cursor) :
  randomContract random_values ->
  topsOf w <> [] -> bottomsOf w <> [] ->
  exists key s c',
    attempt random_values clock_values (topsOf w) (bottomsOf w) (footwearOf w)
            (accessoriesOf w) isFormal [] c
    = Some (Pushed key s, c').
Proof.
  intros Hrv Ht Hb. unfold attempt.
  destruct (drawCombination_spec random_values Hrv w c)
    as (items & c1 & E & (t & b & f & a & -> & _ & Rt & Rb)).
  rewrite (bind_Some _ _ _ _ _ E). rewrite length_map.
  destruct t as [t|]; [|now elim (Rt Ht)].
  destruct b as [b|]; [|now elim (Rb Hb)].
  cbn [optItem app List.length Nat.ltb Nat.leb].
  rewrite allDefined_map_Some. cbn [alreadySuggested existsb negb].
  eexists. eexists. eexists. reflexivity.
Qed.

Lemma generationRounds_nonempty random_values clock_values (w : Wardrobe.t)
    (isFormal : bool) (maxSuggestions : nat) (c : Cursor)
    (suggestions : list OutfitCandidate) (log : Log) (c' : Cursor) :
  randomContract random_values ->
  topsOf w <> [] -> bottomsOf w <> [] -> (1 <= maxSuggestions)%nat ->
  generationRounds random_values clock_values w isFormal maxSuggestions c
  = Some ((suggestions, log), c') ->
  (1 <= List.length suggestions)%nat.
Proof.
  intros Hrv Ht Hb Hm E. unfold generationRounds in E.
  fold (topsOf w) (bottomsOf w) (footwearOf w) (accessoriesOf w) in E.
  destruct (topsOf w) as [|t0 tops] eqn:Etops; [now elim Ht|].
  cbn [List.length Nat.eqb andb] in E.
  change maxCandidates with (S 199) in E. rewrite generateLoop_S in E.
  assert (T : (List.length (@nil OutfitCandidate) <? maxSuggestions)%nat = true)
    by (apply Nat.ltb_lt; cbn; lia).
  rewrite T in E.
  destruct (attempt_first_round random_values clock_values w isFormal c Hrv)
    as (key & s & c1 & Ea); [now rewrite Etops | exact Hb|].
  rewrite Etops in Ea. rewrite (bind_Some _ _ _ _ _ Ea) in E.
  apply generateLoop_grows in E. cbn in E. lia.
Qed.

Lemma single_item_buckets_keys random_values clock_values
    (w : Wardrobe.t) (t b f a : WardrobeItem) (isFormal : bool)
    (maxSuggestions : nat) (c : Cursor) :
  randomContract random_values ->
  topsOf w = [t] -> bottomsOf w = [b] -> footwearOf w = [f] ->
  accessoriesOf w = [a] ->
  exists suggestions log c',
    generationRounds random_values clock_values w isFormal maxSuggestions c
    = Some ((suggestions, log), c') /\
    (List.length suggestions <= 4)%nat.
Proof.
  intros Hrv Et Eb Ef Ea.
  destruct (generationRounds_spec random_values clock_values Hrv w isFormal
              maxSuggestions c)
    as (suggestions & log & c' & E & (Hok & Hnd & _) & _).
  exists suggestions, log, c'. split; [exact E|].
  rewrite Forall_forall in Hok.
  rewrite <- (length_map (fun s => dedupKey (Outfit.items s))).
  change 4%nat with
    (List.length (map dedupKey [[t; b]; [t; b; f]; [t; b; a]; [t; b; f; a]])).
  apply NoDup_incl_length; [exact Hnd|].
  intros key Hkey. apply in_map_iff in Hkey. destruct Hkey as (s & <- & Hs).
  apply in_map. apply (drawShape_singletons w); try assumption.
  exact (proj1 (Hok s Hs)).
Qed.

(** X12.  Within the contract of [Math.random()], a wardrobe with at
    least one top and one bottom yields at least one suggestion whenever
    one is asked for. *)
Theorem top_and_bottom_yield_a_suggestion random_values clock_values
    (w : Wardrobe.t) (isFormal : bool) (maxSuggestions : nat) (c : Cursor) :
  randomContract random_values ->
  topsOf w <> [] -> bottomsOf w <> [] -> (1 <= maxSuggestions)%nat ->
  exists result c',
    generateOutfitSuggestions random_values clock_values w isFormal
                              maxSuggestions c = Some (result, c') /\
    (1 <= List.length result)%nat.
Proof.
  intros Hrv Ht Hb Hm.
  destruct (generationRounds_spec random_values clock_values Hrv w isFormal
              maxSuggestions c)
    as (suggestions & log & c' & E & _ & Eres).
  exists (firstn maxSuggestions (sortByScore suggestions)), c'.
  split; [exact Eres|].
  pose proof (generationRounds_nonempty random_values clock_values w isFormal
                maxSuggestions c suggestions log c' Hrv Ht Hb Hm E).
  rewrite length_firstn, sortByScore_length. lia.
Qed.

Lemma top_and_bottom_yield_a_suggestion_witness :
  exists result c',
    generateOutfitSuggestions Samples.dashedDraws Samples.clock Samples.dashed
                              true 3%nat Samples.start = Some (result, c') /\
    (1 <= List.length result)%nat.
Proof.
  apply (top_and_bottom_yield_a_suggestion Samples.dashedDraws Samples.clock
           Samples.dashed true 3%nat Samples.start dashedDraws_contract).
  - discriminate.
  - discriminate.
  - lia.
Defined.

(** X13.  With exactly one top, exactly one bottom and no other item, the
    generator returns exactly one suggestion, made of that top and that
    bottom, for every [maxSuggestions] of at least 1. *)
Theorem single_pair_yields_one_suggestion random_values clock_values
    (w : Wardrobe.t) (t b : WardrobeItem) (isFormal : bool)
    (maxSuggestions : nat) (c : Cursor) :
  randomContract random_values ->
  topsOf w = [t] -> bottomsOf w = [b] -> footwearOf w = [] ->
  accessoriesOf w = [] -> (1 <= maxSuggestions)%nat ->
  exists s c',
    generateOutfitSuggestions random_values clock_values w isFormal
                              maxSuggestions c = Some ([s], c') /\
    Outfit.items s = [t; b].
Proof.
  intros Hrv Et Eb Ef Ea Hm.
  destruct (generationRounds_spec random_values clock_values Hrv w isFormal
              maxSuggestions c)
    as (suggestions & log & c' & E & (Hok & Hnd & _) & Eres).
  assert (Hge : (1 <= List.length suggestions)%nat).
  { apply (generationRounds_nonempty random_values clock_values w isFormal
             maxSuggestions c suggestions log c' Hrv); try assumption.
    - now rewrite Et.
    - now rewrite Eb. }
  rewrite Forall_forall in Hok.
  assert (Hall : forall s, In s suggestions -> Outfit.items s = [t; b]).
  { intros s Hs.
    destruct (proj1 (Hok s Hs))
      as (t' & b' & f' & a' & -> & (Ht & Hb & Hf & Ha) & Rt & Rb).
    rewrite Et in Ht, Rt. rewrite Eb in Hb, Rb. rewrite Ef in Hf.
    rewrite Ea in Ha.
    apply drawnFrom_single in Ht, Hb.
    destruct Ht as [-> | ->]; [|now elim Rt].
    destruct Hb as [-> | ->]; [|now elim Rb].
    destruct f' as [f'|]; [contradiction|].
    destruct a' as [a'|]; [contradiction|]. reflexivity. }
  assert (Hle : (List.length suggestions <= 1)%nat).
  { rewrite <- (length_map (fun s => dedupKey (Outfit.items s))).
    change 1%nat with (List.length [dedupKey [t; b]]).
    apply NoDup_incl_length; [exact Hnd|].
    intros key Hkey. apply in_map_iff in Hkey. destruct Hkey as (s & <- & Hs).
    rewrite (Hall s Hs). now left. }
  destruct suggestions as [|s [|s' rest]]; cbn in Hge, Hle; try lia.
  exists s, c'. split.
  - rewrite Eres. destruct maxSuggestions; [lia|].
    cbn [sortByScore fold_right insertByScore firstn]. now rewrite firstn_nil.
  - apply Hall. now left.
Qed.

Lemma single_pair_yields_one_suggestion_witness :
  exists s c',
    generateOutfitSuggestions Samples.draws Samples.clock
      (Wardrobe.mk (Some [Samples.navyShirt]) (Some [Samples.skyJeans])
                   None (Some []))
      false 3%nat Samples.start = Some ([s], c') /\
    Outfit.items s = [Samples.navyShirt; Samples.skyJeans].
Proof.
  apply (single_pair_yields_one_suggestion Samples.draws Samples.clock
           (Wardrobe.mk (Some [Samples.navyShirt]) (Some [Samples.skyJeans])
                        None (Some []))
           Samples.navyShirt Samples.skyJeans false 3%nat Samples.start
           draws_contract eq_refl eq_refl eq_refl eq_refl).
  lia.
Defined.

(** X14.  A call runs at most 200 rounds; when it has a top or a bottom
    to draw from and returns fewer than [maxSuggestions] candidates, it
    ran exactly 200. *)
Theorem attempt_ceiling random_values clock_values (w : Wardrobe.t)
    (isFormal : bool) (maxSuggestions : nat) (c : Cursor) :
  randomContract random_values ->
  exists suggestions log c',
    generationRounds random_values clock_values w isFormal maxSuggestions c
    = Some ((suggestions, log), c') /\
    generateOutfitSuggestions random_values clock_values w isFormal
                              maxSuggestions c
    = Some (firstn maxSuggestions (sortByScore suggestions), c') /\
    (List.length log <= 200)%nat /\
    ((topsOf w <> [] \/ bottomsOf w <> []) ->
     (List.length (firstn maxSuggestions (sortByScore suggestions))
      < maxSuggestions)%nat ->
     List.length log = 200%nat).
Proof.
  intros Hrv.
  destruct (generationRounds_spec random_values clock_values Hrv w isFormal
              maxSuggestions c)
    as (suggestions & log & c' & E & _ & Eres).
  exists suggestions, log, c'.
  split; [exact E|]. split; [exact Eres|].
  unfold generationRounds in E.
  fold (topsOf w) (bottomsOf w) (footwearOf w) (accessoriesOf w) in E.
  destruct ((List.length (topsOf w) =? 0)%nat
            && (List.length (bottomsOf w) =? 0)%nat) eqn:T.
  - injection E as <- <- _. split; [cbn; lia|].
    intros [H | H] _; apply andb_true_iff in T; destruct T as [T1 T2];
      apply Nat.eqb_eq in T1, T2.
    + destruct (topsOf w); [now elim H | discriminate].
    + destruct (bottomsOf w); [now elim H | discriminate].
  - apply generateLoop_rounds in E. destruct E as (n & Hn & Hl & Hfull).
    cbn [List.length Nat.add] in Hl. unfold maxCandidates in *.
    split; [lia|]. intros _ Hres.
    rewrite length_firstn, sortByScore_length in Hres.
    rewrite Hl. apply Hfull. lia.
Qed.

Lemma attempt_ceiling_witness :
  exists suggestions log c',
    generationRounds Samples.draws Samples.clock Samples.capsule false
                     7%nat Samples.start
    = Some ((suggestions, log), c') /\
    List.length log = 200%nat.
Proof.
  destruct (attempt_ceiling Samples.draws Samples.clock Samples.capsule false
              7%nat Samples.start draws_contract)
    as (suggestions & log & c' & E & Eres & _ & H).
  exists suggestions, log, c'. split; [exact E|].
  apply H; [left; discriminate|].
  rewrite length_firstn, sortByScore_length.
  destruct (single_item_buckets_keys Samples.draws Samples.clock
              Samples.capsule Samples.navyShirt Samples.skyJeans
              Samples.tanShoes Samples.sandBelt false 7%nat Samples.start
              draws_contract eq_refl eq_refl eq_refl eq_refl)
    as (suggestions' & log' & c'' & E' & H4).
  rewrite E in E'. injection E' as <- _ _. lia.
Defined.

(** ** The ranking *)

Lemma insertByScore_scoring (q : Q) (c : OutfitCandidate)
    (l : list OutfitCandidate) :
  scoring q (insertByScore c l) = scoring q (c :: l).
Proof.
  unfold scoring. induction l as [|d l IH]; [reflexivity|].
  cbn [insertByScore].
  destruct (Qgtb (Outfit.score d) (Outfit.score c)) eqn:E; [|reflexivity].
  cbn [filter] in *. rewrite IH.
  destruct (Qeq_bool (Outfit.score c) q) eqn:Ec;
    destruct (Qeq_bool (Outfit.score d) q) eqn:Ed; try reflexivity.
  apply Qeq_bool_iff in Ec, Ed. apply Qgtb_lt in E.
  rewrite Ec, Ed in E. now apply Qlt_irrefl in E.
Qed.

Lemma sortByScore_scoring (q : Q) (l : list OutfitCandidate) :
  scoring q (sortByScore l) = scoring q l.
Proof.
  induction l as [|c l IH]; [reflexivity|].
  change (sortByScore (c :: l)) with (insertByScore c (sortByScore l)).
  rewrite insertByScore_scoring. unfold scoring in *. cbn [filter].
  now rewrite IH.
Qed.

(** X15.  What a call returns is cut from a rearrangement of the accepted
    suggestions that is in descending order of score and keeps
    suggestions of equal score in the order in which they were
    accepted. *)
Theorem ranking_is_stable random_values clock_values (w : Wardrobe.t)
    (isFormal : bool) (maxSuggestions : nat) (c : Cursor) :
  randomContract random_values ->
  exists suggestions log ranked c',
    generationRounds random_values clock_values w isFormal maxSuggestions c
    = Some ((suggestions, log), c') /\
    generateOutfitSuggestions random_values clock_values w isFormal
                              maxSuggestions c
    = Some (firstn maxSuggestions ranked, c') /\
    Permutation ranked suggestions /\
    scoreDescending ranked /\
    forall q, scoring q ranked = scoring q suggestions.
Proof.
  intros Hrv.
  destruct (generationRounds_spec random_values clock_values Hrv w isFormal
              maxSuggestions c)
    as (suggestions & log & c' & E & _ & Eres).
  exists suggestions, log, (sortByScore suggestions), c'.
  split; [exact E|]. split; [exact Eres|].
  split; [apply sortByScore_perm|].
  split; [apply sortByScore_sorted|].
  intros q. apply sortByScore_scoring.
Qed.

Lemma ranking_is_stable_witness :
  exists suggestions log ranked c',
    generationRounds Samples.draws Samples.clock Samples.capsule false 3%nat
                     Samples.start
    = Some ((suggestions, log), c') /\
    generateOutfitSuggestions Samples.draws Samples.clock Samples.capsule
                              false 3%nat Samples.start
    = Some (firstn 3%nat ranked, c') /\
    scoring (9 # 2) ranked = scoring (9 # 2) suggestions.
Proof.
  destruct (ranking_is_stable Samples.draws Samples.clock Samples.capsule
              false 3%nat Samples.start draws_contract)
    as (suggestions & log & ranked & c' & E & Eres & _ & _ & H).
  exists suggestions, log, ranked, c'. auto.
Defined.

(** X16.  Every returned suggestion carries the score, the explanation and
    the details that [scoreOutfitCombination] gives for its items (the
    details are present), and contains a top when the wardrobe has tops
    and a bottom when it has bottoms. *)
Theorem suggestions_are_scored_outfits random_values clock_values
    (w : Wardrobe.t) (isFormal : bool) (maxSuggestions : nat) (c : Cursor) :
  randomContract random_values ->
  exists result c',
    generateOutfitSuggestions random_values clock_values w isFormal
                              maxSuggestions c = Some (result, c') /\
    forall s, In s result ->
      scoredAs isFormal s /\
      Outfit.details s <> None /\
      (topsOf w <> [] ->
       exists t, In t (topsOf w) /\ In t (Outfit.items s)) /\
      (bottomsOf w <> [] ->
       exists b, In b (bottomsOf w) /\ In b (Outfit.items s)).
Proof.
  intros Hrv.
  destruct (generationRounds_spec random_values clock_values Hrv w isFormal
              maxSuggestions c)
    as (suggestions & log & c' & E & (Hok & _) & Eres).
  exists (firstn maxSuggestions (sortByScore suggestions)), c'.
  split; [exact Eres|]. intros s Hs.
  apply firstn_in in Hs. apply (proj1 (sortByScore_in _ _)) in Hs.
  assert (Hscored : Forall (scoredAs isFormal) suggestions).
  { unfold generationRounds in E.
    destruct ((List.length (orEmpty (Wardrobe.tops w)) =? 0)%nat
              && (List.length (orEmpty (Wardrobe.bottoms w)) =? 0)%nat).
    - injection E as <- _ _. constructor.
    - eapply generateLoop_scoredAs; [|exact E]. constructor. }
  rewrite Forall_forall in Hok, Hscored.
  specialize (Hscored s Hs).
  destruct (Hok s Hs)
    as ((t & b & f & a & Ei & (Ht & Hb & _) & Rt & Rb) & Hlen & _).
  split; [exact Hscored|]. split; [|split].
  - destruct Hscored as (_ & _ & ->).
    destruct (scoreOutfitCombination_long (Outfit.items s) isFormal Hlen)
      as (q & m & _ & _ & Esc).
    rewrite Esc. discriminate.
  - intros Hne. destruct t as [t|]; [|now elim (Rt Hne)].
    exists t. split; [exact Ht|]. rewrite Ei. cbn. now left.
  - intros Hne. destruct b as [b|]; [|now elim (Rb Hne)].
    exists b. split; [exact Hb|]. rewrite Ei.
    apply in_or_app. right. cbn. now left.
Qed.

Lemma suggestions_are_scored_outfits_witness :
  exists result c',
    generateOutfitSuggestions Samples.draws Samples.clock Samples.capsule
                              true 3%nat Samples.start = Some (result, c') /\
    forall s, In s result -> scoredAs true s /\ Outfit.details s <> None.
Proof.
  destruct (suggestions_are_scored_outfits Samples.draws Samples.clock
              Samples.capsule true 3%nat Samples.start draws_contract)
    as (result & c' & E & H).
  exists result, c'. split; [exact E|].
  intros s Hs. destruct (H s Hs) as (H1 & H2 & _). now split.
Defined.

(** ** The hex color identifier *)

Lemma toInt32_small (n : Z) : - 2 ^ 31 <= n < 2 ^ 31 -> toInt32 n = n.
Proof.
  intros H. unfold toInt32. rewrite Z.mod_small; lia.
Qed.

Lemma shiftLeft_byte (x k : Z) :
  0 <= x <= 255 -> 0 <= k <= 16 -> shiftLeft x k = x * 2 ^ k.
Proof.
  intros Hx Hk. unfold shiftLeft.
  assert (Hp : 0 < 2 ^ k <= 2 ^ 16).
  { split; [apply Z.pow_pos_nonneg; lia|].
    apply Z.pow_le_mono_r; lia. }
  rewrite (toInt32_small x) by lia.
  apply toInt32_small. change (2 ^ 16) with 65536 in Hp. nia.
Qed.

Lemma hexValue_hexDigit (d : Z) :
  0 <= d < 16 -> hexValue (hexDigit d) = Some d.
Proof.
  intros H.
  assert (C : d = 0 \/ d = 1 \/ d = 2 \/ d = 3 \/ d = 4 \/ d = 5 \/ d = 6 \/
              d = 7 \/ d = 8 \/ d = 9 \/ d = 10 \/ d = 11 \/ d = 12 \/
              d = 13 \/ d = 14 \/ d = 15) by lia.
  repeat (destruct C as [-> | C]; [reflexivity|]). now subst.
Qed.

(** Reading back what [toHexDigits] wrote gives the number: the fuel is
    enough for every number below [2 ^ fuel]. *)
Lemma parseHexFrom_toHexDigits :
  forall (fuel : nat) (n : Z) (acc : string),
    0 <= n < 2 ^ Z.of_nat fuel ->
    parseHexFrom 0 (toHexDigits fuel n acc) = parseHexFrom n acc.
Proof.
  induction fuel as [|fuel IH]; intros n acc Hn.
  - cbn in Hn. assert (n = 0) by lia. now subst.
  - cbn [toHexDigits]. cbv zeta.
    rewrite Nat2Z.inj_succ, Z.pow_succ_r in Hn by lia.
    destruct (n <? 16) eqn:E.
    + apply Z.ltb_lt in E. rewrite Z.mod_small by lia.
      cbn [parseHexFrom]. rewrite hexValue_hexDigit by lia.
      now rewrite Z.mul_0_r.
    + apply Z.ltb_ge in E. rewrite IH.
      * cbn [parseHexFrom].
        rewrite hexValue_hexDigit by (apply Z.mod_pos_bound; lia).
        f_equal. pose proof (Z.div_mod n 16). lia.
      * split; [apply Z.div_pos; lia|].
        apply Z.div_lt_upper_bound; lia.
Qed.

(** The text of a non-negative integer in base 16 reads back as that
    integer. *)
Lemma parseHexFrom_toString16 (n : Z) :
  0 <= n -> parseHexFrom 0 (toString16 n) = Some n.
Proof.
  intros Hn. unfold toString16.
  destruct (n <? 0) eqn:E; [apply Z.ltb_lt in E; lia|].
  rewrite parseHexFrom_toHexDigits; [reflexivity|].
  split; [exact Hn|].
  rewrite Nat2Z.inj_succ, Z2Nat.id by apply Z.log2_nonneg.
  destruct (Z.eq_dec n 0) as [-> | Hne]; [reflexivity|].
  apply Z.log2_spec. lia.
Qed.

Lemma toHexDigits_byte (fuel : nat) (m x : Z) (acc : string) :
  0 <= x <= 255 -> 1 <= m ->
  toHexDigits (S (S fuel)) (256 * m + x) acc
  = toHexDigits fuel m
      (String (hexDigit (x / 16)) (String (hexDigit (x mod 16)) acc)).
Proof.
  intros Hx Hm. cbn [toHexDigits]. cbv zeta.
  assert (E1 : (256 * m + x <? 16) = false) by (apply Z.ltb_ge; lia).
  assert (D1 : (256 * m + x) / 16 = 16 * m + x / 16)
    by (Z.to_euclidean_division_equations; lia).
  assert (M1 : (256 * m + x) mod 16 = x mod 16)
    by (Z.to_euclidean_division_equations; lia).
  assert (Hq : 0 <= x / 16 < 16)
    by (Z.to_euclidean_division_equations; lia).
  assert (E2 : (16 * m + x / 16 <? 16) = false) by (apply Z.ltb_ge; lia).
  assert (D2 : (16 * m + x / 16) / 16 = m)
    by (Z.to_euclidean_division_equations; lia).
  assert (M2 : (16 * m + x / 16) mod 16 = x / 16)
    by (Z.to_euclidean_division_equations; lia).
  now rewrite E1, D1, M1, E2, D2, M2.
Qed.

Lemma rgbToHex_pairs (r g b : Z) :
  0 <= r <= 255 -> 0 <= g <= 255 -> 0 <= b <= 255 ->
  rgbToHex r g b = "#" ++ hexPair r ++ hexPair g ++ hexPair b.
Proof.
  intros Hr Hg Hb. unfold rgbToHex.
  rewrite (shiftLeft_byte r 16), (shiftLeft_byte g 8) by lia.
  change (shiftLeft 1 24) with 16777216.
  change (2 ^ 16) with 65536. change (2 ^ 8) with 256.
  set (v := 16777216 + r * 65536 + g * 256 + b).
  assert (Hv : 2 ^ 24 <= v < 2 ^ (24 + 1))
    by (change (2 ^ 24) with 16777216;
        change (2 ^ (24 + 1)) with 33554432; unfold v; lia).
  unfold toString16.
  destruct (v <? 0) eqn:Eneg;
    [apply Z.ltb_lt in Eneg; change (2 ^ 24) with 16777216 in Hv; lia|].
  rewrite (Z.log2_unique v 24) by (try exact Hv; lia).
  change (S (Z.to_nat 24)) with (S (S (S (S (S (S 19)))))).
  replace v with (256 * (256 * (256 * 1 + r) + g) + b) by (unfold v; lia).
  rewrite !toHexDigits_byte by lia.
  reflexivity.
Qed.

Lemma parseHexFrom_hexPair (v x : Z) (rest : string) :
  0 <= x <= 255 ->
  parseHexFrom v (hexPair x ++ rest) = parseHexFrom (256 * v + x) rest.
Proof.
  intros Hx. unfold hexPair. cbn [append parseHexFrom].
  rewrite !hexValue_hexDigit by (Z.to_euclidean_division_equations; lia).
  f_equal. Z.to_euclidean_division_equations. lia.
Qed.

(** X17.  For channels between 0 and 255, [rgbToHex] is a ['#'] followed
    by two lower-case hex digits for each of red, green and blue, with a
    leading zero for a channel below 16: seven characters in all, which
    read back in base 16 as [65536 r + 256 g + b]. *)
Theorem rgbToHex_six_digits (r g b : Z) :
  0 <= r <= 255 -> 0 <= g <= 255 -> 0 <= b <= 255 ->
  rgbToHex r g b = "#" ++ hexPair r ++ hexPair g ++ hexPair b /\
  String.length (rgbToHex r g b) = 7%nat /\
  parseHexFrom 0 (slice1 (rgbToHex r g b)) = Some (65536 * r + 256 * g + b).
Proof.
  intros Hr Hg Hb. rewrite (rgbToHex_pairs r g b Hr Hg Hb).
  split; [reflexivity|]. split; [reflexivity|].
  change (slice1 ("#" ++ hexPair r ++ hexPair g ++ hexPair b))
    with (hexPair r ++ hexPair g ++ hexPair b).
  rewrite !parseHexFrom_hexPair by assumption.
  rewrite <- (append_empty_r (hexPair b)).
  rewrite parseHexFrom_hexPair by assumption.
  cbn [parseHexFrom]. f_equal. lia.
Qed.

Lemma rgbToHex_six_digits_witness :
  rgbToHex 16 32 255 = "#1020ff".
Proof.
  refine (proj1 (rgbToHex_six_digits 16 32 255 _ _ _)); lia.
Defined.

Lemma hexPair_inj (x y : Z) :
  0 <= x <= 255 -> 0 <= y <= 255 -> hexPair x = hexPair y -> x = y.
Proof.
  intros Hx Hy E. unfold hexPair in E. injection E as E1 E2.
  assert (Hqx : 0 <= x / 16 < 16)
    by (split; [apply Z.div_pos; lia | apply Z.div_lt_upper_bound; lia]).
  assert (Hqy : 0 <= y / 16 < 16)
    by (split; [apply Z.div_pos; lia | apply Z.div_lt_upper_bound; lia]).
  pose proof (Z.mod_pos_bound x 16 ltac:(lia)) as Hmx.
  pose proof (Z.mod_pos_bound y 16 ltac:(lia)) as Hmy.
  apply (f_equal hexValue) in E1, E2.
  rewrite !hexValue_hexDigit in E1, E2 by assumption.
  injection E1 as E1. injection E2 as E2.
  pose proof (Z.div_mod x 16). pose proof (Z.div_mod y 16). lia.
Qed.

(** X18.  On channels between 0 and 255 the hex identifier determines
    the color: two colors with the same identifier have the same red,
    green and blue. *)
Theorem rgbToHex_injective (r g b r' g' b' : Z) :
  0 <= r <= 255 -> 0 <= g <= 255 -> 0 <= b <= 255 ->
  0 <= r' <= 255 -> 0 <= g' <= 255 -> 0 <= b' <= 255 ->
  rgbToHex r g b = rgbToHex r' g' b' -> r = r' /\ g = g' /\ b = b'.
Proof.
  intros Hr Hg Hb Hr' Hg' Hb' E.
  rewrite (rgbToHex_pairs r g b), (rgbToHex_pairs r' g' b') in E by assumption.
  unfold hexPair in E. cbn [append] in E.
  injection E as E1 E2 E3 E4 E5 E6.
  repeat split; apply hexPair_inj; try assumption; unfold hexPair; congruence.
Qed.

Lemma rgbToHex_injective_witness : 16 = 16 /\ 32 = 32 /\ 255 = 255.
Proof.
  apply (rgbToHex_injective 16 32 255 16 32 255); try lia. reflexivity.
Defined.

(** ** Upload and grouping *)

Lemma lowerAscii_upperAscii (c : ascii) :
  lowerAscii (upperAscii c) = lowerAscii c.
Proof.
  destruct c as [[] [] [] [] [] [] [] []]; reflexivity.
Qed.

Lemma getOwn_setOwn_same (key : string) (v : list WardrobeItem) (g : Groups) :
  getOwn key (setOwn key v g) = Some v.
Proof.
  induction g as [|[k v0] g IH]; cbn.
  - now rewrite String.eqb_refl.
  - destruct (String.eqb k key) eqn:E; cbn; rewrite E; [reflexivity | exact IH].
Qed.

Lemma getOwn_setOwn_other (key key' : string) (v : list WardrobeItem)
    (g : Groups) :
  key <> key' -> getOwn key' (setOwn key v g) = getOwn key' g.
Proof.
  intros Hne. induction g as [|[k v0] g IH]; cbn.
  - destruct (String.eqb key key') eqn:E; [|reflexivity].
    apply String.eqb_eq in E. contradiction.
  - destruct (String.eqb k key) eqn:E; cbn.
    + apply String.eqb_eq in E. subst k.
      destruct (String.eqb key key') eqn:E'; [|reflexivity].
      apply String.eqb_eq in E'. contradiction.
    + destruct (String.eqb k key'); [reflexivity | exact IH].
Qed.

Lemma bucketOf_snoc_same (items : list WardrobeItem) (item : WardrobeItem) :
  bucketOf (toLowerCase (Item.category item)) (items ++ [item])
  = (bucketOf (toLowerCase (Item.category item)) items ++ [item])%list.
Proof.
  unfold bucketOf. rewrite filter_app. cbn [filter].
  now rewrite String.eqb_refl.
Qed.

Lemma bucketOf_snoc_other (key : string) (items : list WardrobeItem)
    (item : WardrobeItem) :
  toLowerCase (Item.category item) <> key ->
  bucketOf key (items ++ [item]) = bucketOf key items.
Proof.
  intros Hne. unfold bucketOf. rewrite filter_app. cbn [filter].
  destruct (String.eqb (toLowerCase (Item.category item)) key) eqn:E.
  - apply String.eqb_eq in E. contradiction.
  - apply app_nil_r.
Qed.

Lemma bucketOf_nil_iff (key : string) (items : list WardrobeItem) :
  bucketOf key items = [] <->
  forall item, In item items -> toLowerCase (Item.category item) <> key.
Proof.
  unfold bucketOf. split.
  - intros E item Hin Hk.
    assert (H : In item (filter (fun i => String.eqb (toLowerCase (Item.category i)) key)
                                items))
      by (apply filter_In; split; [exact Hin | now apply String.eqb_eq]).
    rewrite E in H. contradiction.
  - intros H. induction items as [|x l IH]; [reflexivity|]. cbn [filter].
    destruct (String.eqb (toLowerCase (Item.category x)) key) eqn:E.
    + apply String.eqb_eq in E. now elim (H x (or_introl eq_refl)).
    + apply IH. intros item Hin. apply H. now right.
Qed.

Lemma presentBucket_snoc (l : list WardrobeItem) (item : WardrobeItem) :
  presentBucket (l ++ [item]) = Some (l ++ [item])%list.
Proof. destruct l; reflexivity. Qed.

Lemma groupStep_ok (seen : list WardrobeItem) (g : Groups) (item : WardrobeItem) :
  groupsAfter seen g ->
  inheritedKey (toLowerCase (Item.category item)) = false ->
  exists g', groupStep g item = Some g' /\ groupsAfter (seen ++ [item]) g'.
Proof.
  intros Hg Hk. unfold groupStep. cbv zeta.
  set (c := toLowerCase (Item.category item)) in *.
  pose proof (Hg c) as Hc.
  assert (Hafter : forall v,
            v = (bucketOf c seen ++ [item])%list ->
            groupsAfter (seen ++ [item]) (setOwn c v g)).
  { intros v -> key. destruct (string_dec c key) as [<- | Hne].
    - rewrite getOwn_setOwn_same. unfold c.
      now rewrite bucketOf_snoc_same, presentBucket_snoc.
    - rewrite (getOwn_setOwn_other c key _ g Hne), Hg.
      now rewrite (bucketOf_snoc_other key seen item Hne). }
  destruct (getOwn c g) as [l|].
  - eexists. split; [reflexivity|]. apply Hafter.
    destruct (bucketOf c seen); cbn in Hc; [discriminate|].
    now injection Hc as ->.
  - rewrite Hk. eexists. split; [reflexivity|]. apply Hafter.
    destruct (bucketOf c seen); [reflexivity | discriminate].
Qed.

Lemma groupItemsFrom_ok (items : list WardrobeItem) :
  forall (seen : list WardrobeItem) (g : Groups),
    groupsAfter seen g ->
    (forall item, In item items ->
       inheritedKey (toLowerCase (Item.category item)) = false) ->
    exists g',
      groupItemsFrom g items = Some g' /\ groupsAfter (seen ++ items) g'.
Proof.
  induction items as [|item rest IH]; intros seen g Hg Hk.
  - exists g. split; [reflexivity|]. now rewrite app_nil_r.
  - destruct (groupStep_ok seen g item Hg (Hk item (or_introl eq_refl)))
      as (g1 & E1 & Hg1).
    cbn [groupItemsFrom]. rewrite E1.
    destruct (IH (seen ++ [item])%list g1 Hg1) as (g' & E' & Hg').
    + intros i Hi. apply Hk. now right.
    + exists g'. split; [exact E'|]. now rewrite <- app_assoc in Hg'.
Qed.

Lemma groupItemsFrom_throws (items : list WardrobeItem) :
  forall (seen : list WardrobeItem) (g : Groups),
    groupsAfter seen g ->
    (forall item, In item seen ->
       inheritedKey (toLowerCase (Item.category item)) = false) ->
    (exists item, In item items /\
       inheritedKey (toLowerCase (Item.category item)) = true) ->
    groupItemsFrom g items = None.
Proof.
  induction items as [|item rest IH]; intros seen g Hg Hseen (bad & Hin & Hbad).
  - contradiction.
  - cbn [groupItemsFrom].
    destruct (inheritedKey (toLowerCase (Item.category item))) eqn:Hk.
    + unfold groupStep. cbv zeta. rewrite Hg.
      assert (E : bucketOf (toLowerCase (Item.category item)) seen = []).
      { apply bucketOf_nil_iff. intros i Hi Ei.
        pose proof (Hseen i Hi) as Hf. rewrite Ei in Hf. congruence. }
      rewrite E. cbn [presentBucket]. now rewrite Hk.
    + destruct (groupStep_ok seen g item Hg Hk) as (g1 & E1 & Hg1).
      rewrite E1. apply (IH (seen ++ [item])%list g1 Hg1).
      * intros i Hi. apply in_app_or in Hi.
        destruct Hi as [Hi | [<- | []]]; [now apply Hseen | exact Hk].
      * destruct Hin as [<- | Hin]; [congruence|]. now exists bad.
Qed.

Lemma groupsAfter_nil : groupsAfter [] [].
Proof. intros key. reflexivity. Qed.

(** What a successful grouping holds. *)
Lemma grouping_spec (items : list WardrobeItem) (g : Groups) :
  groupItemsByCategory items = Some g ->
  forall key, getOwn key g = presentBucket (bucketOf key items).
Proof.
  intros E.
  destruct (existsb (fun item => inheritedKey (toLowerCase (Item.category item)))
                    items) eqn:Hbad.
  - apply existsb_exists in Hbad. unfold groupItemsByCategory in E.
    rewrite (groupItemsFrom_throws items [] [] groupsAfter_nil) in E;
      [discriminate | intros i [] | exact Hbad].
  - destruct (groupItemsFrom_ok items [] [] groupsAfter_nil) as (g' & E' & Hg').
    + intros item Hin.
      destruct (inheritedKey (toLowerCase (Item.category item))) eqn:Hk;
        [|reflexivity].
      assert (T : existsb (fun i => inheritedKey (toLowerCase (Item.category i)))
                          items = true)
        by (apply existsb_exists; now exists item).
      congruence.
    + unfold groupItemsByCategory in E. rewrite E' in E.
      injection E as <-. exact Hg'.
Qed.

(** X19.  [groupItemsByCategory] splits the items by lower-cased
    category: each key holds the items of that category in their
    original order, and a category without items has no key.  This holds
    whenever no category lower-cases to [constructor] or [__proto__]. *)
Theorem grouping_partitions (items : list WardrobeItem) :
  (forall item, In item items ->
     inheritedKey (toLowerCase (Item.category item)) = false) ->
  exists g,
    groupItemsByCategory items = Some g /\
    forall key,
      getOwn key g
      = match filter (fun item =>
                        String.eqb (toLowerCase (Item.category item)) key)
                     items with
        | [] => None
        | bucket => Some bucket
        end.
Proof.
  intros Hk.
  destruct (groupItemsFrom_ok items [] [] groupsAfter_nil Hk) as (g & E & Hg).
  exists g. split; [exact E|]. intros key. rewrite (Hg key).
  unfold bucketOf, presentBucket. cbn [app]. now destruct (filter _ items).
Qed.

Lemma grouping_partitions_witness :
  exists g,
    groupItemsByCategory
      [Samples.navyShirt; Samples.skyJeans; Samples.darkRed] = Some g /\
    getOwn "tops" g = Some [Samples.navyShirt; Samples.darkRed] /\
    getOwn "footwear" g = None.
Proof.
  destruct (grouping_partitions
              [Samples.navyShirt; Samples.skyJeans; Samples.darkRed])
    as (g & E & H).
  - intros item Hin. cbn in Hin.
    repeat (destruct Hin as [<- | Hin]; [reflexivity|]). contradiction.
  - exists g. split; [exact E|]. split; rewrite H; reflexivity.
Defined.

(** X20.  [groupItemsByCategory] throws exactly when some item's category
    lower-cases to a name that an empty object inherits ([constructor] or
    [__proto__]). *)
Theorem grouping_throws_iff (items : list WardrobeItem) :
  groupItemsByCategory items = None <->
  exists item, In item items /\
    (toLowerCase (Item.category item) = "constructor" \/
     toLowerCase (Item.category item) = "__proto__").
Proof.
  assert (Hkey : forall k, inheritedKey k = true <->
                           k = "constructor" \/ k = "__proto__").
  { intros k. unfold inheritedKey. rewrite orb_true_iff, !String.eqb_eq.
    reflexivity. }
  split.
  - intros E.
    destruct (existsb (fun item => inheritedKey (toLowerCase (Item.category item)))
                      items) eqn:Hbad.
    + apply existsb_exists in Hbad. destruct Hbad as (item & Hin & Hb).
      exists item. split; [exact Hin | now apply Hkey].
    + destruct (groupItemsFrom_ok items [] [] groupsAfter_nil) as (g & E' & _).
      * intros item Hin.
        destruct (inheritedKey (toLowerCase (Item.category item))) eqn:Hk;
          [|reflexivity].
        assert (T : existsb (fun i => inheritedKey (toLowerCase (Item.category i)))
                            items = true)
          by (apply existsb_exists; now exists item).
        congruence.
      * unfold groupItemsByCategory in E. congruence.
  - intros (item & Hin & Hb).
    apply (groupItemsFrom_throws items [] [] groupsAfter_nil); [intros i []|].
    exists item. split; [exact Hin | now apply Hkey].
Qed.

Lemma toLowerCase_capitalize (category : string) :
  toLowerCase (capitalize category) = toLowerCase category.
Proof.
  destruct category as [|c rest]; [reflexivity|].
  cbn [capitalize toLowerCase]. now rewrite lowerAscii_upperAscii.
Qed.

(** X21.  An item uploaded on the tile [category] is grouped under the
    lower-cased name of that tile (the capital that the upload puts on
    the category does not matter), and it carries the hex identifier of
    its dominant color. *)
Theorem uploaded_item_is_grouped_under_its_tile (id category : string)
    (r g b : Z) (hsl : HSL) (items : list WardrobeItem) (groups : Groups) :
  In (newItem id category r g b hsl) items ->
  groupItemsByCategory items = Some groups ->
  Item.dominantColorHex (newItem id category r g b hsl) = rgbToHex r g b /\
  exists bucket,
    getOwn (toLowerCase category) groups = Some bucket /\
    In (newItem id category r g b hsl) bucket.
Proof.
  intros Hin E. split; [reflexivity|].
  rewrite (grouping_spec items groups E).
  assert (Hb : In (newItem id category r g b hsl)
                  (bucketOf (toLowerCase category) items)).
  { unfold bucketOf. apply filter_In. split; [exact Hin|].
    cbn [newItem Item.category]. rewrite toLowerCase_capitalize.
    apply String.eqb_refl. }
  destruct (bucketOf (toLowerCase category) items) as [|x l] eqn:Eb;
    [contradiction|].
  exists (x :: l). now split.
Qed.

Lemma uploaded_item_is_grouped_under_its_tile_witness :
  exists bucket,
    getOwn "tops"
      (setOwn "tops" [newItem "item-7-g" "tops" 16 32 48 (mkHSL 210 50 13)] [])
    = Some bucket /\
    In (newItem "item-7-g" "tops" 16 32 48 (mkHSL 210 50 13)) bucket.
Proof.
  refine (proj2 (uploaded_item_is_grouped_under_its_tile
                   "item-7-g" "tops" 16 32 48 (mkHSL 210 50 13)
                   [newItem "item-7-g" "tops" 16 32 48 (mkHSL 210 50 13)]
                   _ _ _)).
  - now left.
  - reflexivity.
Defined.

Lemma asWardrobe_buckets (items : list WardrobeItem) (groups : Groups) :
  groupItemsByCategory items = Some groups ->
  topsOf (asWardrobe groups) = bucketOf "tops" items /\
  bottomsOf (asWardrobe groups) = bucketOf "bottoms" items /\
  footwearOf (asWardrobe groups) = bucketOf "footwear" items /\
  accessoriesOf (asWardrobe groups) = bucketOf "accessories" items.
Proof.
  intros E. pose proof (grouping_spec items groups E) as H.
  unfold topsOf, bottomsOf, footwearOf, accessoriesOf, asWardrobe.
  cbn [Wardrobe.tops Wardrobe.bottoms Wardrobe.footwear Wardrobe.accessories].
  rewrite !H.
  repeat split;
    match goal with
    | |- orEmpty (presentBucket ?l) = _ => now destruct l
    end.
Qed.

Lemma bucketOf_in (key : string) (items : list WardrobeItem) (x : WardrobeItem) :
  In x (bucketOf key items) ->
  In x items /\ toLowerCase (Item.category x) = key.
Proof.
  unfold bucketOf. rewrite filter_In, String.eqb_eq. tauto.
Qed.

(** X22.  Suggestions generated from the grouped wardrobe, as the
    suggestions page does with a limit of 3, are made of items of the
    flat wardrobe list whose category is one of the four tiles up to
    letter case: an item of any other category is never suggested. *)
Theorem suggestions_use_the_four_tiles random_values clock_values
    (items : list WardrobeItem) (groups : Groups) (isFormal : bool)
    (c : Cursor) :
  randomContract random_values ->
  groupItemsByCategory items = Some groups ->
  exists result c',
    generateOutfitSuggestions random_values clock_values (asWardrobe groups)
                              isFormal 3%nat c = Some (result, c') /\
    (List.length result <= 3)%nat /\
    forall s item, In s result -> In item (Outfit.items s) ->
      In item items /\
      In (toLowerCase (Item.category item))
         ["tops"; "bottoms"; "footwear"; "accessories"].
Proof.
  intros Hrv E.
  destruct (generationRounds_spec random_values clock_values Hrv
              (asWardrobe groups) isFormal 3%nat c)
    as (suggestions & log & c' & _ & (Hok & _) & Eres).
  exists (firstn 3%nat (sortByScore suggestions)), c'.
  split; [exact Eres|]. split; [apply firstn_le_length|].
  intros s item Hs Hitem.
  apply firstn_in in Hs. apply (proj1 (sortByScore_in _ _)) in Hs.
  rewrite Forall_forall in Hok.
  pose proof (drawShape_in _ _ item (proj1 (Hok s Hs)) Hitem) as Hin.
  destruct (asWardrobe_buckets items groups E) as (Et & Eb & Ef & Ea).
  unfold itemsOf in Hin. rewrite Et, Eb, Ef, Ea in Hin.
  rewrite !in_app_iff in Hin.
  destruct Hin as [H | [H | [H | H]]]; apply bucketOf_in in H;
    destruct H as [H1 H2]; (split; [exact H1|]); rewrite H2; cbn; auto.
Qed.

Lemma suggestions_use_the_four_tiles_witness :
  exists result c',
    generateOutfitSuggestions Samples.draws Samples.clock
      (asWardrobe [("tops", [Samples.navyShirt]);
                   ("bottoms", [Samples.skyJeans])])
      true 3%nat Samples.start = Some (result, c') /\
    (List.length result <= 3)%nat.
Proof.
  destruct (suggestions_use_the_four_tiles Samples.draws Samples.clock
              [Samples.navyShirt; Samples.skyJeans]
              [("tops", [Samples.navyShirt]); ("bottoms", [Samples.skyJeans])]
              true Samples.start draws_contract eq_refl)
    as (result & c' & E & H & _).
  exists result, c'. now split.
Defined.

Lemma bucket_lengths (items : list WardrobeItem) :
  (forall item, In item items ->
     In (toLowerCase (Item.category item)) categoryKeys) ->
  (List.length (bucketOf "tops" items) + List.length (bucketOf "bottoms" items)
   + List.length (bucketOf "footwear" items)
   + List.length (bucketOf "accessories" items)
   = List.length items)%nat.
Proof.
  induction items as [|x l IH]; intros H; [reflexivity|].
  assert (IH' := IH (fun item Hin => H item (or_intror Hin))).
  pose proof (H x (or_introl eq_refl)) as Hx.
  unfold bucketOf in *. cbn [filter List.length].
  cbn in Hx.
  destruct Hx as [<- | [<- | [<- | [<- | []]]]]; cbn [String.eqb Ascii.eqb];
    cbn; lia.
Qed.

Lemma bucket_lengths_le (items : list WardrobeItem) :
  (List.length (bucketOf "tops" items) + List.length (bucketOf "bottoms" items)
   + List.length (bucketOf "footwear" items)
   + List.length (bucketOf "accessories" items)
   <= List.length items)%nat.
Proof.
  induction items as [|x l IH]; [cbn; lia|].
  unfold bucketOf in *. cbn [filter List.length].
  destruct (string_dec (toLowerCase (Item.category x)) "tops") as [-> | N1];
    [cbn; lia|].
  destruct (string_dec (toLowerCase (Item.category x)) "bottoms") as [-> | N2];
    [cbn; lia|].
  destruct (string_dec (toLowerCase (Item.category x)) "footwear") as [-> | N3];
    [cbn; lia|].
  destruct (string_dec (toLowerCase (Item.category x)) "accessories")
    as [-> | N4]; [cbn; lia|].
  apply String.eqb_neq in N1, N2, N3, N4. rewrite N1, N2, N3, N4. lia.
Qed.

Lemma lengthOrZero_present (l : list WardrobeItem) :
  lengthOrZero (presentBucket l) = List.length l.
Proof. now destruct l. Qed.

(** X23.  When the statistics of the wardrobe page can be computed, the
    count shown for each tile is the number of items that the filter of
    that tile shows, the four counts never add up to more than the
    total, and they add up to the total when every item belongs to one of
    the four tiles. *)
Theorem category_stats_match_filters (wardrobeItems : list WardrobeItem)
    (st : Stats.t) :
  getCategoryStats wardrobeItems = Some st ->
  Stats.total st = List.length (filterItems "all" wardrobeItems) /\
  Stats.tops st = List.length (filterItems "tops" wardrobeItems) /\
  Stats.bottoms st = List.length (filterItems "bottoms" wardrobeItems) /\
  Stats.footwear st = List.length (filterItems "footwear" wardrobeItems) /\
  Stats.accessories st
  = List.length (filterItems "accessories" wardrobeItems) /\
  (Stats.tops st + Stats.bottoms st + Stats.footwear st + Stats.accessories st
   <= Stats.total st)%nat /\
  ((forall item, In item wardrobeItems ->
      In (toLowerCase (Item.category item))
         ["tops"; "bottoms"; "footwear"; "accessories"]) ->
   (Stats.tops st + Stats.bottoms st + Stats.footwear st
    + Stats.accessories st = Stats.total st)%nat).
Proof.
  unfold getCategoryStats.
  destruct (groupItemsByCategory wardrobeItems) as [g|] eqn:E; [|discriminate].
  intros H. injection H as <-.
  pose proof (grouping_spec wardrobeItems g E) as Hg.
  cbn [Stats.total Stats.tops Stats.bottoms Stats.footwear Stats.accessories].
  rewrite !Hg, !lengthOrZero_present.
  repeat split.
  - apply bucket_lengths_le.
  - apply bucket_lengths.
Qed.

Lemma category_stats_match_filters_witness :
  Stats.tops (Stats.mk 3 2 1 0 0)
  = List.length
      (filterItems "tops" [Samples.navyShirt; Samples.skyJeans; Samples.darkRed]).
Proof.
  refine (proj1 (proj2 (category_stats_match_filters
                          [Samples.navyShirt; Samples.skyJeans; Samples.darkRed]
                          (Stats.mk 3 2 1 0 0) _))).
  reflexivity.
Defined.

(** ** Persistence *)

Lemma filter_all {A : Type} (f : A -> bool) (l : list A) :
  (forall x, In x l -> f x = true) -> filter f l = l.
Proof.
  induction l as [|x l IH]; intros H; cbn; [reflexivity|].
  rewrite (H x (or_introl eq_refl)). f_equal. apply IH.
  intros y Hy. apply H. now right.
Qed.

Lemma itemObject_writesId : writesId itemObject.
Proof. intros stored. reflexivity. Qed.

Lemma filterById_items (itemJson : Stored.t -> Json) (itemId : string)
    (items : list Stored.t) :
  writesId itemJson ->
  filterById (Some (JString itemId)) (map itemJson items)
  = Some (map itemJson (withoutId itemId items)).
Proof.
  intros Hid. induction items as [|i items IH]; [reflexivity|].
  cbn [map filterById]. rewrite (Hid i), IH.
  unfold withoutId. cbn [strictEquals filter].
  destruct (String.eqb (Item.id (Stored.item i)) itemId); reflexivity.
Qed.

Lemma filterById_null (itemId : JsValue) (items : list Json) :
  In JNull items -> filterById itemId items = None.
Proof.
  induction items as [|i items IH]; intros Hin; [contradiction|].
  destruct Hin as [-> | Hin]; [reflexivity|].
  cbn [filterById]. rewrite (IH Hin). now destruct (readId i).
Qed.

Lemma withoutId_spec (itemId : string) (items : list Stored.t) (i : Stored.t) :
  In i (withoutId itemId items) -> Item.id (Stored.item i) <> itemId.
Proof.
  unfold withoutId. intros Hi. apply filter_In in Hi.
  destruct Hi as [_ Hi]. apply negb_true_iff in Hi.
  now apply String.eqb_neq in Hi.
Qed.

Lemma withoutId_fresh (itemId : string) (items : list Stored.t) :
  (forall i, In i items -> Item.id (Stored.item i) <> itemId) ->
  withoutId itemId items = items.
Proof.
  intros H. apply filter_all. intros i Hi.
  apply negb_true_iff. apply String.eqb_neq. now apply H.
Qed.

Lemma deleteWardrobeItem_notArray (fits : Storage.t -> bool) (itemId : JsValue)
    (st : Storage.t) :
  notArray (loadWardrobeItems st) ->
  deleteWardrobeItem fits itemId st = (loadWardrobeItems st, st).
Proof.
  intros Hn. unfold deleteWardrobeItem.
  destruct (loadWardrobeItems st) as [| | | |items|] eqn:E; try reflexivity.
  now elim (Hn items).
Qed.

Lemma deleteWardrobeItem_items (fits : Storage.t -> bool)
    (itemJson : Stored.t -> Json) (itemId : string)
    (st : Storage.t) (items : list Stored.t) :
  writesId itemJson ->
  loadWardrobeItems st = JArray (map itemJson items) ->
  deleteWardrobeItem fits (Some (JString itemId)) st
  = (JArray (map itemJson (withoutId itemId items)),
     saveWardrobeItems fits (JArray (map itemJson (withoutId itemId items))) st).
Proof.
  intros Hid E. unfold deleteWardrobeItem.
  now rewrite E, (filterById_items itemJson itemId items Hid).
Qed.

(** X24.  On a stored array of wardrobe items (objects whose [id] is the
    identifier of the item), [deleteWardrobeItem] returns the items whose
    identifier differs from the given one, in their stored order, and
    leaves the saved outfits alone; an accepted write stores exactly this
    list, a refused one leaves the storage as it was, and an identifier
    that no stored item has leaves the list as it was.  When the stored
    text parses to something that is not an array, or to an array with a
    [null] element, the filter throws: the function returns what
    [loadWardrobeItems] returns and writes nothing. *)
Theorem deleteWardrobeItem_removes_by_id (fits : Storage.t -> bool)
    (itemJson : Stored.t -> Json) (itemId : string) (st : Storage.t) :
  (writesId itemJson ->
   forall items : list Stored.t,
     loadWardrobeItems st = JArray (map itemJson items) ->
     let kept := withoutId itemId items in
     let content := Storage.mk (Parsed (JArray (map itemJson kept)))
                               (Storage.saved_outfits st) in
     let st' := snd (deleteWardrobeItem fits (Some (JString itemId)) st) in
     fst (deleteWardrobeItem fits (Some (JString itemId)) st)
     = JArray (map itemJson kept) /\
     Storage.saved_outfits st' = Storage.saved_outfits st /\
     (forall i, In i kept -> Item.id (Stored.item i) <> itemId) /\
     (fits content = true -> st' = content) /\
     (fits content = false -> st' = st) /\
     ((forall i, In i items -> Item.id (Stored.item i) <> itemId) ->
      kept = items)) /\
  (notArray (loadWardrobeItems st) ->
   forall id : JsValue,
     deleteWardrobeItem fits id st = (loadWardrobeItems st, st)) /\
  (forall elements : list Json,
     loadWardrobeItems st = JArray elements -> In JNull elements ->
     forall id : JsValue,
       deleteWardrobeItem fits id st = (loadWardrobeItems st, st)).
Proof.
  split; [|split].
  - intros Hid items E. cbv zeta.
    rewrite (deleteWardrobeItem_items fits itemJson itemId st items Hid E).
    cbn [fst snd]. unfold saveWardrobeItems, setWardrobeItems. cbv zeta.
    split; [reflexivity|]. split; [|split; [|split; [|split]]].
    + destruct (fits _); reflexivity.
    + apply withoutId_spec.
    + now intros ->.
    + now intros ->.
    + apply withoutId_fresh.
  - intros Hn id. now apply deleteWardrobeItem_notArray.
  - intros elements E Hnull id. unfold deleteWardrobeItem.
    now rewrite E, (filterById_null id elements Hnull).
Qed.

Lemma deleteWardrobeItem_removes_by_id_witness :
  snd (deleteWardrobeItem (fun _ => true) (Some (JString "item-1-a"))
         (Storage.mk (Parsed (JArray [itemObject (Stored.mk Samples.navyShirt 5);
                                      itemObject (Stored.mk Samples.skyJeans 6)]))
                     Absent))
  = Storage.mk (Parsed (JArray [itemObject (Stored.mk Samples.skyJeans 6)])) Absent
  /\ deleteWardrobeItem (fun _ => true) (Some (JString "item-1-a"))
       (Storage.mk (Parsed JNull) Absent)
     = (JNull, Storage.mk (Parsed JNull) Absent).
Proof.
  split.
  - refine (proj1 (proj2 (proj2 (proj2
              (proj1 (deleteWardrobeItem_removes_by_id (fun _ => true)
                        itemObject "item-1-a"
                        (Storage.mk
                           (Parsed (JArray [itemObject (Stored.mk Samples.navyShirt 5);
                                            itemObject (Stored.mk Samples.skyJeans 6)]))
                           Absent))
                     itemObject_writesId
                     [Stored.mk Samples.navyShirt 5; Stored.mk Samples.skyJeans 6]
                     eq_refl)))) _).
    reflexivity.
  - refine (proj1 (proj2 (deleteWardrobeItem_removes_by_id (fun _ => true)
                            itemObject "item-1-a"
                            (Storage.mk (Parsed JNull) Absent)))
                  _ (Some (JString "item-1-a"))).
    intros elements. discriminate.
Defined.

(** X25.  [addWardrobeItem] returns [null] exactly when the stored text
    parses to something that is not an array, and then writes nothing.
    Otherwise it returns the item: it keeps a non-empty identifier,
    stamps the item with the current time and leaves its category and
    colors as they are; an accepted write stores the array that was
    there with the item after it and leaves the saved outfits alone, a
    refused one leaves the storage as it was. *)
Theorem addWardrobeItem_appends (fits : Storage.t -> bool)
    random_values clock_values (itemIdText : Z -> Q -> string)
    (itemJson : Stored.t -> Json)
    (item : WardrobeItem) (st : Storage.t) (c : Cursor) :
  (forall elements : list Json,
     loadWardrobeItems st = JArray elements ->
     exists stored st' c',
       addWardrobeItem fits random_values clock_values itemIdText itemJson
                       item st c
       = (Some stored, st', c') /\
       (Item.id item <> "" -> Item.id (Stored.item stored) = Item.id item /\
                              Stored.addedAt stored = clock_values (ticks c)) /\
       Item.category (Stored.item stored) = Item.category item /\
       Item.dominantColorHex (Stored.item stored) = Item.dominantColorHex item /\
       Item.hsl (Stored.item stored) = Item.hsl item /\
       let content :=
         Storage.mk (Parsed (JArray (elements ++ [itemJson stored])))
                    (Storage.saved_outfits st) in
       (fits content = true -> st' = content) /\
       (fits content = false -> st' = st)) /\
  (notArray (loadWardrobeItems st) ->
   exists c',
     addWardrobeItem fits random_values clock_values itemIdText itemJson
                     item st c
     = (None, st, c')) /\
  (fst (fst (addWardrobeItem fits random_values clock_values itemIdText
                             itemJson item st c)) = None
   <-> notArray (loadWardrobeItems st)).
Proof.
  split; [|split].
  - intros elements E. unfold addWardrobeItem. rewrite E.
    destruct (0 <? String.length (Item.id item))%nat eqn:El.
    + eexists. eexists. eexists. split; [reflexivity|].
      cbn [Stored.item Stored.addedAt withId Item.id Item.category
           Item.dominantColorHex Item.hsl].
      repeat split.
      * unfold saveWardrobeItems, setWardrobeItems. cbv zeta. now intros ->.
      * unfold saveWardrobeItems, setWardrobeItems. cbv zeta. now intros ->.
    + eexists. eexists. eexists. split; [reflexivity|].
      cbn [Stored.item Stored.addedAt withId Item.id Item.category
           Item.dominantColorHex Item.hsl].
      split; [|repeat split].
      * intros Hne. destruct (Item.id item); [now elim Hne | discriminate El].
      * unfold saveWardrobeItems, setWardrobeItems. cbv zeta. now intros ->.
      * unfold saveWardrobeItems, setWardrobeItems. cbv zeta. now intros ->.
  - intros Hn. unfold addWardrobeItem.
    destruct (loadWardrobeItems st) as [| | | |elements|] eqn:E;
      try (destruct (0 <? String.length (Item.id item))%nat;
           eexists; reflexivity).
    now elim (Hn elements).
  - unfold addWardrobeItem, notArray.
    destruct (loadWardrobeItems st) as [| | | |elements|] eqn:E;
      destruct (0 <? String.length (Item.id item))%nat; cbn [fst];
      split; intros H; try reflexivity; try discriminate;
      try (now elim (H elements)).
Qed.

Lemma addWardrobeItem_appends_witness :
  (exists stored st' c',
     addWardrobeItem (fun _ => true) Samples.draws Samples.clock
                     (fun _ _ => "item-0-x") itemObject Samples.skyJeans
                     (Storage.mk
                        (Parsed (JArray [itemObject (Stored.mk Samples.navyShirt 5)]))
                        Absent)
                     Samples.start
     = (Some stored, st', c') /\
     loadWardrobeItems st'
     = JArray [itemObject (Stored.mk Samples.navyShirt 5); itemObject stored]) /\
  (exists c',
     addWardrobeItem (fun _ => true) Samples.draws Samples.clock
                     (fun _ _ => "item-0-x") itemObject Samples.skyJeans
                     (Storage.mk (Parsed (JObject [])) Absent) Samples.start
     = (None, Storage.mk (Parsed (JObject [])) Absent, c')).
Proof.
  split.
  - destruct (proj1 (addWardrobeItem_appends (fun _ => true) Samples.draws
                       Samples.clock (fun _ _ => "item-0-x") itemObject
                       Samples.skyJeans
                       (Storage.mk
                          (Parsed (JArray [itemObject (Stored.mk Samples.navyShirt 5)]))
                          Absent)
                       Samples.start)
                    [itemObject (Stored.mk Samples.navyShirt 5)] eq_refl)
      as (stored & st' & c' & E & _ & _ & _ & _ & H & _).
    exists stored, st', c'. split; [exact E|]. now rewrite (H eq_refl).
  - apply (proj1 (proj2 (addWardrobeItem_appends (fun _ => true) Samples.draws
                           Samples.clock (fun _ _ => "item-0-x") itemObject
                           Samples.skyJeans
                           (Storage.mk (Parsed (JObject [])) Absent)
                           Samples.start))).
    intros elements. discriminate.
Defined.

(** X26.  A refused write goes unnoticed by the wardrobe functions: on a
    stored array, [addWardrobeItem] still returns the item and
    [deleteWardrobeItem] still returns the shortened list, while the
    storage keeps its old content; [saveOutfit], in contrast, returns
    [null]. *)
Theorem refused_writes (fits : Storage.t -> bool)
    random_values clock_values (itemIdText : Z -> Q -> string)
    (itemJson : Stored.t -> Json) (outfitJson : Saved.t -> Json)
    (st : Storage.t) (c : Cursor) :
  (forall st', fits st' = false) ->
  (forall item elements,
     loadWardrobeItems st = JArray elements ->
     exists stored c',
       addWardrobeItem fits random_values clock_values itemIdText itemJson
                       item st c
       = (Some stored, st, c')) /\
  (writesId itemJson ->
   forall itemId items,
     loadWardrobeItems st = JArray (map itemJson items) ->
     deleteWardrobeItem fits (Some (JString itemId)) st
     = (JArray (map itemJson (withoutId itemId items)), st)) /\
  (forall outfit,
     exists c',
       saveOutfit fits clock_values outfitJson outfit st c = (None, st, c')).
Proof.
  intros Hfull. split; [|split].
  - intros item elements E.
    unfold addWardrobeItem, saveWardrobeItems, setWardrobeItems. rewrite E.
    destruct (0 <? String.length (Item.id item))%nat;
      cbv zeta; rewrite Hfull; eexists; eexists; reflexivity.
  - intros Hid itemId items E.
    rewrite (deleteWardrobeItem_items fits itemJson itemId st items Hid E).
    unfold saveWardrobeItems, setWardrobeItems.
    cbv zeta. now rewrite Hfull.
  - intros outfit. unfold saveOutfit, setSavedOutfits. cbv zeta.
    destruct (loadSavedOutfits st); try (eexists; reflexivity).
    rewrite Hfull. eexists. reflexivity.
Qed.

Lemma refused_writes_witness :
  (exists stored c',
     addWardrobeItem (fun _ => false) Samples.draws Samples.clock
                     (fun _ _ => "item-0-x") itemObject Samples.navyShirt
                     (Storage.mk Absent Absent) Samples.start
     = (Some stored, Storage.mk Absent Absent, c')) /\
  (exists c',
     saveOutfit (fun _ => false) Samples.clock (fun _ => JNull)
                (Outfit.mk (Outfit.mkIdent 0 0) [] 0 "" None "casual" 0)
                (Storage.mk Absent Absent) Samples.start
     = (None, Storage.mk Absent Absent, c')).
Proof.
  split.
  - apply (proj1 (refused_writes (fun _ => false) Samples.draws Samples.clock
                    (fun _ _ => "item-0-x") itemObject (fun _ => JNull)
                    (Storage.mk Absent Absent)
                    Samples.start (fun _ => eq_refl))
                 Samples.navyShirt [] eq_refl).
  - apply (proj2 (proj2 (refused_writes (fun _ => false) Samples.draws
                           Samples.clock (fun _ _ => "item-0-x") itemObject
                           (fun _ => JNull) (Storage.mk Absent Absent)
                           Samples.start (fun _ => eq_refl)))).
Defined.

(** X27.  On a storage that accepts every write and holds an array of
    wardrobe items, adding an item whose identifier is new and then
    deleting that identifier gives back the array that was stored
    before, both as the returned value and as the stored content. *)
Theorem add_then_delete_restores (fits : Storage.t -> bool)
    random_values clock_values (itemIdText : Z -> Q -> string)
    (itemJson : Stored.t -> Json)
    (item : WardrobeItem) (st : Storage.t) (c : Cursor)
    (items : list Stored.t) :
  (forall st', fits st' = true) ->
  writesId itemJson ->
  loadWardrobeItems st = JArray (map itemJson items) ->
  Item.id item <> "" ->
  (forall i, In i items -> Item.id (Stored.item i) <> Item.id item) ->
  let st1 := snd (fst (addWardrobeItem fits random_values clock_values
                                       itemIdText itemJson item st c)) in
  let added := Stored.mk item (clock_values (ticks c)) in
  fst (fst (addWardrobeItem fits random_values clock_values itemIdText
                            itemJson item st c)) = Some added /\
  loadWardrobeItems st1 = JArray (map itemJson (items ++ [added])) /\
  fst (deleteWardrobeItem fits (Some (JString (Item.id item))) st1)
  = loadWardrobeItems st /\
  loadWardrobeItems (snd (deleteWardrobeItem fits (Some (JString (Item.id item)))
                                             st1))
  = loadWardrobeItems st.
Proof.
  intros Hfits Hwr E Hid Hfresh. cbn zeta.
  assert (El : (0 <? String.length (Item.id item))%nat = true)
    by (destruct (Item.id item); [now elim Hid | reflexivity]).
  assert (Ew : withId item (Item.id item) = item) by (now destruct item).
  set (added := Stored.mk item (clock_values (ticks c))).
  assert (Ea : addWardrobeItem fits random_values clock_values itemIdText
                               itemJson item st c
               = (Some added,
                  Storage.mk (Parsed (JArray (map itemJson (items ++ [added]))))
                             (Storage.saved_outfits st),
                  mkCursor (randoms c) (S (ticks c)))).
  { unfold addWardrobeItem. rewrite E, El. cbv zeta. rewrite Ew.
    unfold saveWardrobeItems, setWardrobeItems. cbv zeta. rewrite Hfits.
    rewrite map_app. reflexivity. }
  rewrite Ea. cbn [fst snd].
  split; [reflexivity|]. split; [reflexivity|].
  rewrite (deleteWardrobeItem_items fits itemJson (Item.id item)
             (Storage.mk (Parsed (JArray (map itemJson (items ++ [added]))))
                         (Storage.saved_outfits st))
             (items ++ [added]) Hwr eq_refl).
  assert (F : withoutId (Item.id item) (items ++ [added]) = items).
  { unfold withoutId. rewrite filter_app.
    cbn [filter Stored.item added]. rewrite String.eqb_refl. cbn [negb].
    rewrite app_nil_r. now apply withoutId_fresh. }
  rewrite F. cbn [fst snd]. unfold saveWardrobeItems, setWardrobeItems.
  cbv zeta. rewrite Hfits. now rewrite E.
Qed.

Lemma add_then_delete_restores_witness :
  fst (deleteWardrobeItem (fun _ => true) (Some (JString "item-2-b"))
         (snd (fst (addWardrobeItem (fun _ => true) Samples.draws
                      Samples.clock (fun _ _ => "item-0-x") itemObject
                      Samples.skyJeans
                      (Storage.mk
                         (Parsed (JArray [itemObject (Stored.mk Samples.navyShirt 5)]))
                         Unreadable)
                      Samples.start))))
  = JArray [itemObject (Stored.mk Samples.navyShirt 5)].
Proof.
  refine (proj1 (proj2 (proj2
            (add_then_delete_restores (fun _ => true) Samples.draws
               Samples.clock (fun _ _ => "item-0-x") itemObject Samples.skyJeans
               (Storage.mk
                  (Parsed (JArray [itemObject (Stored.mk Samples.navyShirt 5)]))
                  Unreadable)
               Samples.start [Stored.mk Samples.navyShirt 5]
               (fun _ => eq_refl) itemObject_writesId eq_refl _ _)))).
  - discriminate.
  - intros i [<- | []]. discriminate.
Defined.

Lemma score_bounds_witness :
  (0 <= Scoring.score
          (scoreOutfitCombination [Samples.darkRed; Samples.paleLime] false))%Q.
Proof.
  exact (proj1 (proj1 (proj2 (proj2
           (score_bounds [Samples.darkRed; Samples.paleLime] false))) eq_refl)).
Defined.
